(** * DeepSeek MCP server (Python track): client core

    A shallow embedding of [implementations/python/deepseek_mcp_server.py]:
    base-URL helpers, error classification, streaming-chunk aggregation,
    the two [DeepSeekApiClient.create_*] methods with their single
    corrective retry, and the two tool functions that build the payload.

    Conventions of the embedding.
    - A Python [str] is a [string]: its UTF-8 encoding, byte by byte.
      [strip] removes the whitespace of [str.isspace], of one, two or
      three bytes. [lower] acts on the ASCII letters: the only ASCII
      letters that other characters lower to are [k] (from U+212A) and
      [i] (from U+0130), and no word the code looks for in a lowered
      string has either.
    - A value of type [Any] is a [json]; Python's [None] is [JNull]; a
      [float] is an IEEE 754 value ([spec_float]).
    - A Python [dict] is an association list in insertion order with
      unique keys ([Py.set] replaces in place or appends).
    - Request payloads are heap objects: the heap is a list of dicts and a
      reference is an index into it, so that [dict(payload)] and
      [payload["model"] = ...] are an allocation and an in-place update.
    - The HTTP library, the clock, the JSON parser and [repr] are not part
      of the repository; they are parameters of the development. What
      the HTTP library raises when no response arrives is the exception
      [TransportError]; it is not a [DeepSeekApiError]. [json.loads] on a
      string and [response.json()] on the bytes of a body are two
      decoders; each returns a value or fails with a [JSONDecodeError],
      with another [ValueError], or with something else, and a handler
      catches what its [except] clause names.
    - The issued requests are logged in the state ([sent]), so that
      theorems can say which requests a call made. *)

From Stdlib Require Import ZArith List String Ascii Bool Lia.
From Stdlib Require Import SpecFloat.
From Stdlib Require DecimalString.
From stdpp Require Import base list.
Import ListNotations.

Set Warnings "-register-all".

Local Open Scope string_scope.
Local Open Scope Z_scope.

(** ** Python strings *)

Module PyStr.

(** [c in chars], for a character and a string used as a set. *)
Fixpoint mem (c : ascii) (chars : string) : bool :=
  match chars with
  | EmptyString => false
  | String x rest => Ascii.eqb c x || mem c rest
  end.

(** [s.rstrip(chars)]: drop every trailing character that is in [chars]. *)
Fixpoint rstrip (chars s : string) : string :=
  match s with
  | EmptyString => EmptyString
  | String c rest =>
      match rstrip chars rest with
      | EmptyString => if mem c chars then EmptyString else String c EmptyString
      | String _ _ as r => String c r
      end
  end.

(** The character with a given code, and the string with given codes. *)
Definition byte (n : nat) : ascii := ascii_of_nat n.
Definition bytes (codes : list nat) : string :=
  string_of_list_ascii (List.map ascii_of_nat codes).

(** The characters for which [str.isspace] holds are the ones
    [str.strip()] removes. In the ASCII range: TAB, LF, VT, FF, CR, FS,
    GS, RS, US and SPACE. *)
Definition whitespace : string := bytes [9; 10; 11; 12; 13; 28; 29; 30; 31; 32]%nat.

(** U+0085 and U+00A0, two bytes each in UTF-8. *)
Definition space2 (c d : ascii) : bool :=
  Ascii.eqb c (byte 194) && mem d (bytes [133; 160]%nat).

(** U+1680, U+2000 to U+200A, U+2028, U+2029, U+202F, U+205F and U+3000,
    three bytes each in UTF-8. *)
Definition space3 (c d e : ascii) : bool :=
  (Ascii.eqb c (byte 225) && Ascii.eqb d (byte 154) && Ascii.eqb e (byte 128))
  || (Ascii.eqb c (byte 226) && Ascii.eqb d (byte 128)
      && mem e (bytes [128; 129; 130; 131; 132; 133; 134; 135; 136; 137; 138;
                       168; 169; 175]%nat))
  || (Ascii.eqb c (byte 226) && Ascii.eqb d (byte 129) && Ascii.eqb e (byte 159))
  || (Ascii.eqb c (byte 227) && Ascii.eqb d (byte 128) && Ascii.eqb e (byte 128)).

(** [s.lstrip()]: drop every leading whitespace character. *)
Fixpoint lstrip_space (s : string) : string :=
  match s with
  | EmptyString => EmptyString
  | String c rest =>
      if mem c whitespace then lstrip_space rest
      else
        match rest with
        | EmptyString => s
        | String d rest2 =>
            if space2 c d then lstrip_space rest2
            else
              match rest2 with
              | EmptyString => s
              | String e rest3 =>
                  if space3 c d e then lstrip_space rest3 else s
              end
        end
  end.

(** [s.rstrip()]: cut where nothing but whitespace follows. *)
Fixpoint rstrip_space (s : string) : string :=
  match s with
  | EmptyString => EmptyString
  | String c rest =>
      match lstrip_space s with
      | EmptyString => EmptyString
      | String _ _ => String c (rstrip_space rest)
      end
  end.

(** [s.strip()]. *)
Definition strip (s : string) : string := rstrip_space (lstrip_space s).

(** [s.startswith(p)]. *)
Definition startswith (s p : string) : bool := String.prefix p s.

(** [s.endswith(suffix)]. *)
Fixpoint endswith (s suffix : string) : bool :=
  String.eqb s suffix
  || match s with
     | EmptyString => false
     | String _ rest => endswith rest suffix
     end.

(** [needle in hay]. *)
Fixpoint contains (needle hay : string) : bool :=
  String.prefix needle hay
  || match hay with
     | EmptyString => false
     | String _ rest => contains needle rest
     end.

Definition lower_ascii (c : ascii) : ascii :=
  let n := nat_of_ascii c in
  if (Nat.leb 65 n && Nat.leb n 90)%bool then ascii_of_nat (n + 32) else c.

(** [s.lower()]. *)
Fixpoint lower (s : string) : string :=
  match s with
  | EmptyString => EmptyString
  | String c rest => String (lower_ascii c) (lower rest)
  end.

(** [s[n:]]. *)
Fixpoint drop (n : nat) (s : string) : string :=
  match n, s with
  | O, _ => s
  | S _, EmptyString => EmptyString
  | S k, String _ rest => drop k rest
  end.

(** [sep.join(parts)] with the empty separator. *)
Definition join (parts : list string) : string := String.concat "" parts.

(** [str(n)] for an [int]. *)
Definition of_int (n : Z) : string :=
  DecimalString.NilZero.string_of_int (Z.to_int n).

End PyStr.

(** ** Base URLs *)

Definition normalize_base_url (value : string) : string := PyStr.rstrip "/" value.

Definition build_beta_base_url (base_url : string) : string :=
  let normalized := normalize_base_url base_url in
  if PyStr.endswith normalized "/beta" then normalized
  else normalized ++ "/beta".

(** ** Python values *)

(** A value of type [Any] as it comes out of [json.loads]. *)
Inductive json : Type :=
| JNull
| JBool (b : bool)
| JInt (n : Z)
| JFloat (f : spec_float)
| JStr (s : string)
| JList (items : list json)
| JDict (entries : list (string * json)).

(** [dict[str, Any]]. *)
Definition pydict : Type := list (string * json).

Module Py.

(** [bool(v)]. *)
Definition truthy (v : json) : bool :=
  match v with
  | JNull => false
  | JBool b => b
  | JInt n => negb (n =? 0)
  | JFloat f => match f with S754_zero _ => false | _ => true end
  | JStr s => negb (String.eqb s "")
  | JList items => match items with [] => false | _ :: _ => true end
  | JDict entries => match entries with [] => false | _ :: _ => true end
  end.

(** [a or b] when evaluating [b] has no effect. *)
Definition or_else (a b : json) : json := if truthy a then a else b.

(** [v is None]. *)
Definition is_none (v : json) : bool :=
  match v with JNull => true | _ => false end.

(** [isinstance(v, str)], returning the string. *)
Definition as_str (v : json) : option string :=
  match v with JStr s => Some s | _ => None end.

Fixpoint lookup (d : pydict) (key : string) : option json :=
  match d with
  | [] => None
  | (k, v) :: rest => if String.eqb k key then Some v else lookup rest key
  end.

(** [d.get(key, default)]. *)
Definition get_default (d : pydict) (key : string) (default : json) : json :=
  match lookup d key with Some v => v | None => default end.

(** [d.get(key)]. *)
Definition get (d : pydict) (key : string) : json := get_default d key JNull.

(** [d[key] = v]. *)
Fixpoint set (d : pydict) (key : string) (v : json) : pydict :=
  match d with
  | [] => [(key, v)]
  | (k, x) :: rest =>
      if String.eqb k key then (k, v) :: rest else (k, x) :: set rest key v
  end.

(** [d.update(other)]. *)
Definition update (d other : pydict) : pydict :=
  fold_left (fun acc kv => set acc (fst kv) (snd kv)) other d.

Definition keys (d : pydict) : list string := List.map fst d.

End Py.

(** The fields of a [DeepSeekApiError]. *)
Record ApiError : Type := {
  message : string;
  status : option Z;
  payload : json
}.

(** How [json.loads] and [response.json()] fail: with a
    [json.JSONDecodeError], which is a [ValueError]; with another
    [ValueError] (an integer literal beyond the digit limit, bytes that are
    not text); or with an exception that is no [ValueError] (a
    [RecursionError] on deep nesting). Each carries its [str]. *)
Inductive decode_error : Type :=
| JSONDecodeError (detail : string)
| ValueError (detail : string)
| OtherError (detail : string).

(** [isinstance(error, ValueError)]. *)
Definition is_value_error (error : decode_error) : bool :=
  match error with
  | JSONDecodeError _ | ValueError _ => true
  | OtherError _ => false
  end.

(** [str(error)]. *)
Definition decode_error_str (error : decode_error) : string :=
  match error with
  | JSONDecodeError detail | ValueError detail | OtherError detail => detail
  end.

(** What Python raises in the modelled code. [TransportError] stands for
    whatever the HTTP library raises when no response arrives; it is not a
    [DeepSeekApiError]. [DecodeError] is an exception of the JSON decoder
    that no handler of the code catches. *)
Inductive exn : Type :=
| DeepSeekApiError (error : ApiError)
| AttributeError
| TypeError
| TransportError (detail : string)
| DecodeError (error : decode_error).

(** The outcome of evaluating an expression or running a statement. *)
Inductive outcome (A : Type) : Type :=
| Ok (a : A)
| Raise (e : exn).
Arguments Ok {A} a.
Arguments Raise {A} e.

Definition obind {A B} (o : outcome A) (k : A -> outcome B) : outcome B :=
  match o with Ok a => k a | Raise e => Raise e end.

(** A loop body run over a list, stopping at the first exception. *)
Fixpoint for_each {A B} (body : A -> B -> outcome A) (items : list B) (acc : A)
  : outcome A :=
  match items with
  | [] => Ok acc
  | x :: rest => obind (body acc x) (for_each body rest)
  end.

Module PyObj.

(** [v.get(key, default)] on an arbitrary value: only a dict has the
    method. *)
Definition get_default (v : json) (key : string) (default : json) : outcome json :=
  match v with
  | JDict d => Ok (Py.get_default d key default)
  | _ => Raise AttributeError
  end.

Definition get (v : json) (key : string) : outcome json := get_default v key JNull.

(** The items a [for] loop over [v] visits. *)
Definition iter (v : json) : outcome (list json) :=
  match v with
  | JList items => Ok items
  | JStr s =>
      Ok (List.map (fun c => JStr (String c EmptyString)) (list_ascii_of_string s))
  | JDict entries => Ok (List.map (fun kv => JStr (fst kv)) entries)
  | JNull | JBool _ | JInt _ | JFloat _ => Raise TypeError
  end.

End PyObj.

(** ** Configuration and constants *)

Definition DEFAULT_BASE_URL : string := "https://api.deepseek.com".
Definition DEFAULT_TIMEOUT_MS : Z := 120000.
Definition DEFAULT_MODEL : string := "deepseek-chat".
Definition DEFAULT_FALLBACK_MODEL : string := "deepseek-chat".
Definition RETRIABLE_STATUS_CODES : list Z := [408; 409; 429; 500; 502; 503; 504].

Record DeepSeekClientConfig : Type := {
  api_key : string;
  base_url : string;
  timeout_ms : Z;
  default_model : string;
  enable_reasoner_fallback : bool;
  fallback_model : string
}.

(** ** Error classification *)

(** [str(error)]. *)
Definition error_str (error : ApiError) : string := message error.

Definition should_retry_completion_on_beta (error : ApiError) : bool :=
  let text := PyStr.lower (error_str error) in
  existsb (fun token => PyStr.contains token text)
          ["beta"; "base url"; "base_url"; "/beta"].

Definition _should_reasoner_fallback
    (config : DeepSeekClientConfig) (model : string) (error : ApiError) : bool :=
  if negb (enable_reasoner_fallback config) then false
  else if negb (String.eqb model "deepseek-reasoner") then false
  else if String.eqb (fallback_model config) model then false
  else match status error with
       | None => true
       | Some code => existsb (Z.eqb code) RETRIABLE_STATUS_CODES
       end.

Definition extract_error_message (payload : json) : option string :=
  match payload with
  | JDict p =>
      let nested :=
        match Py.get p "error" with
        | JDict e => Py.as_str (Py.get e "message")
        | _ => None
        end in
      match nested with
      | Some message => Some message
      | None => Py.as_str (Py.get p "message")
      end
  | _ => None
  end.

(** [a or b] for [a : str | None] and a string [b]; also the effect of
    [if not a: a = b]. *)
Definition str_or (a : option string) (b : string) : string :=
  match a with
  | Some s => if String.eqb s "" then b else s
  | None => b
  end.

Definition status_message (status_code : Z) : string :=
  "DeepSeek API error (status " ++ PyStr.of_int status_code ++ ")".

(** An [httpx.Response] as far as the client reads it. [text] is the
    body as text, as the call at hand reads it: [response.text] on a plain
    response, [response.read().decode("utf-8", errors="replace")] on a
    streamed one. [response_json] is the outcome of [response.json()],
    which decodes the bytes of the body and not [text]. [lines] is what
    [iter_lines()] yields on a streamed response. *)
Record Response : Type := {
  status_code : Z;
  text : string;
  response_json : decode_error + json;
  lines : list string
}.

Definition make_api_error (response : Response) : outcome ApiError :=
  obind
    (match response_json response with
     | inr v => Ok v
     | inl error =>
         if is_value_error error then Ok JNull else Raise (DecodeError error)
     end)
    (fun payload =>
       let message :=
         if Py.is_none payload then Some (text response)
         else extract_error_message payload in
       let message := str_or message (status_message (status_code response)) in
       Ok {| message := message;
             status := Some (status_code response);
             payload := payload |}).

Section Classification.

(** [json.loads] on a string: the decoded value, or how it fails. *)
Variable json_loads : string -> decode_error + json.

Definition make_api_error_from_text (status_code : Z) (text : string)
  : outcome ApiError :=
  obind
    (match json_loads text with
     | inr v => Ok (v, str_or (extract_error_message v) text)
     | inl (JSONDecodeError _) => Ok (JNull, text)
     | inl error => Raise (DecodeError error)
     end)
    (fun '(payload, message) =>
       let message := str_or (Some message) (status_message status_code) in
       Ok {| message := message; status := Some status_code; payload := payload |}).

(** The chunks [_request_sse_json] collects from the lines of a streamed
    body; a decoder failure other than a [JSONDecodeError] ends the
    loop and is raised. *)
Fixpoint sse_chunks (lines : list string) : outcome (list json) :=
  match lines with
  | [] => Ok []
  | line :: rest =>
      if String.eqb line "" then sse_chunks rest
      else if negb (PyStr.startswith line "data:") then sse_chunks rest
      else
        let data := PyStr.strip (PyStr.drop (String.length "data:") line) in
        if String.eqb data "[DONE]" then Ok []
        else match json_loads data with
             | inr chunk =>
                 obind (sse_chunks rest) (fun chunks => Ok (chunk :: chunks))
             | inl (JSONDecodeError _) => sse_chunks rest
             | inl error => Raise (DecodeError error)
             end
  end.

End Classification.

(** ** The client *)

(** A reference to a heap-allocated request dict. *)
Definition loc : Type := nat.

(** One HTTP exchange as handed to the HTTP library. [body] is the dict
    serialized as the JSON body, read at the time of the call; [timeout]
    is [timeout_ms] (the library is given [timeout_ms / 1000.0] seconds);
    [streamed] tells [client.stream] from [client.request]. *)
Record Request : Type := {
  method : string;
  url : string;
  headers : list (string * string);
  body : option pydict;
  timeout : Z;
  streamed : bool
}.

(** What the HTTP library does with a request. *)
Inductive Reply : Type :=
| Answered (response : Response)
| Failed (detail : string).

Section Client.

(** The outside world: the HTTP library, the clock, the JSON parser and
    [repr] of a value that is not a string. *)
Variable World : Type.
Variable http : Request -> World -> Reply * World.
Variable clock : World -> Z * World.
Variable json_loads : string -> decode_error + json.
Variable py_repr : json -> string.

(** The heap of request dicts, the world, and the requests issued so
    far, oldest first. *)
Record state : Type := {
  heap : list pydict;
  world : World;
  sent : list Request
}.

(** A statement or effectful expression. State changes made before an
    exception is raised persist. *)
Definition M (A : Type) : Type := state -> outcome A * state.

Definition ret {A} (a : A) : M A := fun s => (Ok a, s).

Definition raise {A} (e : exn) : M A := fun s => (Raise e, s).

Definition bind {A B} (m : M A) (k : A -> M B) : M B :=
  fun s =>
    match m s with
    | (Ok a, s') => k a s'
    | (Raise e, s') => (Raise e, s')
    end.

Definition lift {A} (o : outcome A) : M A := fun s => (o, s).

(** [try: body / except DeepSeekApiError as error: handler]. *)
Definition try_except {A} (body : M A) (handler : ApiError -> M A) : M A :=
  fun s =>
    match body s with
    | (Raise (DeepSeekApiError error), s') => handler error s'
    | other => other
    end.

Local Notation "x <- m ;; k" := (bind m (fun x => k))
  (at level 100, m at next level, right associativity).
Local Notation "m ;;; k" := (bind m (fun _ => k))
  (at level 100, right associativity).

(** *** Heap operations

    A reference held by the code always denotes a live dict; reading
    through a reference that denotes none yields the empty dict. *)

Definition deref (r : loc) : M pydict :=
  fun s => (Ok (default [] (heap s !! r)), s).

Definition alloc (d : pydict) : M loc :=
  fun s =>
    (Ok (length (heap s)),
     {| heap := heap s ++ [d]; world := world s; sent := sent s |}).

(** [dict(d)]. *)
Definition dict_copy (r : loc) : M loc := d <- deref r ;; alloc d.

(** [d.get(key)]. *)
Definition dict_get (r : loc) (key : string) : M json :=
  d <- deref r ;; ret (Py.get d key).

(** [d[key] = v]. *)
Definition dict_setitem (r : loc) (key : string) (v : json) : M unit :=
  fun s =>
    (Ok tt,
     {| heap := <[r := Py.set (default [] (heap s !! r)) key v]> (heap s);
        world := world s; sent := sent s |}).

(** [d.update(other)]. *)
Definition dict_update (r : loc) (other : pydict) : M unit :=
  fun s =>
    (Ok tt,
     {| heap := <[r := Py.update (default [] (heap s !! r)) other]> (heap s);
        world := world s; sent := sent s |}).

(** *** World operations *)

(** [int(time.time())]. *)
Definition now : M Z :=
  fun s =>
    let '(t, w) := clock (world s) in
    (Ok t, {| heap := heap s; world := w; sent := sent s |}).

(** One call into the HTTP library. *)
Definition http_call (method url : string) (headers : list (string * string))
    (body : option loc) (timeout : Z) (streamed : bool) : M Response :=
  fun s =>
    let request :=
      {| method := method; url := url; headers := headers;
         body := option_map (fun r => default [] (heap s !! r)) body;
         timeout := timeout; streamed := streamed |} in
    let '(reply, w) := http request (world s) in
    let s' := {| heap := heap s; world := w; sent := sent s ++ [request] |} in
    match reply with
    | Answered response => (Ok response, s')
    | Failed detail => (Raise (TransportError detail), s')
    end.

(** [str(v)]. *)
Definition py_str (v : json) : string :=
  match v with
  | JStr s => s
  | JNull => "None"
  | JBool true => "True"
  | JBool false => "False"
  | JInt n => PyStr.of_int n
  | _ => py_repr v
  end.

(** [a or b] for a value [a] still to be obtained from [b]. *)
Definition or_else (a : json) (b : M json) : M json :=
  if Py.truthy a then ret a else b.

(** *** Streaming aggregation *)

(** The loop variables of [aggregate_chat_chunks]. *)
Record chat_acc : Type := {
  content_parts : list string;
  reasoning_parts : list string;
  chat_finish_reason : json
}.

Definition append_if_str (parts : list string) (v : json) : list string :=
  match Py.as_str v with
  | Some s => (parts ++ [s])%list
  | None => parts
  end.

Definition chat_choice (acc : chat_acc) (choice : json) : outcome chat_acc :=
  obind (PyObj.get choice "delta") (fun delta0 =>
  let delta := Py.or_else delta0 (JDict []) in
  obind (PyObj.get delta "content") (fun text =>
  obind (PyObj.get delta "reasoning_content") (fun reasoning =>
  obind (PyObj.get choice "finish_reason") (fun finish =>
  Ok {| content_parts := append_if_str (content_parts acc) text;
        reasoning_parts := append_if_str (reasoning_parts acc) reasoning;
        chat_finish_reason := Py.or_else finish (chat_finish_reason acc) |})))).

(** The choices the inner loop visits:
    [chunk.get("choices", []) or []]. *)
Definition chunk_choices (chunk : json) : outcome (list json) :=
  obind (PyObj.get_default chunk "choices" (JList [])) (fun choices =>
  PyObj.iter (Py.or_else choices (JList []))).

Definition chat_chunk (acc : chat_acc) (chunk : json) : outcome chat_acc :=
  obind (chunk_choices chunk) (fun choices => for_each chat_choice choices acc).

Definition chat_message (acc : chat_acc) : pydict :=
  let message :=
    [("role", JStr "assistant");
     ("content", JStr (PyStr.join (content_parts acc)))] in
  match reasoning_parts acc with
  | [] => message
  | _ :: _ =>
      Py.set message "reasoning_content" (JStr (PyStr.join (reasoning_parts acc)))
  end.

Definition aggregate_chat_chunks (chunks : list json) (fallback_model : string)
  : M json :=
  match chunks with
  | [] =>
      t_id <- now ;;
      t_created <- now ;;
      ret (JDict
        [("id", JStr ("chatcmpl-stream-" ++ PyStr.of_int t_id));
         ("object", JStr "chat.completion");
         ("created", JInt t_created);
         ("model", JStr fallback_model);
         ("choices", JList
            [JDict [("index", JInt 0);
                    ("message", JDict [("role", JStr "assistant");
                                       ("content", JStr "")]);
                    ("finish_reason", JNull)]]);
         ("usage", JNull)])
  | first :: _ =>
      let last := List.last chunks first in
      model0 <- lift (PyObj.get first "model") ;;
      let model := py_str (Py.or_else model0 (JStr fallback_model)) in
      acc <- lift (for_each chat_chunk chunks
                     {| content_parts := []; reasoning_parts := [];
                        chat_finish_reason := JNull |}) ;;
      let message := chat_message acc in
      id0 <- lift (PyObj.get first "id") ;;
      id <- or_else id0
              (t <- now ;; ret (JStr ("chatcmpl-stream-" ++ PyStr.of_int t))) ;;
      created_last <- lift (PyObj.get last "created") ;;
      created <- or_else created_last
                   (created_first <- lift (PyObj.get first "created") ;;
                    or_else created_first (t <- now ;; ret (JInt t))) ;;
      usage <- lift (PyObj.get last "usage") ;;
      ret (JDict
        [("id", id);
         ("object", JStr "chat.completion");
         ("created", created);
         ("model", JStr model);
         ("choices", JList
            [JDict [("index", JInt 0);
                    ("message", JDict message);
                    ("finish_reason", chat_finish_reason acc)]]);
         ("usage", usage)])
  end.

(** The loop variables of [aggregate_completion_chunks]. *)
Record text_acc : Type := {
  text_parts : list string;
  text_finish_reason : json
}.

Definition completion_choice (acc : text_acc) (choice : json) : outcome text_acc :=
  obind (PyObj.get choice "text") (fun delta_text =>
  obind (PyObj.get choice "finish_reason") (fun finish =>
  Ok {| text_parts := append_if_str (text_parts acc) delta_text;
        text_finish_reason := Py.or_else finish (text_finish_reason acc) |})).

Definition completion_chunk (acc : text_acc) (chunk : json) : outcome text_acc :=
  obind (chunk_choices chunk) (fun choices =>
  for_each completion_choice choices acc).

Definition aggregate_completion_chunks (chunks : list json) (fallback_model : string)
  : M json :=
  match chunks with
  | [] =>
      t_id <- now ;;
      t_created <- now ;;
      ret (JDict
        [("id", JStr ("cmpl-stream-" ++ PyStr.of_int t_id));
         ("object", JStr "text_completion");
         ("created", JInt t_created);
         ("model", JStr fallback_model);
         ("choices", JList
            [JDict [("index", JInt 0);
                    ("text", JStr "");
                    ("finish_reason", JNull)]]);
         ("usage", JNull)])
  | first :: _ =>
      let last := List.last chunks first in
      model0 <- lift (PyObj.get first "model") ;;
      let model := py_str (Py.or_else model0 (JStr fallback_model)) in
      acc <- lift (for_each completion_chunk chunks
                     {| text_parts := []; text_finish_reason := JNull |}) ;;
      id0 <- lift (PyObj.get first "id") ;;
      id <- or_else id0
              (t <- now ;; ret (JStr ("cmpl-stream-" ++ PyStr.of_int t))) ;;
      created_last <- lift (PyObj.get last "created") ;;
      created <- or_else created_last
                   (created_first <- lift (PyObj.get first "created") ;;
                    or_else created_first (t <- now ;; ret (JInt t))) ;;
      usage <- lift (PyObj.get last "usage") ;;
      ret (JDict
        [("id", id);
         ("object", JStr "text_completion");
         ("created", created);
         ("model", JStr model);
         ("choices", JList
            [JDict [("index", JInt 0);
                    ("text", JStr (PyStr.join (text_parts acc)));
                    ("finish_reason", text_finish_reason acc)]]);
         ("usage", usage)])
  end.

(** *** [DeepSeekApiClient] *)

Variable config : DeepSeekClientConfig.

Definition _headers (accept : string) : list (string * string) :=
  [("Authorization", "Bearer " ++ api_key config);
   ("Content-Type", "application/json");
   ("Accept", accept);
   ("User-Agent", "deepseek-mcp-python/0.1.0")].

(** [base_url_override or self.config.base_url]. *)
Definition effective_base_url (base_url_override : option string) : string :=
  str_or base_url_override (base_url config).

Definition _request_json (method path : string) (body : option loc)
    (base_url_override : option string) : M json :=
  let base_url := normalize_base_url (effective_base_url base_url_override) in
  let url := base_url ++ path in
  response <- http_call method url (_headers "application/json") body
                (timeout_ms config) false ;;
  if 400 <=? status_code response then
    error <- lift (make_api_error response) ;;
    raise (DeepSeekApiError error)
  else
    match response_json response with
    | inr v => ret v
    | inl error =>
        if is_value_error error then
          raise (DeepSeekApiError
                   {| message := "DeepSeek API returned invalid JSON: "
                                 ++ decode_error_str error;
                      status := Some (status_code response);
                      payload := JNull |})
        else raise (DecodeError error)
    end.

Definition _request_sse_json (method path : string) (body : option loc)
    (base_url_override : option string) : M (list json) :=
  let base_url := normalize_base_url (effective_base_url base_url_override) in
  let url := base_url ++ path in
  response <- http_call method url (_headers "text/event-stream") body
                (timeout_ms config) true ;;
  if 400 <=? status_code response then
    error <- lift (make_api_error_from_text json_loads
                     (status_code response) (text response)) ;;
    raise (DeepSeekApiError error)
  else lift (sse_chunks json_loads (lines response)).

(** [len(chunks)]. *)
Definition len (chunks : list json) : json := JInt (Z.of_nat (length chunks)).

Definition _chat_or_completion_request (path : string) (payload : loc)
    (base_url_override : option string) : M (json * json) :=
  stream <- dict_get payload "stream" ;;
  if Py.truthy stream then
    chunks <- _request_sse_json "POST" path (Some payload) base_url_override ;;
    model <- dict_get payload "model" ;;
    if String.eqb path "/chat/completions" then
      response <- aggregate_chat_chunks chunks (py_str model) ;;
      ret (response, len chunks)
    else
      response <- aggregate_completion_chunks chunks (py_str model) ;;
      ret (response, len chunks)
  else
    response <- _request_json "POST" path (Some payload) base_url_override ;;
    ret (response, JNull).

Definition list_models : M json := _request_json "GET" "/models" None None.

Definition get_user_balance : M json := _request_json "GET" "/user/balance" None None.

Definition create_chat_completion (payload : loc) : M json :=
  model0 <- dict_get payload "model" ;;
  let model := py_str (Py.or_else model0 (JStr (default_model config))) in
  payload <- dict_copy payload ;;
  dict_setitem payload "model" (JStr model) ;;;
  try_except
    (result <- _chat_or_completion_request "/chat/completions" payload None ;;
     ret (JDict [("response", fst result);
                 ("fallback", JNull);
                 ("stream_chunk_count", snd result)]))
    (fun error =>
       if negb (_should_reasoner_fallback config model error) then
         raise (DeepSeekApiError error)
       else
         fallback_payload <- dict_copy payload ;;
         dict_setitem fallback_payload "model" (JStr (fallback_model config)) ;;;
         result <- _chat_or_completion_request "/chat/completions"
                     fallback_payload None ;;
         ret (JDict [("response", fst result);
                     ("fallback",
                      JDict [("from_model", JStr model);
                             ("to_model", JStr (fallback_model config));
                             ("reason", JStr (error_str error))]);
                     ("stream_chunk_count", snd result)])).

Definition create_completion (payload : loc) : M json :=
  payload <- dict_copy payload ;;
  model0 <- dict_get payload "model" ;;
  dict_setitem payload "model"
    (JStr (py_str (Py.or_else model0 (JStr (default_model config))))) ;;;
  try_except
    (result <- _chat_or_completion_request "/completions" payload None ;;
     ret (JDict [("response", fst result);
                 ("used_beta_base", JBool false);
                 ("stream_chunk_count", snd result)]))
    (fun error =>
       if negb (should_retry_completion_on_beta error) then
         raise (DeepSeekApiError error)
       else
         result <- _chat_or_completion_request "/completions" payload
                     (Some (build_beta_base_url (base_url config))) ;;
         ret (JDict [("response", fst result);
                     ("used_beta_base", JBool true);
                     ("stream_chunk_count", snd result)])).

(** *** Tools *)

(** [if v is not None: payload[key] = v]. *)
Definition set_if_given (payload : loc) (key : string) (v : option json) : M unit :=
  match v with
  | Some x => dict_setitem payload key x
  | None => ret tt
  end.

(** [if model: payload["model"] = model]. *)
Definition set_model_if_given (payload : loc) (model : option string) : M unit :=
  match model with
  | Some m => if String.eqb m "" then ret tt else dict_setitem payload "model" (JStr m)
  | None => ret tt
  end.

(** [if extra_body: payload.update(extra_body)]. *)
Definition update_if_given (payload : loc) (extra_body : option pydict) : M unit :=
  match extra_body with
  | Some ((_ :: _) as extra) => dict_update payload extra
  | _ => ret tt
  end.

Definition chat_completion
    (messages : json) (model : option string) (stream : bool)
    (temperature top_p max_tokens max_completion_tokens stop response_format
     tools tool_choice thinking : option json)
    (extra_body : option pydict) : M json :=
  payload <- alloc [("messages", messages); ("stream", JBool stream)] ;;
  set_model_if_given payload model ;;;
  set_if_given payload "temperature" temperature ;;;
  set_if_given payload "top_p" top_p ;;;
  set_if_given payload "max_tokens" max_tokens ;;;
  set_if_given payload "max_completion_tokens" max_completion_tokens ;;;
  set_if_given payload "stop" stop ;;;
  set_if_given payload "response_format" response_format ;;;
  set_if_given payload "tools" tools ;;;
  set_if_given payload "tool_choice" tool_choice ;;;
  set_if_given payload "thinking" thinking ;;;
  update_if_given payload extra_body ;;;
  create_chat_completion payload.

Definition completion
    (prompt : string) (model : option string) (stream : bool)
    (suffix temperature top_p max_tokens stop : option json)
    (extra_body : option pydict) : M json :=
  payload <- alloc [("prompt", JStr prompt); ("stream", JBool stream)] ;;
  set_model_if_given payload model ;;;
  set_if_given payload "suffix" suffix ;;;
  set_if_given payload "temperature" temperature ;;;
  set_if_given payload "top_p" top_p ;;;
  set_if_given payload "max_tokens" max_tokens ;;;
  set_if_given payload "stop" stop ;;;
  update_if_given payload extra_body ;;;
  create_completion payload.

(** *** Observing a call *)

(** The model a call asks for: the payload's when truthy, else the
    configured default. *)
Definition requested_model (payload : loc) (s : state) : string :=
  py_str (Py.or_else (Py.get (default [] (heap s !! payload)) "model")
            (JStr (default_model config))).

(** The first attempt of [create_chat_completion]: its code up to the
    return of the first request. *)
Definition first_chat_attempt (payload : loc) : M (json * json) :=
  model0 <- dict_get payload "model" ;;
  let model := py_str (Py.or_else model0 (JStr (default_model config))) in
  payload <- dict_copy payload ;;
  dict_setitem payload "model" (JStr model) ;;;
  _chat_or_completion_request "/chat/completions" payload None.

(** The first attempt of [create_completion]. *)
Definition first_completion_attempt (payload : loc) : M (json * json) :=
  payload <- dict_copy payload ;;
  model0 <- dict_get payload "model" ;;
  dict_setitem payload "model"
    (JStr (py_str (Py.or_else model0 (JStr (default_model config))))) ;;;
  _chat_or_completion_request "/completions" payload None.

(** The request [_chat_or_completion_request] hands to the HTTP library
    from a given state. *)
Definition attempt_request (path : string) (payload : loc)
    (base_url_override : option string) (s : state) : Request :=
  let d := default [] (heap s !! payload) in
  let streaming := Py.truthy (Py.get d "stream") in
  {| method := "POST";
     url := normalize_base_url (effective_base_url base_url_override) ++ path;
     headers :=
       _headers (if streaming then "text/event-stream" else "application/json");
     body := Some d;
     timeout := timeout_ms config;
     streamed := streaming |}.

(** The state in which the first attempt of either [create_*] method
    runs: the copy of the payload, with its model set, is the newest
    heap object. *)
Definition attempt_state (payload : loc) (s : state) : state :=
  {| heap :=
       (heap s
        ++ [Py.set (default [] (heap s !! payload)) "model"
              (JStr (requested_model payload s))])%list;
     world := world s;
     sent := sent s |}.

(** The state in which the fallback attempt runs: the copy of the
    attempted payload, with the fallback model, is the newest heap
    object. *)
Definition fallback_state (attempted : loc) (s : state) : state :=
  {| heap :=
       (heap s
        ++ [Py.set (default [] (heap s !! attempted)) "model"
              (JStr (fallback_model config))])%list;
     world := world s;
     sent := sent s |}.

(** A computation that touches nothing but the world. *)
Definition world_only {A} (m : M A) : Prop :=
  forall s, heap (snd (m s)) = heap s /\ sent (snd (m s)) = sent s.

(** A computation that, from [s], leaves the heap alone and hands
    exactly the request [r] to the HTTP library. *)
Definition sends_one {A} (m : M A) (s : state) (r : Request) : Prop :=
  heap (snd (m s)) = heap s /\ sent (snd (m s)) = (sent s ++ [r])%list.

End Client.

Arguments heap {World} s.
Arguments world {World} s.
Arguments sent {World} s.
Arguments world_only {World A} m.
Arguments sends_one {World A} m s r.

(** ** Reading a response *)

(** [v[key]] for a value expected to be a dict; [JNull] when there is no
    such entry. *)
Definition field (v : json) (key : string) : json :=
  match v with
  | JDict d => Py.get d key
  | _ => JNull
  end.

(** ** What the aggregation is specified to compute *)

Module Spec.

(** The choices a chunk carries. *)
Definition choices_of (chunk : json) : list json :=
  match field chunk "choices" with
  | JList choices => choices
  | _ => []
  end.

(** Every choice of every chunk, in arrival order. *)
Definition all_choices (chunks : list json) : list json :=
  flat_map choices_of chunks.

(** The string at [choice.delta.<key>], if there is one. *)
Definition delta_str (key : string) (choice : json) : option string :=
  Py.as_str (field (field choice "delta") key).

(** The string at [choice.text], if there is one. *)
Definition text_str (choice : json) : option string :=
  Py.as_str (field choice "text").

(** The strings a list of choices yields, the others skipped. *)
Fixpoint fragments (pick : json -> option string) (choices : list json)
  : list string :=
  match choices with
  | [] => []
  | choice :: rest =>
      match pick choice with
      | Some s => s :: fragments pick rest
      | None => fragments pick rest
      end
  end.

(** The [finish_reason] of every choice, in arrival order. *)
Definition finish_reasons (chunks : list json) : list json :=
  List.map (fun choice => field choice "finish_reason") (all_choices chunks).

(** The last value that is not null, or null. *)
Definition last_non_null (values : list json) : json :=
  List.last (List.filter (fun v => negb (Py.is_none v)) values) JNull.

(** The last value that is truthy, or null. *)
Definition last_truthy (values : list json) : json :=
  List.last (List.filter Py.truthy values) JNull.

(** The finish reason after a run of choices, from the one before: the
    last truthy one of the run, or the one before. *)
Definition finish_after (choices : list json) (before : json) : json :=
  List.last
    (List.filter Py.truthy
       (List.map (fun choice => field choice "finish_reason") choices))
    before.

Definition is_dict (v : json) : bool :=
  match v with JDict _ => true | _ => false end.

(** A choice the chat loop body can process: an object whose [delta] is
    falsy or an object. *)
Definition chat_choice_shaped (choice : json) : bool :=
  is_dict choice
  && (negb (Py.truthy (field choice "delta")) || is_dict (field choice "delta")).

(** A choice the completion loop body can process: an object. *)
Definition completion_choice_shaped (choice : json) : bool := is_dict choice.

(** A chunk the loops can process: an object whose [choices] is falsy or
    a list of choices of the right shape. *)
Definition chunk_shaped (choice_shaped : json -> bool) (chunk : json) : bool :=
  is_dict chunk
  && (negb (Py.truthy (field chunk "choices"))
      || match field chunk "choices" with
         | JList choices => forallb choice_shaped choices
         | _ => false
         end).

Definition chat_chunks_shaped (chunks : list json) : bool :=
  forallb (chunk_shaped chat_choice_shaped) chunks.

Definition completion_chunks_shaped (chunks : list json) : bool :=
  forallb (chunk_shaped completion_choice_shaped) chunks.

Section Clocked.

Variable World : Type.
Variable clock : World -> Z * World.

(** The [id] of an aggregated response: the first chunk's when it is
    truthy, else one made from the time read now. *)
Definition stream_id (prefix : string) (first : json) (w : World)
  : json * World :=
  if Py.truthy (field first "id") then (field first "id", w)
  else let '(t, w') := clock w in (JStr (prefix ++ PyStr.of_int t), w').

(** The [created] of an aggregated response: the last chunk's when it
    is truthy, else the first chunk's when that is truthy, else the
    time read now. *)
Definition stream_created (first last : json) (w : World) : json * World :=
  if Py.truthy (field last "created") then (field last "created", w)
  else if Py.truthy (field first "created") then (field first "created", w)
  else let '(t, w') := clock w in (JInt t, w').

End Clocked.


(** The conditions under which the reasoner fallback is specified to be
    attempted. *)
Definition fallback_conditions
    (config : DeepSeekClientConfig) (model : string) (error : ApiError) : Prop :=
  enable_reasoner_fallback config = true
  /\ model = "deepseek-reasoner"
  /\ fallback_model config <> model
  /\ (status error = None
      \/ exists code, status error = Some code
                      /\ In code [408; 409; 429; 500; 502; 503; 504]).

End Spec.

(** ** A scripted world

    A world for running the client on concrete inputs: the HTTP library
    answers from a list of prepared replies, the clock ticks once per
    reading, and the parser knows a few bodies. *)

Module Scripted.

Record World : Type := {
  replies : list Reply;
  time : Z
}.

Definition http (request : Request) (w : World) : Reply * World :=
  match replies w with
  | [] => (Failed "connection refused", w)
  | reply :: rest => (reply, {| replies := rest; time := time w |})
  end.

Definition clock (w : World) : Z * World :=
  (time w, {| replies := replies w; time := time w + 1 |}).

Definition json_loads (s : string) : decode_error + json :=
  if String.eqb s "{}" then inr (JDict [])
  else if String.eqb s "null" then inr JNull
  else if String.eqb s "[1]" then inr (JList [JInt 1])
  else inl (JSONDecodeError "Expecting value: line 1 column 1 (char 0)").

Definition py_repr (v : json) : string := "<object>".

Definition config : DeepSeekClientConfig :=
  {| api_key := "sk-test";
     base_url := DEFAULT_BASE_URL;
     timeout_ms := DEFAULT_TIMEOUT_MS;
     default_model := DEFAULT_MODEL;
     enable_reasoner_fallback := true;
     fallback_model := DEFAULT_FALLBACK_MODEL |}.

(** A state holding the given dicts, with the given replies to come. *)
Definition start (dicts : list pydict) (script : list Reply) : state World :=
  {| heap := dicts; world := {| replies := script; time := 1700000000 |}; sent := [] |}.

(** A plain response, whose body decodes as its text does. *)
Definition answer (code : Z) (body : string) : Reply :=
  Answered {| status_code := code; text := body;
              response_json := json_loads body; lines := [] |}.

(** The client and the aggregators in this world. *)
Definition aggregate_chat : list json -> string -> M World json :=
  aggregate_chat_chunks World clock py_repr.
Definition aggregate_completion : list json -> string -> M World json :=
  aggregate_completion_chunks World clock py_repr.
Definition chat : loc -> M World json :=
  create_chat_completion World http clock json_loads py_repr config.
Definition plain : loc -> M World json :=
  create_completion World http clock json_loads py_repr config.
Definition first_chat : loc -> M World (json * json) :=
  first_chat_attempt World http clock json_loads py_repr config.
Definition first_plain : loc -> M World (json * json) :=
  first_completion_attempt World http clock json_loads py_repr config.
Definition attempt : string -> loc -> option string -> M World (json * json) :=
  _chat_or_completion_request World http clock json_loads py_repr config.

(** The chunks of the repository's chat aggregation test. *)
Definition hello_chunks : list json :=
  [JDict [("id", JStr "abc"); ("created", JInt 1); ("model", JStr "deepseek-chat");
          ("choices", JList
             [JDict [("index", JInt 0);
                     ("delta", JDict [("role", JStr "assistant");
                                      ("content", JStr "HELLO_")])]])];
   JDict [("id", JStr "abc"); ("created", JInt 2); ("model", JStr "deepseek-chat");
          ("choices", JList
             [JDict [("index", JInt 0);
                     ("delta", JDict [("content", JStr "WORLD")]);
                     ("finish_reason", JStr "stop")]]);
          ("usage", JDict [("prompt_tokens", JInt 1);
                           ("completion_tokens", JInt 2);
                           ("total_tokens", JInt 3)])]].

(** The chunks of the repository's completion aggregation test. *)
Definition foobar_chunks : list json :=
  [JDict [("id", JStr "cmpl-1"); ("created", JInt 10); ("model", JStr "deepseek-chat");
          ("choices", JList [JDict [("index", JInt 0); ("text", JStr "foo")]])];
   JDict [("id", JStr "cmpl-1"); ("created", JInt 11); ("model", JStr "deepseek-chat");
          ("choices", JList
             [JDict [("index", JInt 0); ("text", JStr "bar");
                     ("finish_reason", JStr "stop")]]);
          ("usage", JDict [("prompt_tokens", JInt 2);
                           ("completion_tokens", JInt 2);
                           ("total_tokens", JInt 4)])]].

(** Chunks with several choices each. *)
Definition two_choice_chunks : list json :=
  [JDict [("choices", JList
             [JDict [("index", JInt 0); ("delta", JDict [("content", JStr "a")])];
              JDict [("index", JInt 1); ("delta", JDict [("content", JStr "b")]);
                     ("finish_reason", JStr "stop")]])];
   JDict [("choices", JList
             [JDict [("index", JInt 0); ("delta", JDict [("content", JStr "c")])];
              JDict [("index", JInt 1); ("delta", JNull)]])]].

(** Chunks whose last finish reason is the empty string. *)
Definition blank_finish_chunks : list json :=
  [JDict [("choices", JList
             [JDict [("index", JInt 0); ("delta", JDict [("content", JStr "hi")]);
                     ("finish_reason", JStr "stop")]])];
   JDict [("choices", JList
             [JDict [("index", JInt 0); ("delta", JDict []);
                     ("finish_reason", JStr "")]])]].

(** A chunk whose only choice carries a string where the [delta] object
    should be. *)
Definition string_delta_chunks : list json :=
  [JDict [("choices", JList
             [JDict [("index", JInt 0); ("delta", JStr "hi")]])]].

(** A chat payload asking for the reasoner model, and a server that
    answers 429 and then 200. *)
Definition reasoner_call : state World :=
  start [[("messages", JList []); ("model", JStr "deepseek-reasoner")]]
        [answer 429 "{}"; answer 200 "{}"].

(** The same payload, and a server that cannot be reached. *)
Definition unreachable_call : state World :=
  start [[("messages", JList []); ("model", JStr "deepseek-reasoner")]] [].

(** A completion payload, and a server that asks for the beta base and
    then fails. *)
Definition beta_call : state World :=
  start [[("prompt", JStr "hi")]]
        [answer 400 "Use the BETA base"; answer 500 "oops"].

End Scripted.

(** ** Configuration from the environment *)

(** [os.getenv(name, default)], for an environment [getenv]. *)
Definition getenv_default (getenv : string -> option string)
    (name default : string) : string :=
  match getenv name with
  | Some value => value
  | None => default
  end.

Definition env_bool (getenv : string -> option string) (name : string)
    (default : bool) : bool :=
  match getenv name with
  | None => default
  | Some value =>
      existsb (String.eqb (PyStr.lower (PyStr.strip value)))
        ["1"; "true"; "yes"; "on"]
  end.

(** The body of [get_client], run once, on the environment as it is after
    [load_dotenv()]: the configuration of the client it returns, or the
    message of the [RuntimeError] it raises. [py_int] is [int] on a
    string, [None] standing for a [ValueError]. *)
Definition get_client (getenv : string -> option string)
    (py_int : string -> option Z) : string + DeepSeekClientConfig :=
  let api_key := PyStr.strip (getenv_default getenv "DEEPSEEK_API_KEY" "") in
  if String.eqb api_key "" then inl "DEEPSEEK_API_KEY is required"
  else
    let timeout_ms_raw :=
      getenv_default getenv "DEEPSEEK_REQUEST_TIMEOUT_MS"
        (PyStr.of_int DEFAULT_TIMEOUT_MS) in
    let timeout_ms :=
      match py_int timeout_ms_raw with
      | Some n => n
      | None => DEFAULT_TIMEOUT_MS
      end in
    inr {| api_key := api_key;
           base_url := getenv_default getenv "DEEPSEEK_BASE_URL" DEFAULT_BASE_URL;
           timeout_ms := timeout_ms;
           default_model :=
             getenv_default getenv "DEEPSEEK_DEFAULT_MODEL" DEFAULT_MODEL;
           enable_reasoner_fallback :=
             env_bool getenv "DEEPSEEK_ENABLE_REASONER_FALLBACK" true;
           fallback_model :=
             getenv_default getenv "DEEPSEEK_FALLBACK_MODEL"
               DEFAULT_FALLBACK_MODEL |}.

(** ** Further observations *)

Module Aux.

(** A string of nothing but whitespace. *)
Definition blank (s : string) : bool := String.eqb (PyStr.lstrip_space s) "".

(** A string that starts with a whitespace character. *)
Definition starts_space (s : string) : bool :=
  match s with
  | EmptyString => false
  | String c rest =>
      PyStr.mem c PyStr.whitespace
      || match rest with
         | EmptyString => false
         | String d rest2 =>
             PyStr.space2 c d
             || match rest2 with
                | EmptyString => false
                | String e _ => PyStr.space3 c d e
                end
         end
  end.

(** A byte that starts the encoding of a whitespace character. *)
Definition lead (c : ascii) : bool :=
  PyStr.mem c PyStr.whitespace || PyStr.mem c (PyStr.bytes [194; 225; 226; 227]%nat).

(** A run of [n] slashes. *)
Fixpoint slashes (n : nat) : string :=
  match n with
  | O => EmptyString
  | S k => String "/" (slashes k)
  end.

(** The configuration with another base URL. *)
Definition with_base_url (config : DeepSeekClientConfig) (url : string)
  : DeepSeekClientConfig :=
  {| api_key := api_key config;
     base_url := url;
     timeout_ms := timeout_ms config;
     default_model := default_model config;
     enable_reasoner_fallback := enable_reasoner_fallback config;
     fallback_model := fallback_model config |}.

(** A decoded body from which [extract_error_message] gets a message
    that is not empty. *)
Definition has_message (v : json) : bool :=
  match extract_error_message v with
  | Some m => negb (String.eqb m "")
  | None => false
  end.

(** An outcome of decoding a body on which the message of the error
    does not depend on the raw text being kept: a [JSONDecodeError],
    null, or a value that carries a message. *)
Definition message_decided (decoded : decode_error + json) : bool :=
  match decoded with
  | inl (JSONDecodeError _) => true
  | inl _ => false
  | inr v => Py.is_none v || has_message v
  end.

(** The exceptions of a wrong shape: what [.get] on a value that is not
    a dict and a loop over a value that is not iterable raise. *)
Definition shape_error (e : exn) : Prop :=
  e = AttributeError \/ e = TypeError.

(** An API error as the client makes them: with a status and a message
    that is not empty. *)
Definition classified (error : ApiError) : Prop :=
  (exists code, status error = Some code) /\ message error <> "".

(** What a client call may raise. *)
Definition client_exception (e : exn) : Prop :=
  match e with
  | DeepSeekApiError error => classified error
  | AttributeError | TypeError => True
  | TransportError _ => True
  | DecodeError _ => True
  end.

(** A request as the [create_*] methods make them: a POST carrying the
    credential, the content type, the [Accept] header that goes with
    its kind, the configured timeout, and a body whose [model] is a
    string and whose [stream] entry decides its kind. *)
Definition standard_request (config : DeepSeekClientConfig) (r : Request) : Prop :=
  method r = "POST"
  /\ In ("Authorization", "Bearer " ++ api_key config) (headers r)
  /\ In ("Content-Type", "application/json") (headers r)
  /\ In ("Accept",
         if streamed r then "text/event-stream" else "application/json")
       (headers r)
  /\ timeout r = timeout_ms config
  /\ exists d m,
       body r = Some d
       /\ Py.get d "model" = JStr m
       /\ streamed r = Py.truthy (Py.get d "stream").

(** *** Lines of an event stream *)

(** What follows the [data:] marker of a line, stripped. *)
Definition data_of (line : string) : string :=
  PyStr.strip (PyStr.drop (String.length "data:") line).

(** A line that starts with the [data:] marker. *)
Definition is_data (line : string) : bool := PyStr.startswith line "data:".

(** The line that ends a stream. *)
Definition is_done (line : string) : bool :=
  is_data line && String.eqb (data_of line) "[DONE]".

(** A line that adds nothing: not a data line, or a data line, other
    than the end marker, on which the decoder raises a
    [JSONDecodeError]. *)
Definition is_ignored (json_loads : string -> decode_error + json) (line : string)
  : bool :=
  negb (is_data line)
  || (negb (String.eqb (data_of line) "[DONE]")
      && match json_loads (data_of line) with
         | inl (JSONDecodeError _) => true
         | _ => false
         end).

(** A data line, other than the end marker, on which the decoder fails
    with [error], which is not a [JSONDecodeError]. *)
Definition breaks (json_loads : string -> decode_error + json) (line : string)
    (error : decode_error) : Prop :=
  is_data line = true
  /\ data_of line <> "[DONE]"
  /\ json_loads (data_of line) = inl error
  /\ (forall detail, error <> JSONDecodeError detail).

(** The chunks of two parts of a stream, one after the other. *)
Definition chunks_in_a_row (first_part rest : outcome (list json))
  : outcome (list json) :=
  obind first_part (fun chunks1 =>
  obind rest (fun chunks2 => Ok (chunks1 ++ chunks2)%list)).

(** A data line, other than the end marker, that decodes to [chunk]. *)
Definition carries (json_loads : string -> decode_error + json) (line : string)
    (chunk : json) : Prop :=
  is_data line = true
  /\ data_of line <> "[DONE]"
  /\ json_loads (data_of line) = inr chunk.

(** *** Reading an aggregated response *)

(** The choice of a response that has exactly one. *)
Definition sole_choice (response : json) : json :=
  match field response "choices" with
  | JList [choice] => choice
  | _ => JNull
  end.

(** [response["choices"][0]["message"]["content"]]. *)
Definition content_of (response : json) : json :=
  field (field (sole_choice response) "message") "content".

(** [response["choices"][0]["text"]]. *)
Definition text_of (response : json) : json :=
  field (sole_choice response) "text".

(** [response["choices"][0]["finish_reason"]]. *)
Definition finish_of (response : json) : json :=
  field (sole_choice response) "finish_reason".

(** The entry of a dict under a key, if it has one. *)
Definition entry (v : json) (key : string) : option json :=
  match v with
  | JDict d => Py.lookup d key
  | _ => None
  end.

(** The [reasoning_content] entry of the message of a response. *)
Definition reasoning_of (response : json) : option json :=
  entry (field (sole_choice response) "message") "reasoning_content".

(** *** The payload of a tool call *)

(** [if v is not None: d[key] = v] on the dict itself. *)
Definition set_opt (d : pydict) (key : string) (v : option json) : pydict :=
  match v with
  | Some x => Py.set d key x
  | None => d
  end.

(** [if model: d["model"] = model] on the dict itself. *)
Definition set_model (d : pydict) (model : option string) : pydict :=
  match model with
  | Some m => if String.eqb m "" then d else Py.set d "model" (JStr m)
  | None => d
  end.

(** The optional arguments added one after the other. *)
Definition build (d : pydict) (options : list (string * option json)) : pydict :=
  fold_left (fun acc option => set_opt acc (fst option) (snd option)) options d.

(** The entries [extra_body] adds: none when it is [None] or empty. *)
Definition extra_entries (extra_body : option pydict) : pydict :=
  match extra_body with
  | Some extra => extra
  | None => []
  end.

(** The dict a tool hands to the client: the required arguments, the
    model, the optional arguments, then the entries of [extra_body]. *)
Definition tool_payload (required : pydict) (model : option string)
    (options : list (string * option json)) (extra_body : option pydict)
  : pydict :=
  Py.update (build (set_model required model) options)
    (extra_entries extra_body).

(** The optional arguments of [chat_completion], under their keys. *)
Definition chat_options
    (temperature top_p max_tokens max_completion_tokens stop response_format
     tools tool_choice thinking : option json) : list (string * option json) :=
  [("temperature", temperature);
   ("top_p", top_p);
   ("max_tokens", max_tokens);
   ("max_completion_tokens", max_completion_tokens);
   ("stop", stop);
   ("response_format", response_format);
   ("tools", tools);
   ("tool_choice", tool_choice);
   ("thinking", thinking)].

(** The optional arguments of [completion], under their keys. *)
Definition completion_options
    (suffix temperature top_p max_tokens stop : option json)
  : list (string * option json) :=
  [("suffix", suffix);
   ("temperature", temperature);
   ("top_p", top_p);
   ("max_tokens", max_tokens);
   ("stop", stop)].

(** The model a tool call ends up asking for when [extra_body] names
    none: the [model] argument unless absent or empty, else the
    configured default. *)
Definition tool_model (config : DeepSeekClientConfig) (model : option string)
  : string :=
  match model with
  | Some m => if String.eqb m "" then default_model config else m
  | None => default_model config
  end.


(** A computation that raises nothing but exceptions in [P]. *)
Definition raises_only {World A} (P : exn -> Prop) (m : M World A) : Prop :=
  forall s e s', m s = (Raise e, s') -> P e.

End Aux.

(** ** More scripted calls *)

Module Calls.

(** A completion payload, and a server that asks for the beta base and
    then answers. *)
Definition beta_success_call : state Scripted.World :=
  Scripted.start [[("prompt", JStr "hi")]]
    [Scripted.answer 400 "Use the BETA base"; Scripted.answer 200 "{}"].

(** The lines of a stream: a comment, two data lines, the end marker and
    a line after it. *)
Definition stream_lines : list string :=
  [": keep-alive"; "data: {}"; ""; "data: [1]"; "data: [DONE]"; "data: {}"].

(** Chunks of a reasoning model: a thought, then the answer. *)
Definition reasoning_chunks : list json :=
  [JDict [("id", JStr "r1"); ("created", JInt 5);
          ("choices", JList
             [JDict [("index", JInt 0);
                     ("delta", JDict [("reasoning_content", JStr "think, ")])]])];
   JDict [("id", JStr "r1");
          ("choices", JList
             [JDict [("index", JInt 0);
                     ("delta", JDict [("reasoning_content", JStr "then ")])];
              JDict [("index", JInt 0);
                     ("delta", JDict [("content", JStr "answer")]);
                     ("finish_reason", JStr "stop")]])]].

(** A no-break space (U+00A0) and an ideographic space (U+3000). *)
Definition nbsp : string := PyStr.bytes [194; 160]%nat.
Definition wide_space : string := PyStr.bytes [227; 128; 128]%nat.

(** The end marker followed by a no-break space. *)
Definition padded_done_line : string := "data: [DONE]" ++ nbsp.

(** The body of a stream of two chunks without choices, the second
    padded, and a line after the end marker. *)
Definition streamed_response : Response :=
  {| status_code := 200;
     text := "";
     response_json := Scripted.json_loads "";
     lines := [": keep-alive"; "data: {}"; ""; "data: " ++ nbsp ++ "{}";
               padded_done_line; "data: {}"] |}.

(** A payload that asks for a stream, and a server that streams. *)
Definition streamed_call : state Scripted.World :=
  Scripted.start [[("messages", JList []); ("stream", JBool true)]]
    [Answered streamed_response].

(** An environment in which every variable is set to the same value. *)
Definition constant_env (value : string) : string -> option string :=
  fun _ => Some value.

End Calls.
(** * Proofs *)

(** ** String lemmas *)

Section StringFacts.

Lemma append_eq_nil (a b : string) : a ++ b = "" -> a = "" /\ b = "".
Proof. destruct a; simpl; [auto | discriminate]. Qed.

(** A string that survives [rstrip] unchanged and is not empty keeps
    surviving it behind any prefix. *)
Lemma rstrip_app_fixed (chars pre t : string) :
  t <> "" -> PyStr.rstrip chars t = t ->
  PyStr.rstrip chars (pre ++ t) = pre ++ t.
Proof.
  intros Hne Hfix. induction pre as [|c pre IH]; simpl; [exact Hfix|].
  rewrite IH. destruct (pre ++ t) eqn:E; [|reflexivity].
  apply append_eq_nil in E. tauto.
Qed.

Lemma endswith_app (pre suffix : string) :
  PyStr.endswith (pre ++ suffix) suffix = true.
Proof.
  induction pre as [|c pre IH]; simpl.
  - destruct suffix; simpl; [reflexivity|].
    now rewrite Ascii.eqb_refl, String.eqb_refl.
  - rewrite IH. apply orb_true_r.
Qed.

Lemma endswith_split (s suffix : string) :
  PyStr.endswith s suffix = true -> exists pre, s = pre ++ suffix.
Proof.
  induction s as [|c s IH]; simpl; intros H.
  - rewrite orb_false_r in H. destruct suffix; [|discriminate].
    now exists "".
  - apply orb_true_iff in H as [H|H].
    + exists "". simpl. destruct suffix as [|x suffix]; [discriminate|].
      apply andb_prop in H as [H1 H2].
      apply Ascii.eqb_eq in H1. apply String.eqb_eq in H2. now subst.
    + destruct (IH H) as [pre ->]. now exists (String c pre).
Qed.

Lemma rstrip_slash_beta (pre : string) :
  PyStr.rstrip "/" (pre ++ "/beta") = pre ++ "/beta".
Proof. apply rstrip_app_fixed; [discriminate | reflexivity]. Qed.

Lemma rstrip_idempotent (chars s : string) :
  PyStr.rstrip chars (PyStr.rstrip chars s) = PyStr.rstrip chars s.
Proof.
  induction s as [|c s IH]; simpl; [reflexivity|].
  destruct (PyStr.rstrip chars s) as [|x r] eqn:E.
  - destruct (PyStr.mem c chars) eqn:M; simpl; [reflexivity|].
    now rewrite M.
  - simpl. simpl in IH. rewrite IH. reflexivity.
Qed.

Lemma normalize_base_url_idempotent (x : string) :
  normalize_base_url (normalize_base_url x) = normalize_base_url x.
Proof. apply rstrip_idempotent. Qed.

(** The result of [build_beta_base_url] always ends in ["/beta"]. *)
Lemma build_beta_base_url_shape (x : string) :
  exists pre, build_beta_base_url x = pre ++ "/beta".
Proof.
  unfold build_beta_base_url.
  destruct (PyStr.endswith (normalize_base_url x) "/beta") eqn:E.
  - now apply endswith_split.
  - now exists (normalize_base_url x).
Qed.

Lemma build_beta_base_url_normalized (x : string) :
  normalize_base_url (build_beta_base_url x) = build_beta_base_url x.
Proof.
  destruct (build_beta_base_url_shape x) as [pre ->].
  apply rstrip_slash_beta.
Qed.

End StringFacts.

(** C8: [build_beta_base_url] is idempotent, and its result never ends in
    ["/beta/beta"] unless the normalized input already did: a base that
    ends in ["/beta"] is returned unchanged. *)
Theorem build_beta_base_url_idempotent (x : string) :
  build_beta_base_url (build_beta_base_url x) = build_beta_base_url x
  /\ (forall pre, build_beta_base_url (pre ++ "/beta") = pre ++ "/beta").
Proof.
  split.
  - unfold build_beta_base_url at 1.
    rewrite build_beta_base_url_normalized.
    destruct (build_beta_base_url_shape x) as [pre ->].
    now rewrite endswith_app.
  - intros pre. unfold build_beta_base_url, normalize_base_url.
    rewrite rstrip_slash_beta. now rewrite endswith_app.
Qed.


(** ** Streaming aggregation *)

Section ListFacts.

Context {A : Type}.

Lemma last_cons (a : A) (l : list A) (d : A) :
  List.last (a :: l) d = List.last l a.
Proof.
  revert a d. induction l as [|b l IH]; intros a d; [reflexivity|].
  change (List.last (a :: b :: l) d) with (List.last (b :: l) d).
  now rewrite (IH b d), (IH b a).
Qed.

Lemma last_app_default (l1 l2 : list A) (d : A) :
  List.last (l1 ++ l2)%list d = List.last l2 (List.last l1 d).
Proof.
  revert d. induction l1 as [|a l1 IH]; intros d; [reflexivity|].
  simpl app. now rewrite !last_cons, IH.
Qed.

End ListFacts.

Section LoopFacts.

Import Spec.

Lemma fragments_app pick (xs ys : list json) :
  fragments pick (xs ++ ys)%list = (fragments pick xs ++ fragments pick ys)%list.
Proof.
  induction xs as [|x xs IH]; simpl; [reflexivity|].
  destruct (pick x); simpl; now rewrite IH.
Qed.

Lemma get_of_dict (v : json) (key : string) :
  is_dict v = true -> PyObj.get v key = Ok (field v key).
Proof. destruct v; simpl; intros H; try discriminate. reflexivity. Qed.

Lemma finish_after_cons choice choices before :
  finish_after (choice :: choices) before
  = finish_after choices (Py.or_else (field choice "finish_reason") before).
Proof.
  unfold finish_after, Py.or_else. simpl.
  destruct (Py.truthy (field choice "finish_reason")); [|reflexivity].
  apply last_cons.
Qed.

Lemma finish_after_app xs ys before :
  finish_after (xs ++ ys)%list before = finish_after ys (finish_after xs before).
Proof.
  unfold finish_after.
  now rewrite List.map_app, List.filter_app, last_app_default.
Qed.

Lemma append_if_str_fragments pick parts choice v rest :
  pick choice = Py.as_str v ->
  (append_if_str parts v ++ fragments pick rest)%list
  = (parts ++ fragments pick (choice :: rest))%list.
Proof.
  intros E. unfold append_if_str. simpl. rewrite E.
  destruct (Py.as_str v); [|reflexivity].
  now rewrite <- List.app_assoc.
Qed.

(** One pass of the chat loop body over a well-shaped choice. *)
Lemma chat_choice_shaped_run acc choice :
  chat_choice_shaped choice = true ->
  exists text reasoning,
    chat_choice acc choice
    = Ok {| content_parts := append_if_str (content_parts acc) text;
            reasoning_parts := append_if_str (reasoning_parts acc) reasoning;
            chat_finish_reason :=
              Py.or_else (field choice "finish_reason") (chat_finish_reason acc) |}
    /\ delta_str "content" choice = Py.as_str text
    /\ delta_str "reasoning_content" choice = Py.as_str reasoning.
Proof.
  unfold chat_choice_shaped, chat_choice, delta_str. intros H.
  apply andb_prop in H as [Hd Hdelta].
  rewrite (get_of_dict _ "delta" Hd). cbn [obind]. cbv zeta.
  unfold Py.or_else at 1 2.
  destruct (Py.truthy (field choice "delta")) eqn:T.
  - simpl in Hdelta. rewrite !(get_of_dict _ _ Hdelta). cbn [obind].
    rewrite (get_of_dict _ "finish_reason" Hd). cbn [obind]. eauto.
  - exists JNull, JNull.
    rewrite (get_of_dict _ "finish_reason" Hd). cbn.
    assert (E : forall k, field (field choice "delta") k = JNull).
    { intros k. destruct (field choice "delta") as [| | | | |?|d];
        try reflexivity.
      destruct d; [reflexivity | discriminate]. }
    rewrite !E. auto.
Qed.

Lemma chat_choices_loop choices acc :
  forallb chat_choice_shaped choices = true ->
  for_each chat_choice choices acc
  = Ok {| content_parts :=
            (content_parts acc ++ fragments (delta_str "content") choices)%list;
          reasoning_parts :=
            (reasoning_parts acc
             ++ fragments (delta_str "reasoning_content") choices)%list;
          chat_finish_reason := finish_after choices (chat_finish_reason acc) |}.
Proof.
  revert acc. induction choices as [|choice choices IH]; intros acc H.
  - simpl. rewrite !List.app_nil_r. now destruct acc.
  - simpl in H. apply andb_prop in H as [Hc Hrest].
    destruct (chat_choice_shaped_run acc choice Hc)
      as (text & reasoning & Hrun & Ht & Hr).
    simpl for_each. rewrite Hrun. simpl obind. rewrite (IH _ Hrest).
    simpl content_parts. simpl reasoning_parts. simpl chat_finish_reason.
    rewrite (append_if_str_fragments _ _ choice _ _ Ht).
    rewrite (append_if_str_fragments _ _ choice _ _ Hr).
    now rewrite finish_after_cons.
Qed.

Lemma completion_choices_loop choices acc :
  forallb completion_choice_shaped choices = true ->
  for_each completion_choice choices acc
  = Ok {| text_parts := (text_parts acc ++ fragments text_str choices)%list;
          text_finish_reason := finish_after choices (text_finish_reason acc) |}.
Proof.
  revert acc. induction choices as [|choice choices IH]; intros acc H.
  - simpl. rewrite List.app_nil_r. now destruct acc.
  - simpl in H. apply andb_prop in H as [Hc Hrest].
    unfold completion_choice_shaped in Hc.
    simpl for_each. unfold completion_choice at 1.
    rewrite !(get_of_dict _ _ Hc). simpl obind. rewrite (IH _ Hrest).
    simpl text_parts. simpl text_finish_reason.
    rewrite (append_if_str_fragments text_str _ choice _ _ eq_refl).
    now rewrite finish_after_cons.
Qed.

(** The choices the loop visits in a well-shaped chunk are the ones the
    chunk carries. *)
Lemma chunk_choices_shaped choice_shaped chunk :
  chunk_shaped choice_shaped chunk = true ->
  chunk_choices chunk = Ok (choices_of chunk)
  /\ forallb choice_shaped (choices_of chunk) = true.
Proof.
  unfold chunk_shaped, chunk_choices, choices_of.
  destruct chunk as [| | | | |?|d]; simpl; try discriminate.
  unfold Py.get, Py.get_default, Py.or_else.
  destruct (Py.lookup d "choices") as [v|]; simpl; [|auto].
  destruct (Py.truthy v) eqn:T; simpl.
  - destruct v; try discriminate. auto.
  - intros _. destruct v; simpl; auto.
    destruct items; [auto | discriminate].
Qed.

Lemma chat_chunks_loop chunks acc :
  chat_chunks_shaped chunks = true ->
  for_each chat_chunk chunks acc
  = Ok {| content_parts :=
            (content_parts acc
             ++ fragments (delta_str "content") (all_choices chunks))%list;
          reasoning_parts :=
            (reasoning_parts acc
             ++ fragments (delta_str "reasoning_content") (all_choices chunks))%list;
          chat_finish_reason :=
            finish_after (all_choices chunks) (chat_finish_reason acc) |}.
Proof.
  unfold chat_chunks_shaped. revert acc.
  induction chunks as [|chunk chunks IH]; intros acc H.
  - simpl. rewrite !List.app_nil_r. now destruct acc.
  - simpl in H. apply andb_prop in H as [Hc Hrest].
    destruct (chunk_choices_shaped _ _ Hc) as [Hchoices Hshaped].
    simpl for_each. unfold chat_chunk at 1. rewrite Hchoices. simpl obind.
    rewrite (chat_choices_loop _ _ Hshaped). simpl obind.
    rewrite (IH _ Hrest). unfold all_choices. simpl.
    now rewrite !fragments_app, !List.app_assoc, finish_after_app.
Qed.

Lemma completion_chunks_loop chunks acc :
  completion_chunks_shaped chunks = true ->
  for_each completion_chunk chunks acc
  = Ok {| text_parts := (text_parts acc ++ fragments text_str (all_choices chunks))%list;
          text_finish_reason :=
            finish_after (all_choices chunks) (text_finish_reason acc) |}.
Proof.
  unfold completion_chunks_shaped. revert acc.
  induction chunks as [|chunk chunks IH]; intros acc H.
  - simpl. rewrite List.app_nil_r. now destruct acc.
  - simpl in H. apply andb_prop in H as [Hc Hrest].
    destruct (chunk_choices_shaped _ _ Hc) as [Hchoices Hshaped].
    simpl for_each. unfold completion_chunk at 1. rewrite Hchoices. simpl obind.
    rewrite (completion_choices_loop _ _ Hshaped). simpl obind.
    rewrite (IH _ Hrest). unfold all_choices. simpl.
    now rewrite !fragments_app, !List.app_assoc, finish_after_app.
Qed.

Lemma shaped_is_dict choice_shaped chunk :
  chunk_shaped choice_shaped chunk = true -> is_dict chunk = true.
Proof. unfold chunk_shaped. intros H. now apply andb_prop in H. Qed.

Lemma shaped_last choice_shaped chunks first :
  forallb (chunk_shaped choice_shaped) (first :: chunks) = true ->
  is_dict (List.last (first :: chunks) first) = true.
Proof.
  intros H. rewrite forallb_forall in H.
  apply (shaped_is_dict choice_shaped), H.
  destruct (List.exists_last (l := first :: chunks)) as (l' & a & E);
    [discriminate|].
  rewrite E, List.last_last. apply List.in_or_app. right. now left.
Qed.

End LoopFacts.

(** *** The shape conditions are exactly where the loops do not raise *)

Section ShapeIsNecessary.

Import Spec.








End ShapeIsNecessary.

Section AggregationFacts.

Import Spec.

Context (World : Type) (clock : World -> Z * World) (py_repr : json -> string).

(** Decide the next test or clock reading of a run. *)
Ltac run_step :=
  cbn [fst snd heap world sent];
  match goal with
  | |- context [Py.truthy ?v] => destruct (Py.truthy v)
  | |- context [clock ?x] => destruct (clock x)
  end;
  cbn [fst snd heap world sent].

Local Abbreviation aggregate_chat := (aggregate_chat_chunks World clock py_repr).
Local Abbreviation aggregate_completion := (aggregate_completion_chunks World clock py_repr).

(** What [aggregate_chat_chunks] returns on well-shaped chunks, and the
    state it leaves. *)
Lemma aggregate_chat_chunks_run first rest fallback_model (s : state World) :
  chat_chunks_shaped (first :: rest) = true ->
  let chunks := first :: rest in
  let last := List.last chunks first in
  let id := stream_id World clock "chatcmpl-stream-" first (world s) in
  let created := stream_created World clock first last (snd id) in
  aggregate_chat chunks fallback_model s
  = (Ok (JDict
       [("id", fst id);
        ("object", JStr "chat.completion");
        ("created", fst created);
        ("model",
         JStr (py_str py_repr
                 (Py.or_else (field first "model") (JStr fallback_model))));
        ("choices", JList
           [JDict
              [("index", JInt 0);
               ("message", JDict (chat_message
                  {| content_parts :=
                       fragments (delta_str "content") (all_choices chunks);
                     reasoning_parts :=
                       fragments (delta_str "reasoning_content")
                         (all_choices chunks);
                     chat_finish_reason := last_truthy (finish_reasons chunks) |}));
               ("finish_reason", last_truthy (finish_reasons chunks))]]);
        ("usage", field last "usage")]),
     {| heap := heap s; world := snd created; sent := sent s |}).
Proof.
  intros Hshaped chunks last id created.
  assert (Hfirst : is_dict first = true).
  { simpl in Hshaped. apply andb_prop in Hshaped as [H _].
    now apply shaped_is_dict in H. }
  assert (Hlast : is_dict last = true) by now apply shaped_last in Hshaped.
  subst id created chunks. unfold aggregate_chat_chunks. cbv beta iota.
  set (chunks := first :: rest) in *. fold last. unfold bind, lift.
  rewrite !(get_of_dict _ _ Hfirst), !(get_of_dict _ _ Hlast).
  rewrite (chat_chunks_loop chunks _ Hshaped).
  unfold stream_id, stream_created, or_else, ret, now, bind, lift.
  destruct s as [h w sn].
  cbn [heap world sent content_parts reasoning_parts chat_finish_reason app fst snd].
  repeat run_step; reflexivity.
Qed.

Lemma aggregate_completion_chunks_run first rest fallback_model (s : state World) :
  completion_chunks_shaped (first :: rest) = true ->
  let chunks := first :: rest in
  let last := List.last chunks first in
  let id := stream_id World clock "cmpl-stream-" first (world s) in
  let created := stream_created World clock first last (snd id) in
  aggregate_completion chunks fallback_model s
  = (Ok (JDict
       [("id", fst id);
        ("object", JStr "text_completion");
        ("created", fst created);
        ("model",
         JStr (py_str py_repr
                 (Py.or_else (field first "model") (JStr fallback_model))));
        ("choices", JList
           [JDict
              [("index", JInt 0);
               ("text", JStr (PyStr.join (fragments text_str (all_choices chunks))));
               ("finish_reason", last_truthy (finish_reasons chunks))]]);
        ("usage", field last "usage")]),
     {| heap := heap s; world := snd created; sent := sent s |}).
Proof.
  intros Hshaped chunks last id created.
  assert (Hfirst : is_dict first = true).
  { simpl in Hshaped. apply andb_prop in Hshaped as [H _].
    now apply shaped_is_dict in H. }
  assert (Hlast : is_dict last = true) by now apply shaped_last in Hshaped.
  subst id created chunks. unfold aggregate_completion_chunks. cbv beta iota.
  set (chunks := first :: rest) in *. fold last. unfold bind, lift.
  rewrite !(get_of_dict _ _ Hfirst), !(get_of_dict _ _ Hlast).
  rewrite (completion_chunks_loop chunks _ Hshaped).
  unfold stream_id, stream_created, or_else, ret, now, bind, lift.
  destruct s as [h w sn].
  cbn [heap world sent text_parts text_finish_reason app fst snd].
  repeat run_step; reflexivity.
Qed.

Lemma aggregate_chat_empty_run fallback_model (s : state World) :
  exists t_id t_created s',
    aggregate_chat [] fallback_model s
    = (Ok (JDict
         [("id", JStr ("chatcmpl-stream-" ++ PyStr.of_int t_id));
          ("object", JStr "chat.completion");
          ("created", JInt t_created);
          ("model", JStr fallback_model);
          ("choices", JList
             [JDict [("index", JInt 0);
                     ("message", JDict [("role", JStr "assistant");
                                        ("content", JStr "")]);
                     ("finish_reason", JNull)]]);
          ("usage", JNull)]), s').
Proof.
  unfold aggregate_chat_chunks, bind, now, ret.
  destruct (clock (world s)) as [t1 w1] eqn:E1. cbn [world].
  destruct (clock w1) as [t2 w2] eqn:E2.
  exists t1, t2; eexists; reflexivity.
Qed.

Lemma aggregate_completion_empty_run fallback_model (s : state World) :
  exists t_id t_created s',
    aggregate_completion [] fallback_model s
    = (Ok (JDict
         [("id", JStr ("cmpl-stream-" ++ PyStr.of_int t_id));
          ("object", JStr "text_completion");
          ("created", JInt t_created);
          ("model", JStr fallback_model);
          ("choices", JList
             [JDict [("index", JInt 0);
                     ("text", JStr "");
                     ("finish_reason", JNull)]]);
          ("usage", JNull)]), s').
Proof.
  unfold aggregate_completion_chunks, bind, now, ret.
  destruct (clock (world s)) as [t1 w1] eqn:E1. cbn [world].
  destruct (clock w1) as [t2 w2] eqn:E2.
  exists t1, t2; eexists; reflexivity.
Qed.



Lemma chat_message_content acc :
  Py.get (chat_message acc) "content" = JStr (PyStr.join (content_parts acc)).
Proof. unfold chat_message. now destruct (reasoning_parts acc). Qed.

(** C7: on the empty chunk list both aggregators return a synthesized
    response, with empty content (or text), a null finish reason and a
    null usage; the id and the timestamp come from two clock readings. *)
Theorem aggregate_empty_chunks fallback_model (s : state World) :
  (exists t_id t_created s',
     aggregate_chat [] fallback_model s
     = (Ok (JDict
          [("id", JStr ("chatcmpl-stream-" ++ PyStr.of_int t_id));
           ("object", JStr "chat.completion");
           ("created", JInt t_created);
           ("model", JStr fallback_model);
           ("choices", JList
              [JDict [("index", JInt 0);
                      ("message", JDict [("role", JStr "assistant");
                                         ("content", JStr "")]);
                      ("finish_reason", JNull)]]);
           ("usage", JNull)]), s'))
  /\ (exists t_id t_created s',
        aggregate_completion [] fallback_model s
        = (Ok (JDict
             [("id", JStr ("cmpl-stream-" ++ PyStr.of_int t_id));
              ("object", JStr "text_completion");
              ("created", JInt t_created);
              ("model", JStr fallback_model);
              ("choices", JList
                 [JDict [("index", JInt 0);
                         ("text", JStr "");
                         ("finish_reason", JNull)]]);
              ("usage", JNull)]), s')).
Proof.
  split.
  - apply aggregate_chat_empty_run.
  - apply aggregate_completion_empty_run.
Qed.

(** C1, as the code has it: on well-shaped chunks the chat content is
    the concatenation, in arrival order, of the string [delta.content]
    fragments of all choices, and the completion text that of the string
    [text] fragments; the finish reason is the last truthy
    [finish_reason] seen, or null. *)
Theorem aggregate_chunks_content_and_finish_reason
    chat_chunks completion_chunks fallback_model (s : state World) :
  chat_chunks_shaped chat_chunks = true ->
  completion_chunks_shaped completion_chunks = true ->
  (exists response choice s',
     aggregate_chat chat_chunks fallback_model s = (Ok response, s')
     /\ field response "choices" = JList [choice]
     /\ field (field choice "message") "content"
        = JStr (PyStr.join
                  (fragments (delta_str "content") (all_choices chat_chunks)))
     /\ field choice "finish_reason" = last_truthy (finish_reasons chat_chunks))
  /\ (exists response choice s',
        aggregate_completion completion_chunks fallback_model s = (Ok response, s')
        /\ field response "choices" = JList [choice]
        /\ field choice "text"
           = JStr (PyStr.join (fragments text_str (all_choices completion_chunks)))
        /\ field choice "finish_reason"
           = last_truthy (finish_reasons completion_chunks)).
Proof.
  intros Hchat Hcompletion. split.
  - destruct chat_chunks as [|first rest].
    + destruct (aggregate_chat_empty_run fallback_model s)
        as (t1 & t2 & s' & E).
      rewrite E. do 3 eexists. repeat split.
    + rewrite (aggregate_chat_chunks_run first rest fallback_model s Hchat).
      do 3 eexists. split; [reflexivity|]. split; [reflexivity|].
      split; [|reflexivity].
      cbn [field Py.get Py.get_default Py.lookup String.eqb Ascii.eqb Bool.eqb].
      apply chat_message_content.
  - destruct completion_chunks as [|first rest].
    + destruct (aggregate_completion_empty_run fallback_model s)
        as (t1 & t2 & s' & E).
      rewrite E. do 3 eexists. repeat split.
    + rewrite (aggregate_completion_chunks_run first rest fallback_model s
                 Hcompletion).
      do 3 eexists. repeat split.
Qed.


(** C9, as the code has it: on well-shaped chunks, which are exactly
    the ones on which the aggregators return, the aggregated response
    has exactly one choice, with index 0; the fragments and finish
    reasons of all choices of all chunks are merged into it. *)
Theorem aggregate_chunks_single_choice
    chat_chunks completion_chunks fallback_model (s : state World) :
  chat_chunks_shaped chat_chunks = true ->
  completion_chunks_shaped completion_chunks = true ->
  (exists response s' message,
     aggregate_chat chat_chunks fallback_model s = (Ok response, s')
     /\ field response "choices"
        = JList [JDict [("index", JInt 0);
                        ("message", JDict message);
                        ("finish_reason",
                         finish_after (flat_map choices_of chat_chunks) JNull)]]
     /\ Py.get message "content"
        = JStr (PyStr.join
                  (fragments (delta_str "content")
                     (flat_map choices_of chat_chunks))))
  /\ (exists response s',
        aggregate_completion completion_chunks fallback_model s = (Ok response, s')
        /\ field response "choices"
           = JList [JDict [("index", JInt 0);
                           ("text",
                            JStr (PyStr.join
                                    (fragments text_str
                                       (flat_map choices_of completion_chunks))));
                           ("finish_reason",
                            finish_after (flat_map choices_of completion_chunks)
                              JNull)]]).
Proof.
  intros Hchat Hcompletion. split.
  - destruct chat_chunks as [|first rest].
    + destruct (aggregate_chat_empty_run fallback_model s)
        as (t1 & t2 & s' & E).
      rewrite E. do 3 eexists. repeat split.
    + rewrite (aggregate_chat_chunks_run first rest fallback_model s Hchat).
      do 3 eexists. split; [reflexivity|]. split; [reflexivity|].
      apply chat_message_content.
  - destruct completion_chunks as [|first rest].
    + destruct (aggregate_completion_empty_run fallback_model s)
        as (t1 & t2 & s' & E).
      rewrite E. do 2 eexists. repeat split.
    + rewrite (aggregate_completion_chunks_run first rest fallback_model s
                 Hcompletion).
      do 2 eexists. repeat split.
Qed.

End AggregationFacts.

(** ** Error classification *)

Section ClassificationFacts.

Context (json_loads : string -> decode_error + json).

(** [make_api_error] fails only when [response.json()] raises something
    that is no [ValueError]. *)
Lemma make_api_error_run response :
  make_api_error response
  = match response_json response with
    | inl (OtherError detail) => Raise (DecodeError (OtherError detail))
    | decoded =>
        let payload := match decoded with inr v => v | inl _ => JNull end in
        Ok {| message :=
                str_or (if Py.is_none payload then Some (text response)
                        else extract_error_message payload)
                  (status_message (status_code response));
              status := Some (status_code response);
              payload := payload |}
    end.
Proof.
  unfold make_api_error.
  destruct (response_json response) as [[detail|detail|detail]|v]; reflexivity.
Qed.

Lemma make_api_error_retains response error :
  make_api_error response = Ok error ->
  status error = Some (status_code response)
  /\ payload error
     = match response_json response with inr v => v | inl _ => JNull end.
Proof.
  rewrite make_api_error_run.
  destruct (response_json response) as [[detail|detail|detail]|v];
    intros H; inversion H; split; reflexivity.
Qed.

(** [make_api_error_from_text] fails only when [json.loads] raises
    something that is no [JSONDecodeError]; otherwise it follows the
    priority: extracted message, else the raw text, else the
    synthesized one. *)
Lemma make_api_error_from_text_run code body :
  make_api_error_from_text json_loads code body
  = match json_loads body with
    | inl (JSONDecodeError _) =>
        Ok {| message := str_or (Some body) (status_message code);
              status := Some code;
              payload := JNull |}
    | inl error => Raise (DecodeError error)
    | inr v =>
        Ok {| message :=
                str_or (Some (str_or (extract_error_message v) body))
                  (status_message code);
              status := Some code;
              payload := v |}
    end.
Proof.
  unfold make_api_error_from_text.
  destruct (json_loads body) as [[detail|detail|detail]|v]; reflexivity.
Qed.

Lemma make_api_error_from_text_retains code body error :
  make_api_error_from_text json_loads code body = Ok error ->
  status error = Some code
  /\ payload error
     = match json_loads body with inr v => v | inl _ => JNull end.
Proof.
  rewrite make_api_error_from_text_run.
  destruct (json_loads body) as [[detail|detail|detail]|v];
    intros H; inversion H; split; reflexivity.
Qed.

(** C4: the two classifiers disagree on a body that parses to a JSON
    value other than null carrying no message field: the streaming one
    keeps the raw text, the other one skips it and synthesizes the
    "status N" message. Both retain the status and the parsed body. *)
Theorem make_api_error_skips_raw_text response v :
  response_json response = inr v ->
  json_loads (text response) = inr v ->
  Py.is_none v = false ->
  extract_error_message v = None ->
  text response <> "" ->
  (exists error,
     make_api_error response = Ok error
     /\ message error = status_message (status_code response)
     /\ status error = Some (status_code response)
     /\ payload error = v)
  /\ (exists error,
        make_api_error_from_text json_loads (status_code response)
          (text response) = Ok error
        /\ message error = text response
        /\ status error = Some (status_code response)
        /\ payload error = v).
Proof.
  intros Hjson Hparse Hnone Hextract Hbody. split.
  - rewrite make_api_error_run, Hjson. cbv zeta. rewrite Hnone, Hextract.
    eexists. split; [reflexivity|]. repeat split.
  - rewrite make_api_error_from_text_run, Hparse, Hextract.
    eexists. split; [reflexivity|]. cbn [message status payload str_or].
    destruct (text response); [contradiction|]. repeat split.
Qed.

End ClassificationFacts.

Section FallbackFacts.



Lemma contains_unfold (needle hay : string) :
  PyStr.contains needle hay
  = String.prefix needle hay
    || match hay with
       | EmptyString => false
       | String _ rest => PyStr.contains needle rest
       end.
Proof. destruct hay; reflexivity. Qed.



Lemma retriable_status_iff code :
  existsb (Z.eqb code) RETRIABLE_STATUS_CODES = true
  <-> In code [408; 409; 429; 500; 502; 503; 504].
Proof.
  unfold RETRIABLE_STATUS_CODES. rewrite existsb_exists. split.
  - intros (x & Hin & Heq). apply Z.eqb_eq in Heq. now subst.
  - intros Hin. exists code. split; [exact Hin | apply Z.eqb_refl].
Qed.

Lemma should_reasoner_fallback_iff config model error :
  _should_reasoner_fallback config model error = true
  <-> Spec.fallback_conditions config model error.
Proof.
  unfold _should_reasoner_fallback, Spec.fallback_conditions.
  destruct (enable_reasoner_fallback config); cbn [negb];
    [|split; [discriminate | intros [H _]; discriminate]].
  destruct (String.eqb_spec model "deepseek-reasoner") as [Hm|Hm]; cbn [negb];
    [|split; [discriminate | intros (_ & H & _); contradiction]].
  destruct (String.eqb_spec (fallback_model config) model) as [Hf|Hf];
    [split; [discriminate | intros (_ & _ & H & _); contradiction]|].
  destruct (status error) as [code|].
  - rewrite retriable_status_iff. split.
    + intros H. repeat split; auto. right. eauto.
    + intros (_ & _ & _ & [H | (c & Hc & Hin)]); [discriminate|].
      now inversion Hc; subst.
  - split; [|reflexivity]. intros _. repeat split; auto.
Qed.

End FallbackFacts.

(** ** The client *)

Section HeapFacts.

Lemma heap_alloc_lookup (h : list pydict) (d : pydict) :
  (h ++ [d])%list !! length h = Some d.
Proof. now apply list_lookup_middle. Qed.

Lemma heap_alloc_set (h : list pydict) (d x : pydict) :
  <[length h := x]> (h ++ [d])%list = (h ++ [x])%list.
Proof.
  rewrite insert_app_r_alt by lia. now rewrite Nat.sub_diag.
Qed.

Lemma heap_alloc_old (h : list pydict) (d x : pydict) (r : loc) :
  h !! r = Some x -> (h ++ [d])%list !! r = Some x.
Proof. intros H. rewrite lookup_app_l; [exact H|]. now apply lookup_lt_Some in H. Qed.

Lemma get_set_same (d : pydict) (key : string) (v : json) :
  Py.get (Py.set d key v) key = v.
Proof.
  unfold Py.get, Py.get_default.
  induction d as [|[k x] d IH]; simpl.
  - now rewrite String.eqb_refl.
  - destruct (String.eqb k key) eqn:E; simpl; rewrite E; [reflexivity|exact IH].
Qed.

Lemma not_snoc {A} (l : list A) (x : A) : l <> (l ++ [x])%list.
Proof.
  intros H. apply (f_equal (@length A)) in H.
  rewrite List.length_app in H. simpl in H. lia.
Qed.

End HeapFacts.

Section ClientFacts.

Context (World : Type)
        (http : Request -> World -> Reply * World)
        (clock : World -> Z * World)
        (json_loads : string -> decode_error + json)
        (py_repr : json -> string)
        (config : DeepSeekClientConfig).

Local Abbreviation attempt :=
  (_chat_or_completion_request World http clock json_loads py_repr config).
Local Abbreviation request_of := (attempt_request World config).

(** *** Computations that touch only the world *)

Lemma world_only_ret {A} (a : A) : world_only (ret World a).
Proof. intros s. split; reflexivity. Qed.

Lemma world_only_raise {A} (e : exn) : world_only (@raise World A e).
Proof. intros s. split; reflexivity. Qed.

Lemma world_only_lift {A} (o : outcome A) : world_only (lift World o).
Proof. intros s. split; reflexivity. Qed.

Lemma world_only_now : world_only (now World clock).
Proof. intros s. unfold now. destruct (clock (world s)). split; reflexivity. Qed.

Lemma world_only_deref r : world_only (deref World r).
Proof. intros s. split; reflexivity. Qed.

Lemma world_only_bind {A B} (m : M World A) (k : A -> M World B) :
  world_only m -> (forall a, world_only (k a)) -> world_only (bind World m k).
Proof.
  intros Hm Hk s. unfold bind. specialize (Hm s).
  destruct (m s) as [[a|e] s1]; cbn [snd] in Hm; [|exact Hm].
  destruct (Hk a s1) as [H1 H2]. destruct Hm as [H3 H4].
  split; congruence.
Qed.

Lemma world_only_or_else a (b : M World json) :
  world_only b -> world_only (or_else World a b).
Proof. intros Hb. unfold or_else. destruct (Py.truthy a); [apply world_only_ret|exact Hb]. Qed.

Ltac world_only_steps :=
  repeat first
    [ apply world_only_ret | apply world_only_raise | apply world_only_lift
    | apply world_only_now | apply world_only_deref | apply world_only_or_else
    | apply world_only_bind; [|intros ?] ].

Lemma aggregate_chat_chunks_world_only chunks fallback_model :
  world_only (aggregate_chat_chunks World clock py_repr chunks fallback_model).
Proof. unfold aggregate_chat_chunks. destruct chunks; world_only_steps. Qed.

Lemma aggregate_completion_chunks_world_only chunks fallback_model :
  world_only (aggregate_completion_chunks World clock py_repr chunks fallback_model).
Proof. unfold aggregate_completion_chunks. destruct chunks; world_only_steps. Qed.

Lemma dict_get_world_only r key : world_only (dict_get World r key).
Proof. unfold dict_get. world_only_steps. Qed.

Lemma bind_dict_get {B} r key (k : json -> M World B) s :
  bind World (dict_get World r key) k s
  = k (Py.get (default [] (heap s !! r)) key) s.
Proof. reflexivity. Qed.

(** *** Computations that issue one request *)

Lemma sends_one_bind {A B} (m : M World A) (k : A -> M World B) s r :
  sends_one m s r -> (forall a, world_only (k a)) -> sends_one (bind World m k) s r.
Proof.
  unfold sends_one, bind. intros Hm Hk.
  destruct (m s) as [[a|e] s1]; cbn [snd] in Hm; [|exact Hm].
  destruct (Hk a s1) as [H1 H2]. destruct Hm as [H3 H4].
  split; congruence.
Qed.

Lemma http_call_sends_one method url headers body timeout streamed s :
  sends_one (http_call World http method url headers body timeout streamed) s
    {| method := method; url := url; headers := headers;
       body := option_map (fun r => default [] (heap s !! r)) body;
       timeout := timeout; streamed := streamed |}.
Proof.
  unfold sends_one, http_call.
  destruct (http _ (world s)) as [[response|detail] w]; split; reflexivity.
Qed.

(** Every attempt leaves the heap alone and issues exactly one request,
    whatever its outcome. *)
Lemma attempt_sends_one path payload base_url_override s :
  sends_one (attempt path payload base_url_override) s
    (request_of path payload base_url_override s).
Proof.
  unfold _chat_or_completion_request, attempt_request, sends_one.
  rewrite bind_dict_get. cbv zeta.
  destruct (Py.truthy (Py.get (default [] (heap s !! payload)) "stream")).
  - apply sends_one_bind.
    + unfold _request_sse_json. apply sends_one_bind.
      * apply http_call_sends_one.
      * intros response. destruct (400 <=? status_code response); world_only_steps.
    + intros chunks. apply world_only_bind; [apply dict_get_world_only|].
      intros model. destruct (String.eqb path "/chat/completions");
        (apply world_only_bind;
         [first [apply aggregate_chat_chunks_world_only
                |apply aggregate_completion_chunks_world_only]
         |intros; apply world_only_ret]).
  - apply sends_one_bind.
    + unfold _request_json. apply sends_one_bind.
      * apply http_call_sends_one.
      * intros response. destruct (400 <=? status_code response);
          [world_only_steps|].
        destruct (response_json response) as [error|v];
          [destruct (is_value_error error)|]; world_only_steps.
    + intros response. apply world_only_ret.
Qed.

(** *** The two methods, step by step *)

Local Abbreviation chat := (create_chat_completion World http clock json_loads py_repr config).
Local Abbreviation plain := (create_completion World http clock json_loads py_repr config).
Local Abbreviation first_chat := (first_chat_attempt World http clock json_loads py_repr config).
Local Abbreviation first_plain := (first_completion_attempt World http clock json_loads py_repr config).
Local Abbreviation model_of := (requested_model World py_repr config).
Local Abbreviation prepared := (attempt_state World py_repr config).
Local Abbreviation degraded := (fallback_state World config).

Lemma first_chat_attempt_eq payload s :
  first_chat payload s
  = attempt "/chat/completions" (length (heap s)) None (prepared payload s).
Proof.
  unfold first_chat_attempt, attempt_state, requested_model.
  unfold bind, dict_get, dict_copy, bind, deref, alloc, dict_setitem, ret.
  cbn [heap world sent].
  now rewrite heap_alloc_lookup, heap_alloc_set.
Qed.

Lemma first_completion_attempt_eq payload s :
  first_plain payload s
  = attempt "/completions" (length (heap s)) None (prepared payload s).
Proof.
  unfold first_completion_attempt, attempt_state, requested_model.
  unfold bind, dict_get, dict_copy, bind, deref, alloc, dict_setitem, ret.
  cbn [heap world sent].
  now rewrite heap_alloc_lookup, heap_alloc_set.
Qed.

Lemma create_chat_completion_eq payload s :
  chat payload s
  = match first_chat payload s with
    | (Ok result, s2) =>
        (Ok (JDict [("response", fst result);
                    ("fallback", JNull);
                    ("stream_chunk_count", snd result)]), s2)
    | (Raise (DeepSeekApiError error), s2) =>
        if _should_reasoner_fallback config (model_of payload s) error then
          match attempt "/chat/completions" (length (heap s2)) None
                  (degraded (length (heap s)) s2) with
          | (Ok result, s4) =>
              (Ok (JDict [("response", fst result);
                          ("fallback",
                           JDict [("from_model", JStr (model_of payload s));
                                  ("to_model", JStr (fallback_model config));
                                  ("reason", JStr (error_str error))]);
                          ("stream_chunk_count", snd result)]), s4)
          | (Raise e, s4) => (Raise e, s4)
          end
        else (Raise (DeepSeekApiError error), s2)
    | (Raise e, s2) => (Raise e, s2)
    end.
Proof.
  rewrite first_chat_attempt_eq.
  unfold create_chat_completion, attempt_state, fallback_state, requested_model.
  unfold try_except, bind, dict_get, dict_copy, bind, deref, alloc,
    dict_setitem, ret, raise.
  cbn [heap world sent].
  rewrite heap_alloc_lookup, heap_alloc_set. cbn [default].
  destruct (attempt _ _ _ _) as [[result|[error| | |detail|failure]] s2]; try reflexivity.
  destruct (_should_reasoner_fallback config _ error); [|reflexivity].
  cbn [negb heap world sent].
  rewrite heap_alloc_lookup, heap_alloc_set. reflexivity.
Qed.

Lemma create_completion_eq payload s :
  plain payload s
  = match first_plain payload s with
    | (Ok result, s2) =>
        (Ok (JDict [("response", fst result);
                    ("used_beta_base", JBool false);
                    ("stream_chunk_count", snd result)]), s2)
    | (Raise (DeepSeekApiError error), s2) =>
        if should_retry_completion_on_beta error then
          match attempt "/completions" (length (heap s))
                  (Some (build_beta_base_url (base_url config))) s2 with
          | (Ok result, s3) =>
              (Ok (JDict [("response", fst result);
                          ("used_beta_base", JBool true);
                          ("stream_chunk_count", snd result)]), s3)
          | (Raise e, s3) => (Raise e, s3)
          end
        else (Raise (DeepSeekApiError error), s2)
    | (Raise e, s2) => (Raise e, s2)
    end.
Proof.
  rewrite first_completion_attempt_eq.
  unfold create_completion, attempt_state, requested_model.
  unfold try_except, bind, dict_get, dict_copy, bind, deref, alloc,
    dict_setitem, ret, raise.
  cbn [heap world sent].
  rewrite heap_alloc_lookup, heap_alloc_set. cbn [default].
  destruct (attempt _ _ _ _) as [[result|[error| | |detail|failure]] s2]; try reflexivity.
  destruct (should_retry_completion_on_beta error); reflexivity.
Qed.

(** The first attempt issues one request and allocates one dict. *)
Lemma first_attempt_effect path payload s :
  let result := attempt path (length (heap s)) None (prepared payload s) in
  heap (snd result) = heap (prepared payload s)
  /\ sent (snd result)
     = (sent s ++ [request_of path (length (heap s)) None (prepared payload s)])%list.
Proof.
  exact (attempt_sends_one path (length (heap s)) None (prepared payload s)).
Qed.

Lemma prepared_lookup_new payload s :
  heap (prepared payload s) !! length (heap s)
  = Some (Py.set (default [] (heap s !! payload)) "model"
            (JStr (model_of payload s))).
Proof. apply heap_alloc_lookup. Qed.

Lemma prepared_lookup_old payload s r x :
  heap s !! r = Some x -> heap (prepared payload s) !! r = Some x.
Proof. apply heap_alloc_old. Qed.

Lemma degraded_lookup_new attempted s :
  heap (degraded attempted s) !! length (heap s)
  = Some (Py.set (default [] (heap s !! attempted)) "model"
            (JStr (fallback_model config))).
Proof. apply heap_alloc_lookup. Qed.

Lemma degraded_lookup_old attempted s r x :
  heap s !! r = Some x -> heap (degraded attempted s) !! r = Some x.
Proof. apply heap_alloc_old. Qed.

Lemma beta_override_url path :
  normalize_base_url
    (effective_base_url config (Some (build_beta_base_url (base_url config))))
  ++ path
  = build_beta_base_url (base_url config) ++ path.
Proof.
  unfold effective_base_url, str_or.
  destruct (build_beta_base_url_shape (base_url config)) as [pre E].
  destruct (String.eqb_spec (build_beta_base_url (base_url config)) "") as [H|_].
  - rewrite E in H. apply append_eq_nil in H as [_ H]. discriminate.
  - now rewrite build_beta_base_url_normalized.
Qed.

(** C10: neither method changes the caller's payload dict: whatever the
    outcome (success, fallback or beta retry, raised error), the heap
    object the caller passed holds what it held on entry. *)
Theorem create_methods_keep_caller_payload payload d s :
  heap s !! payload = Some d ->
  heap (snd (chat payload s)) !! payload = Some d
  /\ heap (snd (plain payload s)) !! payload = Some d.
Proof.
  intros Hd. split.
  - rewrite create_chat_completion_eq, first_chat_attempt_eq.
    destruct (first_attempt_effect "/chat/completions" payload s) as [Hheap _].
    cbv zeta in Hheap.
    destruct (attempt _ _ _ (prepared payload s)) as [[result|e] s2];
      cbn [snd] in Hheap.
    + cbn [snd]. rewrite Hheap. now apply prepared_lookup_old.
    + assert (Hs2 : heap s2 !! payload = Some d)
        by (rewrite Hheap; now apply prepared_lookup_old).
      destruct e as [error| | |detail|failure]; try exact Hs2.
      destruct (_should_reasoner_fallback config _ error); [|exact Hs2].
      destruct (attempt_sends_one "/chat/completions" (length (heap s2)) None
                  (degraded (length (heap s)) s2)) as [Hheap2 _].
      destruct (attempt _ _ _ (degraded _ s2)) as [[result|e] s4];
        cbn [snd] in *; rewrite Hheap2; now apply degraded_lookup_old.
  - rewrite create_completion_eq, first_completion_attempt_eq.
    destruct (first_attempt_effect "/completions" payload s) as [Hheap _].
    cbv zeta in Hheap.
    destruct (attempt _ _ _ (prepared payload s)) as [[result|e] s2];
      cbn [snd] in Hheap.
    + cbn [snd]. rewrite Hheap. now apply prepared_lookup_old.
    + assert (Hs2 : heap s2 !! payload = Some d)
        by (rewrite Hheap; now apply prepared_lookup_old).
      destruct e as [error| | |detail|failure]; try exact Hs2.
      destruct (should_retry_completion_on_beta error); [|exact Hs2].
      destruct (attempt_sends_one "/completions" (length (heap s))
                  (Some (build_beta_base_url (base_url config))) s2)
        as [Hheap2 _].
      destruct (attempt _ _ _ s2) as [[result|e] s3];
        cbn [snd] in *; now rewrite Hheap2.
Qed.

(** A first attempt that succeeds, or that raises anything but an API
    error, ends the call: nothing more is sent. *)
Lemma no_retry_without_api_error payload s outcome s2 :
  first_chat payload s = (outcome, s2) ->
  (forall error, outcome <> Raise (DeepSeekApiError error)) ->
  sent (snd (chat payload s)) = sent s2
  /\ match outcome with
     | Ok result =>
         fst (chat payload s)
         = Ok (JDict [("response", fst result);
                      ("fallback", JNull);
                      ("stream_chunk_count", snd result)])
     | Raise e => fst (chat payload s) = Raise e
     end.
Proof.
  intros Hfirst Hother. rewrite create_chat_completion_eq, Hfirst.
  destruct outcome as [result|[error| | |detail|failure]]; cbn [fst snd]; auto.
  now destruct (Hother error).
Qed.

(** The two ways a call goes on after its first attempt raised an API
    error. *)
Lemma reasoner_fallback_run payload s error s2 :
  first_chat payload s = (Raise (DeepSeekApiError error), s2) ->
  (Spec.fallback_conditions config (model_of payload s) error
   /\ exists retry d,
        sent (snd (chat payload s)) = (sent s2 ++ [retry])%list
        /\ body retry = Some d
        /\ Py.get d "model" = JStr (fallback_model config))
  \/ (~ Spec.fallback_conditions config (model_of payload s) error
      /\ chat payload s = (Raise (DeepSeekApiError error), s2)).
Proof.
  intros Hfirst. rewrite create_chat_completion_eq, Hfirst.
  destruct (_should_reasoner_fallback config (model_of payload s) error) eqn:E.
  - left. split; [now apply should_reasoner_fallback_iff|].
    destruct (attempt_sends_one "/chat/completions" (length (heap s2)) None
                (degraded (length (heap s)) s2)) as [_ Hsent].
    exists (request_of "/chat/completions" (length (heap s2)) None
              (degraded (length (heap s)) s2)).
    eexists. split; [|split].
    + destruct (attempt _ _ _ (degraded _ s2)) as [[result|e] s4];
        exact Hsent.
    + unfold attempt_request. cbn [body]. rewrite degraded_lookup_new.
      reflexivity.
    + apply get_set_same.
  - right. split; [|reflexivity].
    rewrite <- should_reasoner_fallback_iff, E. discriminate.
Qed.

(** The fallback on an API error: in every chat-completion call a second
    request, carrying the fallback model, is issued if and only if the
    first attempt raised an API error and the fallback is enabled, the requested model is
    "deepseek-reasoner", the fallback model differs from it, and the
    error has no status or a status among 408, 409, 429, 500, 502, 503,
    504; when the conditions fail the error is raised again and nothing
    more is sent. In particular, on status 429 with the fallback enabled
    and a distinct fallback model, the retry happens exactly when the
    requested model is "deepseek-reasoner". *)
Theorem reasoner_fallback_attempted_iff payload s :
  let model := model_of payload s in
  let first := first_chat payload s in
  let final := snd (chat payload s) in
  let retried :=
    exists retry d,
      sent final = (sent (snd first) ++ [retry])%list
      /\ body retry = Some d
      /\ Py.get d "model" = JStr (fallback_model config) in
  (retried
   <-> exists error,
         fst first = Raise (DeepSeekApiError error)
         /\ Spec.fallback_conditions config model error)
  /\ (forall error,
        fst first = Raise (DeepSeekApiError error) ->
        (~ Spec.fallback_conditions config model error ->
         chat payload s = (Raise (DeepSeekApiError error), snd first))
        /\ (status error = Some 429 ->
            enable_reasoner_fallback config = true ->
            fallback_model config <> model ->
            (retried <-> model = "deepseek-reasoner"))).
Proof.
  intros model first final retried.
  destruct (first_chat payload s) as [outcome s2] eqn:Hfirst.
  subst first. cbn [fst snd] in *.
  assert (Hstay : forall retry,
             sent final = sent s2 -> sent final <> (sent s2 ++ [retry])%list).
  { intros retry ->. apply not_snoc. }
  assert (Hiff : retried
                 <-> exists error,
                       outcome = Raise (DeepSeekApiError error)
                       /\ Spec.fallback_conditions config model error).
  { split.
    - intros (retry & d & Hsent & _).
      destruct outcome as [result|[error| | |detail|failure]];
        try (exfalso; apply (Hstay retry); [|exact Hsent];
             apply (no_retry_without_api_error payload s _ s2 Hfirst);
             discriminate).
      destruct (reasoner_fallback_run payload s error s2 Hfirst)
        as [[Hc _]|[_ Hraise]]; [eauto|].
      exfalso. apply (Hstay retry); [|exact Hsent].
      subst final. now rewrite Hraise.
    - intros (error & -> & Hc).
      destruct (reasoner_fallback_run payload s error s2 Hfirst)
        as [[_ H]|[H _]]; [exact H | contradiction]. }
  split; [exact Hiff|].
  intros error ->. split.
  - intros Hc.
    destruct (reasoner_fallback_run payload s error s2 Hfirst)
      as [[H _]|[_ H]]; [contradiction | exact H].
  - intros H429 Henabled Hdistinct. rewrite Hiff. split.
    + intros (error' & Heq & _ & Hmodel & _). exact Hmodel.
    + intros Hmodel. exists error. split; [reflexivity|].
      repeat split; auto. right. exists 429. split; [exact H429|].
      simpl. tauto.
Qed.


(** C6: a chat completion asked for with nothing but [messages] sends,
    to the chat-completions endpoint, a payload with exactly the keys
    [messages], [stream] (false) and [model] (the default model); the
    only request that may follow, the fallback one, has the same keys. *)
Theorem chat_completion_minimal_payload messages s :
  let final :=
    snd (chat_completion World http clock json_loads py_repr config
           messages None false None None None None None None None None None None
           s) in
  exists first rest,
    sent final = (sent s ++ first :: rest)%list
    /\ url first = normalize_base_url (base_url config) ++ "/chat/completions"
    /\ body first
       = Some [("messages", messages);
               ("stream", JBool false);
               ("model", JStr (default_model config))]
    /\ Forall (fun request =>
                 option_map Py.keys (body request)
                 = Some ["messages"; "stream"; "model"]) rest.
Proof.
  pose (d0 := [("messages", messages); ("stream", JBool false)]).
  assert (Hcall :
    chat_completion World http clock json_loads py_repr config
      messages None false None None None None None None None None None None s
    = chat (length (heap s))
        {| heap := (heap s ++ [d0])%list; world := world s; sent := sent s |})
    by reflexivity.
  rewrite Hcall. clear Hcall.
  remember {| heap := (heap s ++ [d0])%list; world := world s; sent := sent s |}
    as s0 eqn:Es0.
  assert (Hd0 : heap s0 !! (length (heap s) : loc) = Some d0)
    by (subst s0; apply heap_alloc_lookup).
  assert (Hs0 : sent s0 = sent s) by now subst s0.
  assert (Hbody : heap (prepared (length (heap s)) s0)
                  !! (length (heap s0) : loc)
                  = Some [("messages", messages);
                          ("stream", JBool false);
                          ("model", JStr (default_model config))]).
  { rewrite prepared_lookup_new. unfold requested_model. rewrite Hd0.
    reflexivity. }
  rewrite create_chat_completion_eq, first_chat_attempt_eq.
  destruct (first_attempt_effect "/chat/completions" (length (heap s)) s0)
    as [Hheap Hsent].
  cbv zeta in Hheap, Hsent.
  set (first := request_of "/chat/completions" (length (heap s0)) None
                  (prepared (length (heap s)) s0)) in *.
  assert (Hfirst : url first
                   = normalize_base_url (base_url config) ++ "/chat/completions"
                   /\ body first
                      = Some [("messages", messages);
                              ("stream", JBool false);
                              ("model", JStr (default_model config))]).
  { subst first. unfold attempt_request. cbn [url body]. now rewrite Hbody. }
  destruct Hfirst as [Hurl Hfirst].
  rewrite Hs0 in Hsent.
  destruct (attempt _ _ _ (prepared _ s0)) as [[result|e] s2];
    cbn [snd] in Hheap, Hsent.
  - exists first, []. cbn [snd]. auto.
  - destruct e as [error| | |detail|failure];
      try solve [exists first, []; cbn [snd]; auto].
    destruct (_should_reasoner_fallback config _ error);
      [|solve [exists first, []; cbn [snd]; auto]].
    destruct (attempt_sends_one "/chat/completions" (length (heap s2)) None
                (degraded (length (heap s0)) s2)) as [_ Hsent2].
    set (retry := request_of "/chat/completions" (length (heap s2)) None
                    (degraded (length (heap s0)) s2)) in *.
    exists first, [retry]. split; [|split; [exact Hurl|split; [exact Hfirst|]]].
    + destruct (attempt _ _ _ (degraded _ s2)) as [[result|e] s4];
        cbn [snd] in *; rewrite Hsent2; cbn [sent degraded fallback_state];
        rewrite Hsent, <- List.app_assoc; reflexivity.
    + constructor; [|constructor]. subst retry. unfold attempt_request.
      cbn [body option_map]. rewrite degraded_lookup_new, Hheap, Hbody.
      reflexivity.
Qed.

End ClientFacts.

(** ** The repository's tests *)

Example test_normalize_base_url_trims_trailing_slash :
  normalize_base_url "https://api.deepseek.com/" = "https://api.deepseek.com"
  /\ normalize_base_url "https://api.deepseek.com" = "https://api.deepseek.com".
Proof. split; reflexivity. Qed.

Example test_build_beta_base_url_stable :
  build_beta_base_url "https://api.deepseek.com" = "https://api.deepseek.com/beta"
  /\ build_beta_base_url "https://api.deepseek.com/beta"
     = "https://api.deepseek.com/beta".
Proof. split; reflexivity. Qed.

Example test_should_retry_completion_on_beta :
  should_retry_completion_on_beta
    {| message := "Please use https://api.deepseek.com/beta for this endpoint";
       status := Some 400; payload := JNull |} = true.
Proof. reflexivity. Qed.

Example test_aggregate_chat_chunks_collects_content :
  exists response choice s',
    Scripted.aggregate_chat Scripted.hello_chunks "deepseek-chat"
      (Scripted.start [] []) = (Ok response, s')
    /\ field response "choices" = JList [choice]
    /\ field (field choice "message") "content" = JStr "HELLO_WORLD"
    /\ field choice "finish_reason" = JStr "stop".
Proof. do 3 eexists. split; [vm_compute; reflexivity|]. repeat split. Qed.

Example test_aggregate_completion_chunks_collects_text :
  exists response choice s',
    Scripted.aggregate_completion Scripted.foobar_chunks "deepseek-chat"
      (Scripted.start [] []) = (Ok response, s')
    /\ field response "choices" = JList [choice]
    /\ field choice "text" = JStr "foobar"
    /\ field choice "finish_reason" = JStr "stop".
Proof. do 3 eexists. split; [vm_compute; reflexivity|]. repeat split. Qed.

(** ** The theorems on concrete runs *)

Lemma aggregate_chunks_content_and_finish_reason_witness :
  Spec.chat_chunks_shaped Scripted.hello_chunks = true
  /\ Spec.completion_chunks_shaped Scripted.foobar_chunks = true
  /\ (exists response choice s',
        Scripted.aggregate_chat Scripted.hello_chunks "deepseek-chat"
          (Scripted.start [] []) = (Ok response, s')
        /\ field response "choices" = JList [choice]
        /\ field (field choice "message") "content" = JStr "HELLO_WORLD"
        /\ field choice "finish_reason" = JStr "stop")
  /\ (exists response choice s',
        Scripted.aggregate_completion Scripted.foobar_chunks "deepseek-chat"
          (Scripted.start [] []) = (Ok response, s')
        /\ field response "choices" = JList [choice]
        /\ field choice "text" = JStr "foobar"
        /\ field choice "finish_reason" = JStr "stop").
Proof.
  split; [reflexivity|]. split; [reflexivity|].
  exact (aggregate_chunks_content_and_finish_reason
           Scripted.World Scripted.clock Scripted.py_repr
           Scripted.hello_chunks Scripted.foobar_chunks "deepseek-chat"
           (Scripted.start [] []) eq_refl eq_refl).
Defined.

(** On chunks whose last finish reason is the empty string, the
    aggregated finish reason is the earlier "stop", not the last value
    that is not null. *)
Lemma finish_reason_is_not_last_non_null :
  exists response choice s',
    Scripted.aggregate_chat Scripted.blank_finish_chunks "deepseek-chat"
      (Scripted.start [] []) = (Ok response, s')
    /\ field response "choices" = JList [choice]
    /\ field choice "finish_reason" = JStr "stop"
    /\ Spec.last_non_null (Spec.finish_reasons Scripted.blank_finish_chunks) = JStr ""
    /\ field choice "finish_reason"
       <> Spec.last_non_null (Spec.finish_reasons Scripted.blank_finish_chunks).
Proof.
  do 3 eexists. split; [vm_compute; reflexivity|].
  split; [reflexivity|]. split; [reflexivity|]. split; [reflexivity|].
  vm_compute. discriminate.
Qed.



Lemma aggregate_chunks_single_choice_witness :
  Spec.chat_chunks_shaped Scripted.two_choice_chunks = true
  /\ Spec.completion_chunks_shaped Scripted.foobar_chunks = true
  /\ (exists response s' message,
        Scripted.aggregate_chat Scripted.two_choice_chunks "deepseek-chat"
          (Scripted.start [] []) = (Ok response, s')
        /\ field response "choices"
           = JList [JDict [("index", JInt 0);
                           ("message", JDict message);
                           ("finish_reason", JStr "stop")]]
        /\ Py.get message "content" = JStr "abc")
  /\ (exists response s',
        Scripted.aggregate_completion Scripted.foobar_chunks "deepseek-chat"
          (Scripted.start [] []) = (Ok response, s')
        /\ field response "choices"
           = JList [JDict [("index", JInt 0);
                           ("text", JStr "foobar");
                           ("finish_reason", JStr "stop")]]).
Proof.
  split; [reflexivity|]. split; [reflexivity|].
  exact (aggregate_chunks_single_choice
           Scripted.World Scripted.clock Scripted.py_repr
           Scripted.two_choice_chunks Scripted.foobar_chunks "deepseek-chat"
           (Scripted.start [] []) eq_refl eq_refl).
Defined.

(** A choice that carries a string for [delta] makes the chat aggregator
    raise: no response comes back. *)
Lemma aggregate_raises_on_string_delta :
  (exists s',
     Scripted.aggregate_chat Scripted.string_delta_chunks "deepseek-chat"
       (Scripted.start [] []) = (Raise AttributeError, s'))
  /\ ~ (exists response s',
          Scripted.aggregate_chat Scripted.string_delta_chunks "deepseek-chat"
            (Scripted.start [] []) = (Ok response, s')).
Proof.
  split.
  - eexists. vm_compute. reflexivity.
  - intros (response & s' & H). vm_compute in H. discriminate.
Qed.

Lemma make_api_error_skips_raw_text_witness :
  let response :=
    {| status_code := 500; text := "{}"; response_json := inr (JDict []);
       lines := [] |} in
  Scripted.json_loads "{}" = inr (JDict [])
  /\ Py.is_none (JDict []) = false
  /\ extract_error_message (JDict []) = None
  /\ "{}" <> ""
  /\ (exists error,
        make_api_error response = Ok error
        /\ message error = "DeepSeek API error (status 500)"
        /\ status error = Some 500
        /\ payload error = JDict [])
  /\ (exists error,
        make_api_error_from_text Scripted.json_loads 500 "{}" = Ok error
        /\ message error = "{}"
        /\ status error = Some 500
        /\ payload error = JDict []).
Proof.
  intros response.
  split; [reflexivity|]. split; [reflexivity|]. split; [reflexivity|].
  split; [discriminate|].
  apply (make_api_error_skips_raw_text Scripted.json_loads response (JDict []));
    first [reflexivity | discriminate].
Defined.

Lemma create_methods_keep_caller_payload_witness :
  heap Scripted.reasoner_call !! (0%nat : loc)
  = Some [("messages", JList []); ("model", JStr "deepseek-reasoner")]
  /\ heap (snd (Scripted.chat 0%nat Scripted.reasoner_call)) !! (0%nat : loc)
     = Some [("messages", JList []); ("model", JStr "deepseek-reasoner")]
  /\ heap (snd (Scripted.plain 0%nat Scripted.reasoner_call)) !! (0%nat : loc)
     = Some [("messages", JList []); ("model", JStr "deepseek-reasoner")].
Proof.
  split; [reflexivity|].
  apply (create_methods_keep_caller_payload
           Scripted.World Scripted.http Scripted.clock Scripted.json_loads
           Scripted.py_repr Scripted.config 0%nat _ Scripted.reasoner_call).
  reflexivity.
Defined.

(** A 429 on the reasoner model, with the default configuration: the
    chat model is asked next. *)
Lemma reasoner_fallback_attempted_iff_witness :
  let s := Scripted.reasoner_call in
  let error := {| message := "DeepSeek API error (status 429)";
                  status := Some 429; payload := JDict [] |} in
  fst (Scripted.first_chat 0%nat s) = Raise (DeepSeekApiError error)
  /\ Spec.fallback_conditions Scripted.config "deepseek-reasoner" error
  /\ exists retry d,
       sent (snd (Scripted.chat 0%nat s))
       = (sent (snd (Scripted.first_chat 0%nat s)) ++ [retry])%list
       /\ body retry = Some d
       /\ Py.get d "model" = JStr "deepseek-chat".
Proof.
  intros s error.
  assert (H : fst (Scripted.first_chat 0%nat s) = Raise (DeepSeekApiError error))
    by (vm_compute; reflexivity).
  assert (C : Spec.fallback_conditions Scripted.config "deepseek-reasoner" error).
  { split; [reflexivity|]. split; [reflexivity|]. split; [discriminate|].
    right. exists 429. split; [reflexivity|]. simpl. tauto. }
  split; [exact H|]. split; [exact C|].
  apply (reasoner_fallback_attempted_iff
           Scripted.World Scripted.http Scripted.clock Scripted.json_loads
           Scripted.py_repr Scripted.config 0%nat s).
  exists error. split; [exact H | exact C].
Defined.

(** A network failure is not an API error: with the reasoner model and
    the fallback enabled the call raises what the HTTP library raised,
    after a single request. *)
Example network_failure_is_not_retried :
  fst (Scripted.chat 0%nat Scripted.unreachable_call)
  = Raise (TransportError "connection refused")
  /\ length (sent (snd (Scripted.chat 0%nat Scripted.unreachable_call))) = 1%nat.
Proof. split; vm_compute; reflexivity. Qed.


(** * Further properties of the code *)

(** ** Base URLs *)

Section UrlFacts.

Lemma rstrip_slash_decompose (s : string) :
  exists n, s = PyStr.rstrip "/" s ++ Aux.slashes n.
Proof.
  induction s as [|c s [n IH]]; [now exists 0%nat|].
  simpl. destruct (PyStr.rstrip "/" s) as [|x r] eqn:E.
  - simpl in IH. destruct (Ascii.eqb_spec c "/") as [->|Hc]; simpl.
    + exists (S n). simpl. now rewrite <- IH.
    + exists n. simpl. now rewrite <- IH.
  - exists n. simpl. f_equal. exact IH.
Qed.

Lemma rstrip_slash_no_trailing (s : string) :
  PyStr.endswith (PyStr.rstrip "/" s) "/" = false.
Proof.
  induction s as [|c s IH]; [reflexivity|].
  simpl. destruct (PyStr.rstrip "/" s) as [|x r] eqn:E.
  - destruct (Ascii.eqb c "/") eqn:Hc; simpl; [reflexivity|].
    now rewrite Hc.
  - change (PyStr.endswith (String c (String x r)) "/")
      with (String.eqb (String c (String x r)) "/"
            || PyStr.endswith (String x r) "/").
    rewrite IH. simpl. now destruct (Ascii.eqb c "/").
Qed.

Lemma rstrip_slash_app_slashes (s : string) (n : nat) :
  PyStr.rstrip "/" (s ++ Aux.slashes n) = PyStr.rstrip "/" s.
Proof.
  assert (Hn : PyStr.rstrip "/" (Aux.slashes n) = "").
  { induction n as [|n IH]; [reflexivity|]. simpl. now rewrite IH. }
  induction s as [|c s IH]; simpl; [exact Hn|]. now rewrite IH.
Qed.

End UrlFacts.

(** X1: [normalize_base_url] removes exactly the trailing slashes: the
    input is the result followed by a run of slashes, the result does not
    end in a slash, and normalizing again changes nothing. *)
Theorem normalize_base_url_strips_trailing_slashes (value : string) :
  (exists n, value = normalize_base_url value ++ Aux.slashes n)
  /\ PyStr.endswith (normalize_base_url value) "/" = false
  /\ normalize_base_url (normalize_base_url value) = normalize_base_url value.
Proof.
  split; [apply rstrip_slash_decompose|].
  split; [apply rstrip_slash_no_trailing | apply rstrip_idempotent].
Qed.

(** X2: the result of [build_beta_base_url] always ends in ["/beta"], is
    already normalized, and does not depend on trailing slashes of the
    input. *)
Theorem build_beta_base_url_ends_in_beta (base_url : string) :
  PyStr.endswith (build_beta_base_url base_url) "/beta" = true
  /\ normalize_base_url (build_beta_base_url base_url)
     = build_beta_base_url base_url
  /\ (forall n,
        build_beta_base_url (base_url ++ Aux.slashes n)
        = build_beta_base_url base_url).
Proof.
  split; [|split].
  - destruct (build_beta_base_url_shape base_url) as [pre ->].
    apply endswith_app.
  - apply build_beta_base_url_normalized.
  - intros n. unfold build_beta_base_url, normalize_base_url.
    now rewrite rstrip_slash_app_slashes.
Qed.

(** ** Error classification *)

Section MoreClassificationFacts.

Lemma contains_of_prefix (needle hay : string) :
  String.prefix needle hay = true -> PyStr.contains needle hay = true.
Proof. intros H. now rewrite contains_unfold, H. Qed.

Lemma prefix_tail (c : ascii) (needle hay : string) :
  String.prefix (String c needle) hay = true ->
  exists rest, hay = String c rest /\ String.prefix needle rest = true.
Proof.
  destruct hay as [|h rest]; simpl; [discriminate|].
  destruct (ascii_dec c h) as [->|]; [eauto | discriminate].
Qed.

(** A text that contains a word contains the word without its first
    character. *)
Lemma contains_tail (c : ascii) (needle hay : string) :
  PyStr.contains (String c needle) hay = true ->
  PyStr.contains needle hay = true.
Proof.
  induction hay as [|h rest IH]; intros H.
  - simpl in H. discriminate.
  - rewrite contains_unfold in H. rewrite contains_unfold.
    apply orb_true_iff in H as [H|H].
    + apply prefix_tail in H as (rest' & E & Hp). inversion E; subst.
      rewrite (contains_of_prefix _ _ Hp). apply orb_true_r.
    + rewrite (IH H). apply orb_true_r.
Qed.

Lemma str_or_nonempty (a : option string) (b : string) :
  b <> "" -> str_or a b <> "".
Proof.
  intros Hb. destruct a as [s|]; simpl; [|exact Hb].
  destruct (String.eqb_spec s ""); assumption.
Qed.

Lemma status_message_nonempty (code : Z) : status_message code <> "".
Proof. discriminate. Qed.

Lemma make_api_error_classified response error :
  make_api_error response = Ok error -> Aux.classified error.
Proof.
  unfold make_api_error.
  match goal with
  | |- obind ?decoded _ = _ -> _ => destruct decoded as [payload|e]
  end; cbn [obind]; intros H; [|discriminate].
  injection H as <-. split; [now eexists|].
  change (str_or (if Py.is_none payload then Some (text response)
                  else extract_error_message payload)
            (status_message (status_code response)) <> "").
  apply str_or_nonempty, status_message_nonempty.
Qed.

Lemma make_api_error_from_text_classified json_loads code body error :
  make_api_error_from_text json_loads code body = Ok error ->
  Aux.classified error.
Proof.
  unfold make_api_error_from_text.
  match goal with
  | |- obind ?decoded _ = _ -> _ => destruct decoded as [[payload text]|e]
  end; cbn [obind]; intros H; [|discriminate].
  injection H as <-. split; [now eexists|].
  change (str_or (Some text) (status_message code) <> "").
  apply str_or_nonempty, status_message_nonempty.
Qed.

End MoreClassificationFacts.

(** X3: the token ["/beta"] never decides the beta-base retry: an error
    triggers it exactly when its lower-cased message contains ["beta"],
    ["base url"] or ["base_url"]. *)
Theorem should_retry_completion_on_beta_tokens (error : ApiError) :
  let text := PyStr.lower (message error) in
  should_retry_completion_on_beta error
  = PyStr.contains "beta" text
    || PyStr.contains "base url" text
    || PyStr.contains "base_url" text.
Proof.
  intros text. unfold should_retry_completion_on_beta, error_str. fold text.
  cbn [existsb]. rewrite orb_false_r.
  destruct (PyStr.contains "/beta" text) eqn:E.
  - apply contains_tail in E. rewrite E. reflexivity.
  - rewrite orb_false_r.
    now rewrite <- !orb_assoc.
Qed.

(** X4: where [response.json()] and [json.loads] on the text of the body
    come to the same, and that is a [JSONDecodeError], null, or a value
    carrying a message that is not empty, the two classifiers build the
    same error. *)
Theorem classifiers_agree json_loads response :
  response_json response = json_loads (text response) ->
  Aux.message_decided (json_loads (text response)) = true ->
  make_api_error response
  = make_api_error_from_text json_loads (status_code response) (text response).
Proof.
  intros Hsame. rewrite make_api_error_run, make_api_error_from_text_run, Hsame.
  unfold Aux.message_decided, Aux.has_message.
  destruct (json_loads (text response)) as [[detail|detail|detail]|v];
    try discriminate; [reflexivity|].
  cbv zeta.
  destruct v; cbn [Py.is_none orb]; try reflexivity;
    (destruct (extract_error_message _) as [m|]; [|discriminate]);
    cbn [str_or]; (destruct (String.eqb m "") eqn:Em; [discriminate|]);
    cbn [str_or]; rewrite ?Em; reflexivity.
Qed.

(** ** What the aggregators raise *)

Section RaisingFacts.

Context (World : Type) (clock : World -> Z * World) (py_repr : json -> string).

Lemma obind_raise {A B} (o : outcome A) (k : A -> outcome B) e :
  obind o k = Raise e ->
  o = Raise e \/ exists a, o = Ok a /\ k a = Raise e.
Proof.
  destruct o as [a|e']; simpl; intros H; [eauto|]. left. now inversion H.
Qed.

Lemma get_default_raise v key default e :
  PyObj.get_default v key default = Raise e -> e = AttributeError.
Proof. destruct v; simpl; intros H; now inversion H. Qed.

Lemma iter_raise v e : PyObj.iter v = Raise e -> e = TypeError.
Proof. destruct v; simpl; intros H; now inversion H. Qed.

Lemma for_each_raise {A B} (body : A -> B -> outcome A) (P : exn -> Prop)
    (items : list B) :
  (forall acc x e, body acc x = Raise e -> P e) ->
  forall acc e, for_each body items acc = Raise e -> P e.
Proof.
  intros Hbody. induction items as [|x items IH]; intros acc e H.
  - discriminate.
  - simpl in H. apply obind_raise in H as [H|(acc' & _ & H)]; eauto.
Qed.

Lemma chat_choice_raise acc choice e :
  chat_choice acc choice = Raise e -> Aux.shape_error e.
Proof.
  unfold chat_choice. intros H. left.
  repeat (apply obind_raise in H as [H|(? & _ & H)];
          [now apply get_default_raise in H|]).
  discriminate.
Qed.

Lemma completion_choice_raise acc choice e :
  completion_choice acc choice = Raise e -> Aux.shape_error e.
Proof.
  unfold completion_choice. intros H. left.
  repeat (apply obind_raise in H as [H|(? & _ & H)];
          [now apply get_default_raise in H|]).
  discriminate.
Qed.

Lemma chunk_loop_raise {A} (body : A -> json -> outcome A) acc chunk e :
  (forall a x e', body a x = Raise e' -> Aux.shape_error e') ->
  obind (chunk_choices chunk) (fun choices => for_each body choices acc) = Raise e ->
  Aux.shape_error e.
Proof.
  intros Hbody H. apply obind_raise in H as [H|(choices & _ & H)].
  - unfold chunk_choices in H.
    apply obind_raise in H as [H|(v & _ & H)].
    + left. now apply get_default_raise in H.
    + right. now apply iter_raise in H.
  - revert H. now apply for_each_raise.
Qed.

(** *** Computations that raise only some exceptions *)

Lemma raises_only_ret {A} P (a : A) : Aux.raises_only P (ret World a).
Proof. intros s e s' H. discriminate. Qed.

Lemma raises_only_raise {A} (P : exn -> Prop) e :
  P e -> Aux.raises_only P (@raise World A e).
Proof. intros He s e' s' H. inversion H. now subst. Qed.

Lemma raises_only_lift {A} (P : exn -> Prop) (o : outcome A) :
  (forall e, o = Raise e -> P e) -> Aux.raises_only P (lift World o).
Proof. intros Ho s e s' H. inversion H. auto. Qed.

Lemma raises_only_now P : Aux.raises_only P (now World clock).
Proof. intros s e s' H. unfold now in H. destruct (clock (world s)). discriminate. Qed.

Lemma raises_only_bind {A B} P (m : M World A) (k : A -> M World B) :
  Aux.raises_only P m -> (forall a, Aux.raises_only P (k a)) ->
  Aux.raises_only P (bind World m k).
Proof.
  intros Hm Hk s e s' H. unfold bind in H.
  destruct (m s) as [[a|e0] s1] eqn:E.
  - exact (Hk a s1 e s' H).
  - inversion H; subst. exact (Hm s e s' E).
Qed.

Lemma raises_only_or_else P a (b : M World json) :
  Aux.raises_only P b -> Aux.raises_only P (or_else World a b).
Proof.
  intros Hb. unfold or_else. destruct (Py.truthy a); [apply raises_only_ret|exact Hb].
Qed.

Lemma raises_only_weaken {A} (P Q : exn -> Prop) (m : M World A) :
  (forall e, P e -> Q e) -> Aux.raises_only P m -> Aux.raises_only Q m.
Proof. intros HPQ Hm s e s' H. apply HPQ. exact (Hm s e s' H). Qed.

Lemma raises_only_get P v key :
  P AttributeError -> Aux.raises_only P (lift World (PyObj.get v key)).
Proof.
  intros HP. apply raises_only_lift. intros e H.
  apply get_default_raise in H. now subst.
Qed.

Ltac raises_only_steps :=
  repeat first
    [ apply raises_only_ret | apply raises_only_now
    | apply raises_only_get; [left; reflexivity]
    | apply raises_only_or_else
    | apply raises_only_bind; [|intros ?] ].

Lemma aggregate_chat_chunks_raises chunks fallback_model :
  Aux.raises_only Aux.shape_error
    (aggregate_chat_chunks World clock py_repr chunks fallback_model).
Proof.
  unfold aggregate_chat_chunks. destruct chunks as [|first rest];
    raises_only_steps.
  apply raises_only_lift. apply for_each_raise. intros acc chunk e.
  unfold chat_chunk. apply chunk_loop_raise, chat_choice_raise.
Qed.

Lemma aggregate_completion_chunks_raises chunks fallback_model :
  Aux.raises_only Aux.shape_error
    (aggregate_completion_chunks World clock py_repr chunks fallback_model).
Proof.
  unfold aggregate_completion_chunks. destruct chunks as [|first rest];
    raises_only_steps.
  apply raises_only_lift. apply for_each_raise. intros acc chunk e.
  unfold completion_chunk. apply chunk_loop_raise, completion_choice_raise.
Qed.


End RaisingFacts.

(** ** The requests of a call *)

Section MoreClientFacts.

Context (World : Type)
        (http : Request -> World -> Reply * World)
        (clock : World -> Z * World)
        (json_loads : string -> decode_error + json)
        (py_repr : json -> string)
        (config : DeepSeekClientConfig).

Local Abbreviation attempt :=
  (_chat_or_completion_request World http clock json_loads py_repr config).
Local Abbreviation request_of := (attempt_request World config).
Local Abbreviation chat :=
  (create_chat_completion World http clock json_loads py_repr config).
Local Abbreviation plain :=
  (create_completion World http clock json_loads py_repr config).
Local Abbreviation first_chat :=
  (first_chat_attempt World http clock json_loads py_repr config).
Local Abbreviation first_plain :=
  (first_completion_attempt World http clock json_loads py_repr config).
Local Abbreviation model_of := (requested_model World py_repr config).
Local Abbreviation prepared := (attempt_state World py_repr config).
Local Abbreviation degraded := (fallback_state World config).

Lemma get_set_other (d : pydict) (key other : string) (v : json) :
  key <> other -> Py.get (Py.set d key v) other = Py.get d other.
Proof.
  intros Hne. unfold Py.get, Py.get_default.
  induction d as [|[k x] d IH]; simpl.
  - destruct (String.eqb_spec key other); [contradiction | reflexivity].
  - destruct (String.eqb_spec k key) as [->|Hk]; simpl.
    + destruct (String.eqb_spec key other); [contradiction | reflexivity].
    + destruct (String.eqb k other); [reflexivity | exact IH].
Qed.

Lemma set_set_same (d : pydict) (key : string) (v w : json) :
  Py.set (Py.set d key v) key w = Py.set d key w.
Proof.
  induction d as [|[k x] d IH]; simpl.
  - now rewrite String.eqb_refl.
  - destruct (String.eqb k key) eqn:E; simpl; rewrite E; [reflexivity|].
    now rewrite IH.
Qed.

(** The requests of a chat completion: the first one, and the fallback
    one exactly when the first attempt raised an API error that calls
    for it. *)
Lemma chat_requests payload s :
  let first := request_of "/chat/completions" (length (heap s)) None
                 (prepared payload s) in
  exists rest,
    sent (snd (chat payload s)) = (sent s ++ first :: rest)%list
    /\ (rest = []
        \/ exists error s2,
             first_chat payload s = (Raise (DeepSeekApiError error), s2)
             /\ _should_reasoner_fallback config (model_of payload s) error = true
             /\ heap s2 = heap (prepared payload s)
             /\ rest = [request_of "/chat/completions" (length (heap s2)) None
                          (degraded (length (heap s)) s2)]).
Proof.
  intros first. rewrite create_chat_completion_eq.
  pose proof (first_attempt_effect World http clock json_loads py_repr config
                "/chat/completions" payload s) as [Hheap Hsent].
  cbv zeta in Hheap, Hsent. rewrite <- first_chat_attempt_eq in Hheap, Hsent.
  fold first in Hsent.
  destruct (first_chat payload s) as [[result|e] s2]; cbn [snd] in *.
  - exists []. auto.
  - destruct e as [error| | |detail|failure]; try (exists []; now auto).
    destruct (_should_reasoner_fallback config _ error) eqn:E;
      [|exists []; now auto].
    destruct (attempt_sends_one World http clock json_loads py_repr config
                "/chat/completions" (length (heap s2)) None
                (degraded (length (heap s)) s2)) as [_ Hsent2].
    eexists. split.
    + destruct (attempt _ _ _ (degraded _ s2)) as [[result|e] s4];
        cbn [snd] in *; rewrite Hsent2; cbn [sent fallback_state];
        rewrite Hsent, <- List.app_assoc; reflexivity.
    + right. exists error, s2. auto.
Qed.

(** The requests of a plain completion: the first one, and the one to
    the beta base exactly when the first attempt raised an API error
    that calls for it. *)
Lemma plain_requests payload s :
  let first := request_of "/completions" (length (heap s)) None
                 (prepared payload s) in
  exists rest,
    sent (snd (plain payload s)) = (sent s ++ first :: rest)%list
    /\ (rest = []
        \/ exists error s2,
             first_plain payload s = (Raise (DeepSeekApiError error), s2)
             /\ should_retry_completion_on_beta error = true
             /\ heap s2 = heap (prepared payload s)
             /\ rest = [request_of "/completions" (length (heap s))
                          (Some (build_beta_base_url (base_url config))) s2]).
Proof.
  intros first. rewrite create_completion_eq.
  pose proof (first_attempt_effect World http clock json_loads py_repr config
                "/completions" payload s) as [Hheap Hsent].
  cbv zeta in Hheap, Hsent.
  rewrite <- first_completion_attempt_eq in Hheap, Hsent.
  fold first in Hsent.
  destruct (first_plain payload s) as [[result|e] s2]; cbn [snd] in *.
  - exists []. auto.
  - destruct e as [error| | |detail|failure]; try (exists []; now auto).
    destruct (should_retry_completion_on_beta error) eqn:E;
      [|exists []; now auto].
    destruct (attempt_sends_one World http clock json_loads py_repr config
                "/completions" (length (heap s))
                (Some (build_beta_base_url (base_url config))) s2)
      as [_ Hsent2].
    eexists. split.
    + destruct (attempt _ _ _ s2) as [[result|e] s3];
        cbn [snd] in *; rewrite Hsent2, Hsent, <- List.app_assoc; reflexivity.
    + right. exists error, s2. auto.
Qed.

Lemma request_of_standard path (payload : loc) base_url_override s d m :
  heap s !! payload = Some d ->
  Py.get d "model" = JStr m ->
  Aux.standard_request config (request_of path payload base_url_override s).
Proof.
  intros Hd Hm. unfold Aux.standard_request, attempt_request.
  cbn [method headers timeout body streamed]. unfold pydict in *.
  rewrite Hd. cbn [default].
  split; [reflexivity|]. split; [now left|]. split; [now right; left|].
  split; [now right; right; left|]. split; [reflexivity|].
  exists d, m. auto.
Qed.

Lemma request_of_url path payload base_url_override s :
  method (request_of path payload base_url_override s) = "POST"
  /\ url (request_of path payload base_url_override s)
     = normalize_base_url (effective_base_url config base_url_override) ++ path.
Proof. split; reflexivity. Qed.


(** X7: every request a [create_*] call makes carries the bearer
    credential, the JSON content type, the [Accept] header of its kind
    (event stream exactly when the body's [stream] entry is truthy), the
    configured timeout, and a body whose [model] is a string. *)
Theorem create_methods_requests_are_standard payload d s :
  heap s !! payload = Some d ->
  (exists requests,
     sent (snd (chat payload s)) = (sent s ++ requests)%list
     /\ Forall (Aux.standard_request config) requests)
  /\ (exists requests,
        sent (snd (plain payload s)) = (sent s ++ requests)%list
        /\ Forall (Aux.standard_request config) requests).
Proof.
  intros Hd.
  assert (Hfirst : forall path override,
             Aux.standard_request config
               (request_of path (length (heap s)) override (prepared payload s))).
  { intros path override. eapply request_of_standard.
    - apply prepared_lookup_new.
    - apply get_set_same. }
  split.
  - destruct (chat_requests payload s) as (rest & Hsent & Hrest).
    cbv zeta in Hsent. eexists. split; [exact Hsent|].
    constructor; [apply Hfirst|].
    destruct Hrest as [->|(error & s2 & _ & _ & Hheap & ->)]; constructor;
      [|constructor].
    eapply request_of_standard.
    + apply degraded_lookup_new.
    + apply get_set_same.
  - destruct (plain_requests payload s) as (rest & Hsent & Hrest).
    cbv zeta in Hsent. eexists. split; [exact Hsent|].
    constructor; [apply Hfirst|].
    destruct Hrest as [->|(error & s2 & _ & _ & Hheap & ->)]; constructor;
      [|constructor].
    eapply request_of_standard.
    + rewrite Hheap. apply prepared_lookup_new.
    + apply get_set_same.
Qed.

Lemma snoc_two_inv {A} (l : list A) (a b x : A) (rest : list A) :
  (l ++ [a; b])%list = (l ++ x :: rest)%list -> a = x /\ rest = [b].
Proof. intros H. apply List.app_inv_head in H. inversion H. auto. Qed.

Lemma snoc_one_inv {A} (l : list A) (a x : A) (rest : list A) :
  (l ++ [a])%list = (l ++ x :: rest)%list -> a = x /\ rest = [].
Proof. intros H. apply List.app_inv_head in H. inversion H. auto. Qed.

(** X8: when a chat completion makes two requests, the second is the
    first with nothing changed but the body's model: same method, URL,
    headers, timeout and kind, the model "deepseek-reasoner" replaced by
    the fallback model, which is a different one. *)
Theorem fallback_request_changes_only_model payload s first retry :
  sent (snd (chat payload s)) = (sent s ++ [first; retry])%list ->
  exists d,
    body first = Some d
    /\ Py.get d "model" = JStr "deepseek-reasoner"
    /\ fallback_model config <> "deepseek-reasoner"
    /\ retry = {| method := method first;
                  url := url first;
                  headers := headers first;
                  body := Some (Py.set d "model" (JStr (fallback_model config)));
                  timeout := timeout first;
                  streamed := streamed first |}.
Proof.
  intros Hsent.
  destruct (chat_requests payload s) as (rest & Hsent' & Hrest).
  cbv zeta in Hsent'. rewrite Hsent in Hsent'.
  apply snoc_two_inv in Hsent' as [-> ->].
  destruct Hrest as [Hnil|(error & s2 & _ & Hshould & Hheap & Hretry)];
    [discriminate|].
  apply should_reasoner_fallback_iff in Hshould as (_ & Hmodel & Hdistinct & _).
  inversion Hretry as [Hr]. clear Hretry.
  exists (Py.set (default [] (heap s !! payload)) "model"
            (JStr (model_of payload s))).
  assert (Hnew : heap (degraded (length (heap s)) s2) !! (length (heap s2) : loc)
                 = Some (Py.set
                           (Py.set (default [] (heap s !! payload)) "model"
                              (JStr (model_of payload s)))
                           "model" (JStr (fallback_model config)))).
  { rewrite degraded_lookup_new, Hheap, prepared_lookup_new. reflexivity. }
  split; [|split; [|split]].
  - unfold attempt_request. cbn [body]. now rewrite prepared_lookup_new.
  - rewrite get_set_same. now rewrite Hmodel.
  - now rewrite <- Hmodel.
  - unfold attempt_request. cbn [method url headers body timeout streamed].
    unfold pydict in *. rewrite Hnew, prepared_lookup_new.
    cbn [from_option id].
    rewrite !(get_set_other _ "model" "stream") by discriminate.
    reflexivity.
Qed.

(** X9: the [fallback] entry of a chat result tells what happened: it is
    null after a single request, and after two requests it names the
    requested model, the fallback model and the message of the error
    the first attempt raised. *)
Theorem chat_result_records_fallback payload s response s' :
  chat payload s = (Ok response, s') ->
  (field response "fallback" = JNull
   /\ exists first, sent s' = (sent s ++ [first])%list)
  \/ (exists error first retry,
        fst (first_chat payload s) = Raise (DeepSeekApiError error)
        /\ field response "fallback"
           = JDict [("from_model", JStr (model_of payload s));
                    ("to_model", JStr (fallback_model config));
                    ("reason", JStr (message error))]
        /\ sent s' = (sent s ++ [first; retry])%list).
Proof.
  intros Hcall.
  destruct (chat_requests payload s) as (rest & Hsent & Hrest).
  cbv zeta in Hsent. rewrite Hcall in Hsent. cbn [snd] in Hsent.
  rewrite create_chat_completion_eq in Hcall.
  destruct (first_chat payload s) as [[result|e] s2] eqn:Hfirst.
  - inversion Hcall; subst. left. split; [reflexivity|].
    destruct Hrest as [->|(error & s3 & Habs & _)]; [eauto | discriminate].
  - destruct e as [error| | |detail|failure]; try discriminate.
    destruct (_should_reasoner_fallback config _ error); [|discriminate].
    destruct Hrest as [->|(error' & s3 & Heq & _ & _ & ->)].
    + exfalso.
      destruct (attempt_sends_one World http clock json_loads py_repr config
                  "/chat/completions" (length (heap s2)) None
                  (degraded (length (heap s)) s2)) as [_ Hsent2].
      destruct (first_attempt_effect World http clock json_loads py_repr config
                  "/chat/completions" payload s) as [_ Hsent1].
      cbv zeta in Hsent1. rewrite <- first_chat_attempt_eq, Hfirst in Hsent1.
      cbn [snd] in Hsent1.
      destruct (attempt _ _ _ (degraded _ s2)) as [[result|e] s4];
        [|discriminate].
      inversion Hcall; subst. cbn [snd sent fallback_state] in Hsent2.
      rewrite Hsent2, Hsent1, <- List.app_assoc in Hsent.
      apply List.app_inv_head in Hsent. discriminate.
    + right. inversion Heq; subst.
      destruct (attempt _ _ _ (degraded _ s3)) as [[result|e] s4];
        [|discriminate].
      inversion Hcall; subst. do 3 eexists. split; [reflexivity|].
      split; [reflexivity | exact Hsent].
Qed.

(** X10: the [used_beta_base] entry of a completion result tells what
    happened: it is false after a single request and true after two, the
    second of which went to the beta base. *)
Theorem completion_result_records_beta payload s response s' :
  plain payload s = (Ok response, s') ->
  (field response "used_beta_base" = JBool false
   /\ exists first, sent s' = (sent s ++ [first])%list)
  \/ (field response "used_beta_base" = JBool true
      /\ exists first retry,
           sent s' = (sent s ++ [first; retry])%list
           /\ url retry
              = build_beta_base_url (base_url config) ++ "/completions").
Proof.
  intros Hcall.
  destruct (plain_requests payload s) as (rest & Hsent & Hrest).
  cbv zeta in Hsent. rewrite Hcall in Hsent. cbn [snd] in Hsent.
  rewrite create_completion_eq in Hcall.
  destruct (first_plain payload s) as [[result|e] s2] eqn:Hfirst.
  - inversion Hcall; subst. left. split; [reflexivity|].
    destruct Hrest as [->|(error & s3 & Habs & _)]; [eauto | discriminate].
  - destruct e as [error| | |detail|failure]; try discriminate.
    destruct (should_retry_completion_on_beta error); [|discriminate].
    destruct Hrest as [->|(error' & s3 & Heq & _ & _ & ->)].
    + exfalso.
      destruct (attempt_sends_one World http clock json_loads py_repr config
                  "/completions" (length (heap s))
                  (Some (build_beta_base_url (base_url config))) s2)
        as [_ Hsent2].
      destruct (first_attempt_effect World http clock json_loads py_repr config
                  "/completions" payload s) as [_ Hsent1].
      cbv zeta in Hsent1.
      rewrite <- first_completion_attempt_eq, Hfirst in Hsent1.
      cbn [snd] in Hsent1.
      destruct (attempt _ _ _ s2) as [[result|e] s4]; [|discriminate].
      inversion Hcall; subst. cbn [snd] in Hsent2.
      rewrite Hsent2, Hsent1, <- List.app_assoc in Hsent.
      apply List.app_inv_head in Hsent. discriminate.
    + right. inversion Heq; subst.
      destruct (attempt _ _ _ s3) as [[result|e] s4]; [|discriminate].
      inversion Hcall; subst. split; [reflexivity|].
      do 2 eexists. split; [exact Hsent|]. apply beta_override_url.
Qed.

(** X11: in every plain completion call a second request, to the beta
    base, is made if and only if the first attempt raised an API error
    on which [should_retry_completion_on_beta] holds; an API error on
    which it does not hold is raised again and nothing more is sent. *)
Theorem beta_retry_attempted_iff payload s :
  let first := first_plain payload s in
  let final := snd (plain payload s) in
  let retried :=
    exists retry,
      sent final = (sent (snd first) ++ [retry])%list
      /\ url retry = build_beta_base_url (base_url config) ++ "/completions" in
  (retried
   <-> exists error,
         fst first = Raise (DeepSeekApiError error)
         /\ should_retry_completion_on_beta error = true)
  /\ (forall error,
        fst first = Raise (DeepSeekApiError error) ->
        should_retry_completion_on_beta error = false ->
        plain payload s = (Raise (DeepSeekApiError error), snd first)).
Proof.
  intros first final retried. subst first final retried.
  rewrite create_completion_eq.
  destruct (first_plain payload s) as [outcome s2] eqn:Hfirst.
  cbn [fst snd].
  assert (Hone : forall (l : list Request) retry, l <> (l ++ [retry])%list)
    by (intros; apply not_snoc).
  split.
  - split.
    + intros (retry & Hsent & _).
      destruct outcome as [result|[error| | |detail|failure]]; cbn [snd] in Hsent;
        try (now apply Hone in Hsent).
      destruct (should_retry_completion_on_beta error) eqn:E;
        [eauto | now apply Hone in Hsent].
    + intros (error & -> & ->).
      destruct (attempt_sends_one World http clock json_loads py_repr config
                  "/completions" (length (heap s))
                  (Some (build_beta_base_url (base_url config))) s2)
        as [_ Hsent2].
      exists (request_of "/completions" (length (heap s))
                (Some (build_beta_base_url (base_url config))) s2).
      split; [|apply beta_override_url].
      destruct (attempt _ _ _ s2) as [[result|e] s3]; exact Hsent2.
  - intros error -> ->. reflexivity.
Qed.

(** X12: an exception of the first attempt that is not an API error (a
    failure of the HTTP library, a wrong shape met while aggregating)
    ends either call at once: it is raised to the caller from the state
    the first attempt left, with no second request. *)
Theorem other_exceptions_end_the_call payload s e s2 :
  (forall error, e <> DeepSeekApiError error) ->
  (first_chat payload s = (Raise e, s2) -> chat payload s = (Raise e, s2))
  /\ (first_plain payload s = (Raise e, s2) -> plain payload s = (Raise e, s2)).
Proof.
  intros Hother. split; intros Hfirst.
  - rewrite create_chat_completion_eq, Hfirst.
    destruct e as [error| | |detail|failure]; try reflexivity.
    now destruct (Hother error).
  - rewrite create_completion_eq, Hfirst.
    destruct e as [error| | |detail|failure]; try reflexivity.
    now destruct (Hother error).
Qed.

(** *** What a call raises *)

Lemma raises_only_dict_get P r key : Aux.raises_only P (dict_get World r key).
Proof. intros s e s' H. discriminate. Qed.

Lemma raises_only_http_call P method url headers body timeout streamed :
  (forall detail, P (TransportError detail)) ->
  Aux.raises_only P
    (http_call World http method url headers body timeout streamed).
Proof.
  intros HP s e s' H. unfold http_call in H.
  destruct (http _ (world s)) as [[response|detail] w]; inversion H. apply HP.
Qed.

(** Raising the error a classifier built, or what the classifier
    raised. *)
Lemma raises_only_classified (built : outcome ApiError) :
  (forall error, built = Ok error -> Aux.classified error) ->
  (forall e, built = Raise e -> Aux.client_exception e) ->
  Aux.raises_only Aux.client_exception
    (bind World (lift World built)
       (fun error => raise World (DeepSeekApiError error) : M World json)).
Proof.
  intros Hok Hraise s e s' H. unfold bind, lift, raise in H.
  destruct built as [error|e0]; inversion H; subst; auto.
  apply Hok. reflexivity.
Qed.

Lemma raises_only_classified_chunks (built : outcome ApiError) :
  (forall error, built = Ok error -> Aux.classified error) ->
  (forall e, built = Raise e -> Aux.client_exception e) ->
  Aux.raises_only Aux.client_exception
    (bind World (lift World built)
       (fun error => raise World (DeepSeekApiError error) : M World (list json))).
Proof.
  intros Hok Hraise s e s' H. unfold bind, lift, raise in H.
  destruct built as [error|e0]; inversion H; subst; auto.
  apply Hok. reflexivity.
Qed.

Lemma make_api_error_raises response e :
  make_api_error response = Raise e -> Aux.client_exception e.
Proof.
  rewrite make_api_error_run.
  destruct (response_json response) as [[detail|detail|detail]|v];
    intros H; inversion H; exact I.
Qed.

Lemma make_api_error_from_text_raises code body e :
  make_api_error_from_text json_loads code body = Raise e ->
  Aux.client_exception e.
Proof.
  rewrite make_api_error_from_text_run.
  destruct (json_loads body) as [[detail|detail|detail]|v];
    intros H; inversion H; exact I.
Qed.

Lemma sse_chunks_raises lines e :
  sse_chunks json_loads lines = Raise e -> Aux.client_exception e.
Proof.
  induction lines as [|line lines IH]; cbn [sse_chunks]; [discriminate|].
  destruct (String.eqb line ""); [exact IH|].
  destruct (negb (PyStr.startswith line "data:")); [exact IH|].
  cbv zeta. destruct (String.eqb _ "[DONE]"); [discriminate|].
  destruct (json_loads _) as [[detail|detail|detail]|chunk];
    try exact IH; try (intros H; inversion H; exact I).
  destruct (sse_chunks json_loads lines) as [chunks|e0]; cbn [obind];
    [discriminate|].
  intros H. inversion H; subst. now apply IH.
Qed.

Lemma request_json_raises method path body base_url_override :
  Aux.raises_only Aux.client_exception
    (_request_json World http config method path body
       base_url_override).
Proof.
  unfold _request_json. apply raises_only_bind.
  - apply raises_only_http_call. intros detail. exact I.
  - intros response. destruct (400 <=? status_code response).
    + apply raises_only_classified.
      * apply make_api_error_classified.
      * apply make_api_error_raises.
    + destruct (response_json response) as [err|v].
      * destruct (is_value_error err); apply raises_only_raise; [|exact I].
        split; [now eexists | discriminate].
      * apply raises_only_ret.
Qed.

Lemma request_sse_json_raises method path body base_url_override :
  Aux.raises_only Aux.client_exception
    (_request_sse_json World http json_loads config method path body
       base_url_override).
Proof.
  unfold _request_sse_json. apply raises_only_bind.
  - apply raises_only_http_call. intros detail. exact I.
  - intros response. destruct (400 <=? status_code response).
    + apply raises_only_classified_chunks.
      * apply make_api_error_from_text_classified.
      * apply make_api_error_from_text_raises.
    + apply raises_only_lift. apply sse_chunks_raises.
Qed.

Lemma shape_error_client_exception e :
  Aux.shape_error e -> Aux.client_exception e.
Proof. intros [->| ->]; exact I. Qed.

Lemma attempt_raises path payload base_url_override :
  Aux.raises_only Aux.client_exception (attempt path payload base_url_override).
Proof.
  unfold _chat_or_completion_request.
  apply raises_only_bind; [apply raises_only_dict_get|].
  intros stream. destruct (Py.truthy stream).
  - apply raises_only_bind; [apply request_sse_json_raises|].
    intros chunks. apply raises_only_bind; [apply raises_only_dict_get|].
    intros model. destruct (String.eqb path "/chat/completions");
      (apply raises_only_bind; [|intros; apply raises_only_ret]);
      (eapply raises_only_weaken; [exact shape_error_client_exception|]).
    + apply aggregate_chat_chunks_raises.
    + apply aggregate_completion_chunks_raises.
  - apply raises_only_bind; [apply request_json_raises|].
    intros response. apply raises_only_ret.
Qed.

Lemma chat_raises payload : Aux.raises_only Aux.client_exception (chat payload).
Proof.
  intros s e s' H. rewrite create_chat_completion_eq, first_chat_attempt_eq in H.
  destruct (attempt _ _ _ (prepared payload s)) as [[result|e1] s2] eqn:E1;
    [discriminate|].
  apply attempt_raises in E1.
  destruct e1 as [error| | |detail|failure]; try (now inversion H; subst).
  destruct (_should_reasoner_fallback config _ error);
    [|now inversion H; subst].
  destruct (attempt _ _ _ (degraded _ s2)) as [[result|e2] s4] eqn:E2;
    [discriminate|].
  apply attempt_raises in E2. now inversion H; subst.
Qed.

Lemma plain_raises payload : Aux.raises_only Aux.client_exception (plain payload).
Proof.
  intros s e s' H.
  rewrite create_completion_eq, first_completion_attempt_eq in H.
  destruct (attempt _ _ _ (prepared payload s)) as [[result|e1] s2] eqn:E1;
    [discriminate|].
  apply attempt_raises in E1.
  destruct e1 as [error| | |detail|failure]; try (now inversion H; subst).
  destruct (should_retry_completion_on_beta error);
    [|now inversion H; subst].
  destruct (attempt _ _ _ s2) as [[result|e2] s4] eqn:E2; [discriminate|].
  apply attempt_raises in E2. now inversion H; subst.
Qed.

(** C2: the fallback misses the failure without a status. With the
    fallback enabled, the reasoner model requested and another fallback
    model configured, [_should_reasoner_fallback] accepts every error
    that carries no status; but a first attempt that fails at the
    network level raises what the HTTP library raised, which is no
    [DeepSeekApiError]: the call ends there, after its one request, with
    no fallback request, and no API error that a first attempt does
    raise is without a status. *)
Theorem reasoner_fallback_misses_network_failure payload s detail s2 :
  enable_reasoner_fallback config = true ->
  model_of payload s = "deepseek-reasoner" ->
  fallback_model config <> "deepseek-reasoner" ->
  first_chat payload s = (Raise (TransportError detail), s2) ->
  (forall error,
     status error = None ->
     _should_reasoner_fallback config (model_of payload s) error = true)
  /\ chat payload s = (Raise (TransportError detail), s2)
  /\ (exists first, sent s2 = (sent s ++ [first])%list)
  /\ (forall s0 error s',
        first_chat payload s0 = (Raise (DeepSeekApiError error), s') ->
        exists code, status error = Some code).
Proof.
  intros Henabled Hmodel Hdistinct Hfirst.
  split; [|split; [|split]].
  - intros error Hstatus. apply should_reasoner_fallback_iff.
    rewrite Hmodel. repeat split; auto.
  - now rewrite create_chat_completion_eq, Hfirst.
  - destruct (first_attempt_effect World http clock json_loads py_repr config
                "/chat/completions" payload s) as [_ Hsent].
    cbv zeta in Hsent. rewrite <- first_chat_attempt_eq, Hfirst in Hsent.
    eexists. exact Hsent.
  - intros s0 error s' H0. rewrite first_chat_attempt_eq in H0.
    apply attempt_raises in H0. exact (proj1 H0).
Qed.

(** X13: every API error a client method raises ([create_chat_completion],
    [create_completion], [list_models], [get_user_balance]) carries a
    status code and a message that is not empty: the client never makes
    an error without a status. *)
Theorem client_errors_are_classified payload s error s' :
  chat payload s = (Raise (DeepSeekApiError error), s')
  \/ plain payload s = (Raise (DeepSeekApiError error), s')
  \/ list_models World http config s
     = (Raise (DeepSeekApiError error), s')
  \/ get_user_balance World http config s
     = (Raise (DeepSeekApiError error), s') ->
  (exists code, status error = Some code) /\ message error <> "".
Proof.
  intros [H|[H|[H|H]]].
  - exact (chat_raises payload s _ s' H).
  - exact (plain_raises payload s _ s' H).
  - exact (request_json_raises "GET" "/models" None None s _ s' H).
  - exact (request_json_raises "GET" "/user/balance" None None s _ s' H).
Qed.

(** X14: trailing slashes of the configured base URL are of no
    consequence: with any number of them added, a request goes to the
    same URL, under the plain base as under the beta base. *)
Theorem request_url_ignores_trailing_slashes n path payload s :
  let config' := Aux.with_base_url config (base_url config ++ Aux.slashes n) in
  (exists r,
     sent (snd (_chat_or_completion_request World http clock json_loads py_repr
                  config' path payload None s))
     = (sent s ++ [r])%list
     /\ url r = normalize_base_url (base_url config) ++ path)
  /\ (exists r,
        sent (snd (_chat_or_completion_request World http clock json_loads
                     py_repr config' path payload
                     (Some (build_beta_base_url (base_url config'))) s))
        = (sent s ++ [r])%list
        /\ url r = build_beta_base_url (base_url config) ++ path).
Proof.
  intros config'. split.
  - destruct (attempt_sends_one World http clock json_loads py_repr config'
                path payload None s) as [_ Hsent].
    eexists. split; [exact Hsent|].
    unfold attempt_request, effective_base_url. cbn [url str_or base_url config'
      Aux.with_base_url].
    unfold normalize_base_url. now rewrite rstrip_slash_app_slashes.
  - destruct (attempt_sends_one World http clock json_loads py_repr config'
                path payload (Some (build_beta_base_url (base_url config'))) s)
      as [_ Hsent].
    eexists. split; [exact Hsent|].
    change (url (attempt_request World config' path payload
                   (Some (build_beta_base_url (base_url config'))) s))
      with (normalize_base_url
              (effective_base_url config'
                 (Some (build_beta_base_url (base_url config')))) ++ path).
    rewrite beta_override_url. cbn [base_url config' Aux.with_base_url].
    unfold build_beta_base_url, normalize_base_url.
    now rewrite rstrip_slash_app_slashes.
Qed.

End MoreClientFacts.

(** ** Event streams *)

Section StreamFacts.

Context (json_loads : string -> decode_error + json).

Lemma startswith_nonempty (line marker : string) :
  marker <> "" -> PyStr.startswith line marker = true -> String.eqb line "" = false.
Proof.
  unfold PyStr.startswith. destruct marker; [contradiction|].
  destruct line; simpl; [discriminate | reflexivity].
Qed.

(** The step of the loop of [_request_sse_json], by the kind of its
    line. *)
Lemma sse_chunks_cons line rest :
  sse_chunks json_loads (line :: rest)
  = if Aux.is_done line then Ok []
    else if Aux.is_ignored json_loads line then sse_chunks json_loads rest
    else match json_loads (Aux.data_of line) with
         | inr chunk =>
             obind (sse_chunks json_loads rest)
               (fun chunks => Ok (chunk :: chunks))
         | inl error => Raise (DecodeError error)
         end.
Proof.
  unfold Aux.is_done, Aux.is_ignored, Aux.is_data, Aux.data_of.
  cbn [sse_chunks].
  destruct (PyStr.startswith line "data:") eqn:Hd; cbn [negb andb orb].
  - rewrite (startswith_nonempty line "data:") by (discriminate || exact Hd).
    destruct (String.eqb _ "[DONE]"); cbn [negb andb]; [reflexivity|].
    destruct (json_loads _) as [[detail|detail|detail]|chunk]; reflexivity.
  - destruct (String.eqb line ""); reflexivity.
Qed.

Lemma sse_chunks_app_done before line after :
  Aux.is_done line = true ->
  sse_chunks json_loads (before ++ line :: after)%list
  = sse_chunks json_loads before.
Proof.
  intros Hdone. induction before as [|l before IH].
  - cbn [app]. now rewrite sse_chunks_cons, Hdone.
  - cbn [app]. rewrite !sse_chunks_cons, IH. reflexivity.
Qed.

Lemma sse_chunks_app_ignored before line after :
  Aux.is_done line = false ->
  Aux.is_ignored json_loads line = true ->
  sse_chunks json_loads (before ++ line :: after)%list
  = sse_chunks json_loads (before ++ after)%list.
Proof.
  intros Hdone Hignored. induction before as [|l before IH].
  - cbn [app]. now rewrite sse_chunks_cons, Hdone, Hignored.
  - cbn [app]. rewrite !sse_chunks_cons, IH. reflexivity.
Qed.

Lemma is_ignored_not_done line :
  Aux.is_ignored json_loads line = true -> Aux.is_done line = false.
Proof.
  unfold Aux.is_ignored, Aux.is_done.
  destruct (Aux.is_data line); cbn [negb andb orb]; [|reflexivity].
  destruct (String.eqb _ "[DONE]"); [discriminate | reflexivity].
Qed.

(** A data line that is neither the end marker nor ignored, by what the
    decoder makes of it. *)
Lemma data_line_kind line :
  Aux.is_done line = false ->
  Aux.is_ignored json_loads line = false ->
  Aux.is_data line = true
  /\ Aux.data_of line <> "[DONE]"
  /\ forall detail,
       json_loads (Aux.data_of line) <> inl (JSONDecodeError detail).
Proof.
  unfold Aux.is_done, Aux.is_ignored.
  destruct (Aux.is_data line); cbn [negb andb orb]; [|discriminate].
  destruct (String.eqb_spec (Aux.data_of line) "[DONE]") as [E|E];
    [discriminate|].
  cbn [negb andb]. intros _ H. split; [reflexivity|]. split; [exact E|].
  intros detail Hd. rewrite Hd in H. discriminate.
Qed.

End StreamFacts.

(** X15: the end marker ends the stream: whatever follows a [data: [DONE]]
    line (the marker with any whitespace around it) adds no chunk and
    raises nothing. *)
Theorem sse_done_ends_the_stream json_loads before line after :
  Aux.is_done line = true ->
  sse_chunks json_loads (before ++ line :: after)%list
  = sse_chunks json_loads before.
Proof. apply sse_chunks_app_done. Qed.

(** X16: a line that is not a data line (an empty line, a comment, another
    field) and a data line on which the decoder raises a
    [JSONDecodeError] are dropped without a trace: the outcome is that of
    the stream without the line. *)
Theorem sse_ignored_line_is_dropped json_loads before line after :
  Aux.is_ignored json_loads line = true ->
  sse_chunks json_loads (before ++ line :: after)%list
  = sse_chunks json_loads (before ++ after)%list.
Proof.
  intros H. apply sse_chunks_app_ignored; [|exact H].
  now apply is_ignored_not_done in H.
Qed.

(** X17: the chunks of a stream are decoded data lines and nothing else:
    each chunk is what some data line of the stream, not the end marker,
    decodes to, and there are at most as many chunks as lines. When no
    chunks come back, some data line made the decoder fail otherwise than
    with a [JSONDecodeError], and that failure is what is raised. *)
Theorem sse_chunks_come_from_data_lines json_loads lines :
  match sse_chunks json_loads lines with
  | Ok chunks =>
      (forall chunk,
         In chunk chunks ->
         exists line, In line lines /\ Aux.carries json_loads line chunk)
      /\ (length chunks <= length lines)%nat
  | Raise e =>
      exists line error,
        In line lines
        /\ Aux.breaks json_loads line error
        /\ e = DecodeError error
  end.
Proof.
  induction lines as [|line rest IH]; [split; [contradiction | simpl; lia]|].
  rewrite sse_chunks_cons.
  destruct (Aux.is_done line) eqn:Hdone; [split; [contradiction | simpl; lia]|].
  assert (Hrest : match sse_chunks json_loads rest with
                  | Ok chunks =>
                      (forall chunk,
                         In chunk chunks ->
                         exists l,
                           In l (line :: rest)
                           /\ Aux.carries json_loads l chunk)
                      /\ (length chunks <= length (line :: rest))%nat
                  | Raise e =>
                      exists l error,
                        In l (line :: rest)
                        /\ Aux.breaks json_loads l error
                        /\ e = DecodeError error
                  end).
  { destruct (sse_chunks json_loads rest) as [chunks|e].
    - destruct IH as [IHin IHlen]. split; [|simpl; lia].
      intros chunk Hin. destruct (IHin chunk Hin) as (l & Hl & Hc).
      exists l. split; [now right | exact Hc].
    - destruct IH as (l & error & Hl & Hb & He).
      exists l, error. split; [now right | now split]. }
  destruct (Aux.is_ignored json_loads line) eqn:Hign; [exact Hrest|].
  destruct (data_line_kind json_loads line Hdone Hign) as (Hdata & Hmark & Hkind).
  destruct (json_loads (Aux.data_of line)) as [error|chunk] eqn:Hload.
  - exists line, error. split; [now left|]. split; [|reflexivity].
    repeat split; try assumption. intros detail ->. now apply (Hkind detail).
  - destruct (sse_chunks json_loads rest) as [chunks|e]; cbn [obind];
      [|exact Hrest].
    destruct Hrest as [Hin Hlen]. split; [|simpl in *; lia].
    intros c [<-|Hc]; [|now apply Hin].
    exists line. split; [now left|]. now repeat split.
Qed.

(** X18: up to its end marker a stream is read line by line: when no line
    of a first part is the end marker, the outcome of the whole is that of
    the first part followed by that of the rest: the chunks of the one
    and then of the other, or what the first of the two raises. *)
Theorem sse_chunks_of_concatenation json_loads first_part rest :
  forallb (fun line => negb (Aux.is_done line)) first_part = true ->
  sse_chunks json_loads (first_part ++ rest)%list
  = Aux.chunks_in_a_row (sse_chunks json_loads first_part)
      (sse_chunks json_loads rest).
Proof.
  unfold Aux.chunks_in_a_row.
  induction first_part as [|line lines IH]; intros H.
  - cbn [app sse_chunks obind].
    destruct (sse_chunks json_loads rest); reflexivity.
  - cbn [forallb] in H. apply andb_prop in H as [Hline Hlines].
    apply negb_true_iff in Hline.
    cbn [app]. rewrite !sse_chunks_cons, Hline, (IH Hlines).
    destruct (Aux.is_ignored json_loads line); [reflexivity|].
    destruct (json_loads (Aux.data_of line)); [reflexivity|].
    destruct (sse_chunks json_loads lines) as [chunks1|e]; cbn [obind];
      [|reflexivity].
    destruct (sse_chunks json_loads rest); reflexivity.
Qed.

(** ** More on the aggregation *)

Section MoreAggregationFacts.

Import Spec.

Context (World : Type) (clock : World -> Z * World) (py_repr : json -> string).

Local Abbreviation aggregate_chat := (aggregate_chat_chunks World clock py_repr).
Local Abbreviation aggregate_completion :=
  (aggregate_completion_chunks World clock py_repr).

Lemma join_cons (part : string) (parts : list string) :
  PyStr.join (part :: parts) = part ++ PyStr.join parts.
Proof.
  unfold PyStr.join. destruct parts as [|p parts]; simpl; [|reflexivity].
  induction part as [|c part IH]; simpl; [reflexivity | now rewrite <- IH].
Qed.

Lemma join_app (xs ys : list string) :
  PyStr.join (xs ++ ys) = PyStr.join xs ++ PyStr.join ys.
Proof.
  induction xs as [|x xs IH]; [reflexivity|].
  cbn [app]. rewrite !join_cons, IH.
  induction x as [|c x IHx]; simpl; [reflexivity | now rewrite IHx].
Qed.

Lemma last_filter_truthy (values : list json) (before : json) :
  List.last (List.filter Py.truthy values) before
  = Py.or_else (List.last (List.filter Py.truthy values) JNull) before.
Proof.
  unfold Py.or_else.
  destruct (List.filter Py.truthy values) as [|w rest] eqn:Hf; [reflexivity|].
  rewrite !(last_cons w rest).
  assert (Hin : In (List.last rest w) (List.filter Py.truthy values)).
  { rewrite Hf, <- (last_cons w rest w).
    destruct (List.exists_last (l := w :: rest)) as (l' & a & E);
      [discriminate|].
    rewrite E, List.last_last. apply List.in_or_app. right. now left. }
  apply List.filter_In in Hin as [_ Hin]. now rewrite Hin.
Qed.

Lemma last_truthy_app (xs ys : list json) :
  last_truthy (xs ++ ys) = Py.or_else (last_truthy ys) (last_truthy xs).
Proof.
  unfold last_truthy.
  rewrite List.filter_app, last_app_default. apply last_filter_truthy.
Qed.

Lemma all_choices_app (xs ys : list json) :
  all_choices (xs ++ ys) = (all_choices xs ++ all_choices ys)%list.
Proof. unfold all_choices. apply List.flat_map_app. Qed.

Lemma finish_reasons_app (xs ys : list json) :
  finish_reasons (xs ++ ys) = (finish_reasons xs ++ finish_reasons ys)%list.
Proof. unfold finish_reasons. now rewrite all_choices_app, List.map_app. Qed.

Lemma chat_message_reasoning acc :
  Py.lookup (chat_message acc) "reasoning_content"
  = match reasoning_parts acc with
    | [] => None
    | _ :: _ => Some (JStr (PyStr.join (reasoning_parts acc)))
    end.
Proof. unfold chat_message. now destruct (reasoning_parts acc). Qed.

(** What the response of [aggregate_chat_chunks] holds on well-shaped
    chunks. *)
Lemma aggregate_chat_summary chunks fallback_model (s : state World) :
  chat_chunks_shaped chunks = true ->
  exists response s',
    aggregate_chat chunks fallback_model s = (Ok response, s')
    /\ Aux.content_of response
       = JStr (PyStr.join (fragments (delta_str "content") (all_choices chunks)))
    /\ Aux.reasoning_of response
       = match fragments (delta_str "reasoning_content") (all_choices chunks) with
         | [] => None
         | (_ :: _) as parts => Some (JStr (PyStr.join parts))
         end
    /\ Aux.finish_of response = last_truthy (finish_reasons chunks).
Proof.
  intros Hshaped. destruct chunks as [|first rest].
  - destruct (aggregate_chat_empty_run World clock py_repr fallback_model s)
      as (t1 & t2 & s' & E).
    rewrite E. do 2 eexists. repeat split.
  - rewrite (aggregate_chat_chunks_run World clock py_repr first rest
               fallback_model s Hshaped).
    do 2 eexists. split; [reflexivity|].
    unfold Aux.content_of, Aux.reasoning_of, Aux.finish_of, Aux.sole_choice,
      Aux.entry.
    cbn [field Py.get Py.get_default Py.lookup String.eqb Ascii.eqb Bool.eqb].
    split; [apply chat_message_content|].
    split; [|reflexivity].
    rewrite chat_message_reasoning. cbn [reasoning_parts].
    now destruct (fragments _ _).
Qed.

Lemma aggregate_completion_summary chunks fallback_model (s : state World) :
  completion_chunks_shaped chunks = true ->
  exists response s',
    aggregate_completion chunks fallback_model s = (Ok response, s')
    /\ Aux.text_of response
       = JStr (PyStr.join (fragments text_str (all_choices chunks)))
    /\ Aux.finish_of response = last_truthy (finish_reasons chunks).
Proof.
  intros Hshaped. destruct chunks as [|first rest].
  - destruct (aggregate_completion_empty_run World clock py_repr fallback_model s)
      as (t1 & t2 & s' & E).
    rewrite E. do 2 eexists. repeat split.
  - rewrite (aggregate_completion_chunks_run World clock py_repr first rest
               fallback_model s Hshaped).
    do 2 eexists. repeat split.
Qed.

(** X19: aggregation goes along with concatenation: on two well-shaped
    chunk lists, the content (or text) aggregated from the two in a row is
    the content of the first followed by that of the second, and the
    finish reason is that of the second when truthy, else that of the
    first; models, states and clocks of the three runs do not matter. *)
Theorem aggregation_of_concatenated_chunks
    chunks1 chunks2 model model1 model2 (s s1 s2 : state World) :
  chat_chunks_shaped chunks1 = true ->
  chat_chunks_shaped chunks2 = true ->
  (exists whole part1 part2 text1 text2,
     fst (aggregate_chat (chunks1 ++ chunks2) model s) = Ok whole
     /\ fst (aggregate_chat chunks1 model1 s1) = Ok part1
     /\ fst (aggregate_chat chunks2 model2 s2) = Ok part2
     /\ Aux.content_of part1 = JStr text1
     /\ Aux.content_of part2 = JStr text2
     /\ Aux.content_of whole = JStr (text1 ++ text2)
     /\ Aux.finish_of whole
        = Py.or_else (Aux.finish_of part2) (Aux.finish_of part1))
  /\ (exists whole part1 part2 text1 text2,
        fst (aggregate_completion (chunks1 ++ chunks2) model s) = Ok whole
        /\ fst (aggregate_completion chunks1 model1 s1) = Ok part1
        /\ fst (aggregate_completion chunks2 model2 s2) = Ok part2
        /\ Aux.text_of part1 = JStr text1
        /\ Aux.text_of part2 = JStr text2
        /\ Aux.text_of whole = JStr (text1 ++ text2)
        /\ Aux.finish_of whole
           = Py.or_else (Aux.finish_of part2) (Aux.finish_of part1)).
Proof.
  intros H1 H2.
  assert (H : chat_chunks_shaped (chunks1 ++ chunks2) = true).
  { unfold chat_chunks_shaped in *. rewrite forallb_app, H1, H2. reflexivity. }
  assert (Hweaker : forall chunks,
             chat_chunks_shaped chunks = true ->
             completion_chunks_shaped chunks = true).
  { intros chunks Hc. unfold chat_chunks_shaped, completion_chunks_shaped in *.
    rewrite forallb_forall in *. intros chunk Hin. specialize (Hc chunk Hin).
    unfold chunk_shaped in *. apply andb_prop in Hc as [Hd Hc]. rewrite Hd.
    cbn [andb]. apply orb_prop in Hc as [Hc|Hc]; [now rewrite Hc|].
    apply orb_true_intro. right.
    destruct (field chunk "choices"); try discriminate.
    rewrite forallb_forall in *. intros choice Hchoice.
    specialize (Hc choice Hchoice). unfold chat_choice_shaped in Hc.
    now apply andb_prop in Hc. }
  split.
  - destruct (aggregate_chat_summary _ model s H) as (r & s' & E & Hc & _ & Hf).
    destruct (aggregate_chat_summary _ model1 s1 H1)
      as (r1 & s1' & E1 & Hc1 & _ & Hf1).
    destruct (aggregate_chat_summary _ model2 s2 H2)
      as (r2 & s2' & E2 & Hc2 & _ & Hf2).
    exists r, r1, r2. do 2 eexists.
    rewrite E, E1, E2. repeat (split; [reflexivity || eassumption|]).
    split.
    + now rewrite Hc, all_choices_app, fragments_app, join_app.
    + now rewrite Hf, Hf1, Hf2, finish_reasons_app, last_truthy_app.
  - destruct (aggregate_completion_summary _ model s (Hweaker _ H))
      as (r & s' & E & Hc & Hf).
    destruct (aggregate_completion_summary _ model1 s1 (Hweaker _ H1))
      as (r1 & s1' & E1 & Hc1 & Hf1).
    destruct (aggregate_completion_summary _ model2 s2 (Hweaker _ H2))
      as (r2 & s2' & E2 & Hc2 & Hf2).
    exists r, r1, r2. do 2 eexists.
    rewrite E, E1, E2. repeat (split; [reflexivity || eassumption|]).
    split.
    + now rewrite Hc, all_choices_app, fragments_app, join_app.
    + now rewrite Hf, Hf1, Hf2, finish_reasons_app, last_truthy_app.
Qed.

(** X20: the aggregated chat message has a [reasoning_content] entry
    exactly when some choice of some chunk carried a string
    [delta.reasoning_content]; the entry is then the concatenation of
    these strings, in order. *)
Theorem reasoning_content_only_when_streamed chunks fallback_model
    (s : state World) :
  chat_chunks_shaped chunks = true ->
  exists response s',
    aggregate_chat chunks fallback_model s = (Ok response, s')
    /\ Aux.reasoning_of response
       = match fragments (delta_str "reasoning_content") (all_choices chunks) with
         | [] => None
         | (_ :: _) as parts => Some (JStr (PyStr.join parts))
         end.
Proof.
  intros H.
  destruct (aggregate_chat_summary chunks fallback_model s H)
    as (r & s' & E & _ & Hr & _).
  eauto.
Qed.

(** X21: the aggregators read the clock only to fill a gap: on
    well-shaped chunks whose first chunk has a truthy [id] and whose last
    or first chunk has a truthy [created], they return the same response
    from every state and leave the state as it was. *)
Theorem aggregation_without_clock first rest fallback_model :
  let chunks := first :: rest in
  let last := List.last chunks first in
  completion_chunks_shaped chunks = true ->
  Py.truthy (field first "id") = true ->
  Py.truthy (field last "created") || Py.truthy (field first "created") = true ->
  (chat_chunks_shaped chunks = true ->
   exists response,
     forall s : state World,
       aggregate_chat chunks fallback_model s = (Ok response, s))
  /\ exists response,
       forall s : state World,
         aggregate_completion chunks fallback_model s = (Ok response, s).
Proof.
  intros chunks last. subst last chunks. intros Hplain Hid Hcreated.
  assert (Hid' : forall prefix w,
             stream_id World clock prefix first w = (field first "id", w)).
  { intros prefix w. unfold stream_id. now rewrite Hid. }
  assert (Hcreated' : exists created, forall w,
             stream_created World clock first
               (List.last (first :: rest) first) w = (created, w)).
  { unfold stream_created.
    destruct (Py.truthy (field (List.last (first :: rest) first) "created"));
      [eauto|].
    cbn [orb] in Hcreated. rewrite Hcreated. eauto. }
  destruct Hcreated' as (created & Hcreated').
  split.
  - intros Hchat. eexists. intros s.
    rewrite (aggregate_chat_chunks_run World clock py_repr first rest
               fallback_model s Hchat).
    cbv zeta.
    rewrite Hid'. cbn [fst snd]. rewrite Hcreated'. cbn [fst snd].
    destruct s; reflexivity.
  - eexists. intros s.
    rewrite (aggregate_completion_chunks_run World clock py_repr first rest
               fallback_model s Hplain).
    cbv zeta.
    rewrite Hid'. cbn [fst snd]. rewrite Hcreated'. cbn [fst snd].
    destruct s; reflexivity.
Qed.

End MoreAggregationFacts.

(** ** Streamed calls *)

Section StreamedCalls.

Import Spec.

Context (World : Type)
        (http : Request -> World -> Reply * World)
        (clock : World -> Z * World)
        (json_loads : string -> decode_error + json)
        (py_repr : json -> string)
        (config : DeepSeekClientConfig).

Local Abbreviation attempt :=
  (_chat_or_completion_request World http clock json_loads py_repr config).
Local Abbreviation request_of := (attempt_request World config).
Local Abbreviation chat :=
  (create_chat_completion World http clock json_loads py_repr config).
Local Abbreviation plain :=
  (create_completion World http clock json_loads py_repr config).
Local Abbreviation prepared := (attempt_state World py_repr config).

(** An attempt on a payload that asks for a stream, when the server
    answers with a status below 400 and the loop over the lines comes
    to an end: the chunks of the body are aggregated, by the aggregator
    of the path. *)
Lemma streamed_attempt_run path payload override s response w chunks :
  Py.truthy (Py.get (default [] (heap s !! payload)) "stream") = true ->
  http (request_of path payload override s) (world s) = (Answered response, w) ->
  (400 <=? status_code response) = false ->
  sse_chunks json_loads (lines response) = Ok chunks ->
  let model := py_str py_repr (Py.get (default [] (heap s !! payload)) "model") in
  let s1 := {| heap := heap s; world := w;
               sent := (sent s ++ [request_of path payload override s])%list |} in
  attempt path payload override s
  = match (if String.eqb path "/chat/completions"
           then aggregate_chat_chunks World clock py_repr chunks model s1
           else aggregate_completion_chunks World clock py_repr chunks model s1)
    with
    | (Ok response, s2) => (Ok (response, len chunks), s2)
    | (Raise e, s2) => (Raise e, s2)
    end.
Proof.
  intros Hstream Hhttp Hstatus Hchunks model s1. subst model s1.
  unfold attempt_request in *. cbv zeta in *. rewrite Hstream in *.
  unfold _chat_or_completion_request. rewrite bind_dict_get, Hstream.
  unfold _request_sse_json. cbv zeta.
  unfold bind at 1. unfold bind at 1. unfold http_call.
  cbn [option_map]. rewrite Hhttp, Hstatus, Hchunks. unfold lift at 1.
  rewrite bind_dict_get. cbn [heap].
  destruct (String.eqb path "/chat/completions"); unfold bind, ret;
    match goal with
    | |- context [match ?run with _ => _ end] =>
        destruct run as [[r|e] s2]; reflexivity
    end.
Qed.

Lemma prepared_stream payload s :
  Py.get (default [] (heap (prepared payload s) !! (length (heap s) : loc)))
    "stream"
  = Py.get (default [] (heap s !! payload)) "stream".
Proof.
  rewrite prepared_lookup_new. cbn [default from_option id].
  apply get_set_other. discriminate.
Qed.

Lemma prepared_model payload s :
  Py.get (default [] (heap (prepared payload s) !! (length (heap s) : loc)))
    "model"
  = JStr (requested_model World py_repr config payload s).
Proof.
  rewrite prepared_lookup_new. cbn [default from_option id].
  apply get_set_same.
Qed.

(** X22: a chat completion that asks for a stream and gets one (a status
    below 400, lines from which the loop collects chunks of the right
    shape) makes the one streamed request and returns one response: its
    content is the concatenation of the string [delta.content] fragments
    of the chunks, in order, and [stream_chunk_count] is the number of
    chunks collected from the body. *)
Theorem streamed_chat_completion_returns_the_stream
    payload s response w chunks :
  let request :=
    request_of "/chat/completions" (length (heap s)) None (prepared payload s) in
  Py.truthy (Py.get (default [] (heap s !! payload)) "stream") = true ->
  http request (world s) = (Answered response, w) ->
  status_code response < 400 ->
  sse_chunks json_loads (lines response) = Ok chunks ->
  chat_chunks_shaped chunks = true ->
  exists aggregated s',
    chat payload s
    = (Ok (JDict [("response", aggregated);
                  ("fallback", JNull);
                  ("stream_chunk_count", JInt (Z.of_nat (length chunks)))]), s')
    /\ sent s' = (sent s ++ [request])%list
    /\ streamed request = true
    /\ Aux.content_of aggregated
       = JStr (PyStr.join (fragments (delta_str "content") (all_choices chunks)))
    /\ Aux.finish_of aggregated = last_truthy (finish_reasons chunks).
Proof.
  intros request Hstream Hhttp Hstatus Hchunks Hshaped.
  assert (Hstream' : Py.truthy
            (Py.get (default [] (heap (prepared payload s)
                                   !! (length (heap s) : loc))) "stream") = true)
    by now rewrite prepared_stream.
  rewrite create_chat_completion_eq, first_chat_attempt_eq.
  rewrite (streamed_attempt_run "/chat/completions" (length (heap s)) None
             (prepared payload s) response w chunks Hstream' Hhttp)
    by (exact Hchunks || (apply Z.leb_gt; exact Hstatus)).
  cbv zeta. cbn [String.eqb Ascii.eqb Bool.eqb]. fold request.
  match goal with
  | |- context [aggregate_chat_chunks World clock py_repr chunks ?m ?s1] =>
      destruct (aggregate_chat_summary World clock py_repr chunks m s1 Hshaped)
        as (r & s2 & E & Hcontent & _ & Hfinish);
      pose proof (aggregate_chat_chunks_world_only World clock py_repr chunks
                    m s1) as [_ Hsent]
  end.
  rewrite E in *. cbn [snd sent fst] in *.
  exists r, s2. split; [reflexivity|]. split; [exact Hsent|].
  split; [|split; assumption].
  subst request. unfold attempt_request. cbn [streamed]. exact Hstream'.
Qed.

(** X23: a plain completion that asks for a stream and gets one (a
    status below 400, lines from which the loop collects chunks of the
    right shape) makes the one streamed request, under the plain base,
    and returns one response: its text is the concatenation of the
    string [text] fragments of the chunks, in order, and
    [stream_chunk_count] is the number of chunks collected from the
    body. *)
Theorem streamed_completion_returns_the_stream
    payload s response w chunks :
  let request :=
    request_of "/completions" (length (heap s)) None (prepared payload s) in
  Py.truthy (Py.get (default [] (heap s !! payload)) "stream") = true ->
  http request (world s) = (Answered response, w) ->
  status_code response < 400 ->
  sse_chunks json_loads (lines response) = Ok chunks ->
  completion_chunks_shaped chunks = true ->
  exists aggregated s',
    plain payload s
    = (Ok (JDict [("response", aggregated);
                  ("used_beta_base", JBool false);
                  ("stream_chunk_count", JInt (Z.of_nat (length chunks)))]), s')
    /\ sent s' = (sent s ++ [request])%list
    /\ streamed request = true
    /\ Aux.text_of aggregated
       = JStr (PyStr.join (fragments text_str (all_choices chunks)))
    /\ Aux.finish_of aggregated = last_truthy (finish_reasons chunks).
Proof.
  intros request Hstream Hhttp Hstatus Hchunks Hshaped.
  assert (Hstream' : Py.truthy
            (Py.get (default [] (heap (prepared payload s)
                                   !! (length (heap s) : loc))) "stream") = true)
    by now rewrite prepared_stream.
  rewrite create_completion_eq, first_completion_attempt_eq.
  rewrite (streamed_attempt_run "/completions" (length (heap s)) None
             (prepared payload s) response w chunks Hstream' Hhttp)
    by (exact Hchunks || (apply Z.leb_gt; exact Hstatus)).
  cbv zeta. cbn [String.eqb Ascii.eqb Bool.eqb]. fold request.
  match goal with
  | |- context [aggregate_completion_chunks World clock py_repr chunks ?m ?s1] =>
      destruct (aggregate_completion_summary World clock py_repr chunks m s1
                  Hshaped) as (r & s2 & E & Htext & Hfinish);
      pose proof (aggregate_completion_chunks_world_only World clock py_repr
                    chunks m s1) as [_ Hsent]
  end.
  rewrite E in *. cbn [snd sent fst] in *.
  exists r, s2. split; [reflexivity|]. split; [exact Hsent|].
  split; [|split; assumption].
  subst request. unfold attempt_request. cbn [streamed]. exact Hstream'.
Qed.

End StreamedCalls.

(** ** The tools *)

Section ToolFacts.

Context (World : Type)
        (http : Request -> World -> Reply * World)
        (clock : World -> Z * World)
        (json_loads : string -> decode_error + json)
        (py_repr : json -> string)
        (config : DeepSeekClientConfig).

Local Abbreviation request_of := (attempt_request World config).
Local Abbreviation chat :=
  (create_chat_completion World http clock json_loads py_repr config).
Local Abbreviation plain :=
  (create_completion World http clock json_loads py_repr config).
Local Abbreviation prepared := (attempt_state World py_repr config).

(** *** Lookups in a dict under construction *)

Lemma lookup_set (d : pydict) (key other : string) (v : json) :
  Py.lookup (Py.set d key v) other
  = if String.eqb key other then Some v else Py.lookup d other.
Proof.
  induction d as [|[k x] d IH]; simpl.
  - destruct (String.eqb key other); reflexivity.
  - destruct (String.eqb_spec k key) as [->|Hk]; simpl.
    + destruct (String.eqb key other); reflexivity.
    + destruct (String.eqb_spec k other) as [->|Hko].
      * destruct (String.eqb_spec key other) as [->|]; [contradiction|reflexivity].
      * exact IH.
Qed.

Lemma lookup_set_opt (d : pydict) (key other : string) (v : option json) :
  Py.lookup (Aux.set_opt d key v) other
  = if String.eqb key other
    then match v with Some x => Some x | None => Py.lookup d other end
    else Py.lookup d other.
Proof.
  destruct v as [x|]; cbn [Aux.set_opt].
  - apply lookup_set.
  - now destruct (String.eqb key other).
Qed.

Lemma lookup_build_other (options : list (string * option json)) :
  forall (d : pydict) (key : string),
    ~ In key (List.map fst options) ->
    Py.lookup (Aux.build d options) key = Py.lookup d key.
Proof.
  unfold Aux.build.
  induction options as [|[k a] options IH]; intros d key Hnot; [reflexivity|].
  cbn [fold_left fst snd]. rewrite IH by (intros H; apply Hnot; now right).
  rewrite lookup_set_opt.
  destruct (String.eqb_spec k key) as [->|]; [|reflexivity].
  exfalso. apply Hnot. now left.
Qed.

Lemma lookup_build_in (options : list (string * option json)) :
  forall (d : pydict) (key : string) (argument : option json),
    List.NoDup (List.map fst options) ->
    In (key, argument) options ->
    Py.lookup (Aux.build d options) key
    = match argument with Some x => Some x | None => Py.lookup d key end.
Proof.
  unfold Aux.build.
  induction options as [|[k a] options IH]; intros d key argument Hnodup Hin;
    [contradiction|].
  cbn [List.map fst] in Hnodup. apply List.NoDup_cons_iff in Hnodup as [Hk Hnodup].
  cbn [fold_left fst snd]. destruct Hin as [E|Hin].
  - inversion E; subst k a.
    fold (Aux.build (Aux.set_opt d key argument) options).
    rewrite lookup_build_other by exact Hk.
    rewrite lookup_set_opt, String.eqb_refl. reflexivity.
  - rewrite (IH _ key argument Hnodup Hin), lookup_set_opt.
    destruct (String.eqb_spec k key) as [->|]; [|reflexivity].
    exfalso. apply Hk. apply (List.in_map fst) in Hin. exact Hin.
Qed.

Lemma lookup_update_other (extra : pydict) :
  forall (d : pydict) (key : string),
    ~ In key (Py.keys extra) ->
    Py.lookup (Py.update d extra) key = Py.lookup d key.
Proof.
  unfold Py.update, Py.keys.
  induction extra as [|[k x] extra IH]; intros d key Hnot; [reflexivity|].
  cbn [fold_left fst snd]. rewrite IH by (intros H; apply Hnot; now right).
  rewrite lookup_set.
  destruct (String.eqb_spec k key) as [->|]; [|reflexivity].
  exfalso. apply Hnot. now left.
Qed.

Lemma lookup_update_in (extra : pydict) :
  forall (d : pydict) (key : string) (v : json),
    List.NoDup (Py.keys extra) ->
    In (key, v) extra ->
    Py.lookup (Py.update d extra) key = Some v.
Proof.
  unfold Py.keys.
  induction extra as [|[k x] extra IH]; intros d key v Hnodup Hin;
    [contradiction|].
  cbn [List.map fst] in Hnodup. apply List.NoDup_cons_iff in Hnodup as [Hk Hnodup].
  unfold Py.update. cbn [fold_left fst snd]. destruct Hin as [E|Hin].
  - inversion E; subst k x.
    fold (Py.update (Py.set d key v) extra).
    rewrite lookup_update_other by exact Hk.
    now rewrite lookup_set, String.eqb_refl.
  - fold (Py.update (Py.set d k x) extra). now apply IH.
Qed.

Lemma lookup_set_model (d : pydict) (model : option string) (key : string) :
  key <> "model" ->
  Py.lookup (Aux.set_model d model) key = Py.lookup d key.
Proof.
  intros Hkey. destruct model as [m|]; cbn [Aux.set_model]; [|reflexivity].
  destruct (String.eqb m ""); [reflexivity|].
  rewrite lookup_set.
  destruct (String.eqb_spec "model" key) as [E|]; [|reflexivity].
  now destruct Hkey.
Qed.

Lemma get_of_lookup (d : pydict) (key : string) :
  Py.get d key = match Py.lookup d key with Some v => v | None => JNull end.
Proof. reflexivity. Qed.

(** *** The heap while a payload is built *)

Lemma set_if_given_run h d w sn key v :
  set_if_given World (length h) key v
    {| heap := h ++ [d]; world := w; sent := sn |}
  = (Ok tt, {| heap := h ++ [Aux.set_opt d key v]; world := w; sent := sn |}).
Proof.
  destruct v as [x|]; cbn [set_if_given Aux.set_opt]; [|reflexivity].
  unfold dict_setitem. cbn [heap world sent].
  now rewrite heap_alloc_lookup, heap_alloc_set.
Qed.

Lemma set_model_if_given_run h d w sn model :
  set_model_if_given World (length h) model
    {| heap := h ++ [d]; world := w; sent := sn |}
  = (Ok tt, {| heap := h ++ [Aux.set_model d model]; world := w; sent := sn |}).
Proof.
  destruct model as [m|]; cbn [set_model_if_given Aux.set_model]; [|reflexivity].
  destruct (String.eqb m ""); [reflexivity|].
  unfold dict_setitem. cbn [heap world sent].
  now rewrite heap_alloc_lookup, heap_alloc_set.
Qed.

Lemma update_if_given_run h d w sn extra_body :
  update_if_given World (length h) extra_body
    {| heap := h ++ [d]; world := w; sent := sn |}
  = (Ok tt, {| heap := h ++ [Py.update d (Aux.extra_entries extra_body)];
               world := w; sent := sn |}).
Proof.
  destruct extra_body as [[|entry extra]|];
    cbn [update_if_given Aux.extra_entries]; try reflexivity.
  unfold dict_update. cbn [heap world sent].
  now rewrite heap_alloc_lookup, heap_alloc_set.
Qed.

Lemma bind_run {A B} (m : M World A) (k : A -> M World B) s a s' :
  m s = (Ok a, s') -> bind World m k s = k a s'.
Proof. unfold bind. now intros ->. Qed.

(** The tool [chat_completion] is [create_chat_completion] on a fresh
    dict. *)
Lemma chat_completion_eq messages model stream temperature top_p max_tokens
    max_completion_tokens stop response_format tools tool_choice thinking
    extra_body s :
  chat_completion World http clock json_loads py_repr config
    messages model stream temperature top_p max_tokens max_completion_tokens
    stop response_format tools tool_choice thinking extra_body s
  = chat (length (heap s))
      {| heap :=
           heap s
           ++ [Aux.tool_payload
                 [("messages", messages); ("stream", JBool stream)] model
                 (Aux.chat_options temperature top_p max_tokens
                    max_completion_tokens stop response_format tools
                    tool_choice thinking)
                 extra_body];
         world := world s; sent := sent s |}.
Proof.
  unfold chat_completion.
  rewrite (bind_run _ _ s (length (heap s))
             {| heap := heap s ++ [[("messages", messages);
                                    ("stream", JBool stream)]];
                world := world s; sent := sent s |}) by reflexivity.
  rewrite (bind_run _ _ _ tt _ (set_model_if_given_run _ _ _ _ _)).
  do 9 rewrite (bind_run _ _ _ tt _ (set_if_given_run _ _ _ _ _ _)).
  rewrite (bind_run _ _ _ tt _ (update_if_given_run _ _ _ _ _)).
  reflexivity.
Qed.

(** The tool [completion] is [create_completion] on a fresh dict. *)
Lemma completion_eq prompt model stream suffix temperature top_p max_tokens
    stop extra_body s :
  completion World http clock json_loads py_repr config
    prompt model stream suffix temperature top_p max_tokens stop extra_body s
  = plain (length (heap s))
      {| heap :=
           heap s
           ++ [Aux.tool_payload
                 [("prompt", JStr prompt); ("stream", JBool stream)] model
                 (Aux.completion_options suffix temperature top_p max_tokens
                    stop)
                 extra_body];
         world := world s; sent := sent s |}.
Proof.
  unfold completion.
  rewrite (bind_run _ _ s (length (heap s))
             {| heap := heap s ++ [[("prompt", JStr prompt);
                                    ("stream", JBool stream)]];
                world := world s; sent := sent s |}) by reflexivity.
  rewrite (bind_run _ _ _ tt _ (set_model_if_given_run _ _ _ _ _)).
  do 5 rewrite (bind_run _ _ _ tt _ (set_if_given_run _ _ _ _ _ _)).
  rewrite (bind_run _ _ _ tt _ (update_if_given_run _ _ _ _ _)).
  reflexivity.
Qed.

(** *** What the payload of a tool call holds *)

Lemma tool_payload_option required model options extra_body key argument :
  List.NoDup (List.map fst options) ->
  In (key, argument) options ->
  key <> "model" ->
  Py.lookup required key = None ->
  ~ In key (Py.keys (Aux.extra_entries extra_body)) ->
  Py.lookup (Aux.tool_payload required model options extra_body) key = argument.
Proof.
  intros Hnodup Hin Hkey Hrequired Hextra. unfold Aux.tool_payload.
  rewrite lookup_update_other by exact Hextra.
  rewrite (lookup_build_in options _ key argument Hnodup Hin).
  destruct argument; [reflexivity|].
  now rewrite lookup_set_model.
Qed.

Lemma tool_payload_required required model options extra_body key :
  ~ In key (List.map fst options) ->
  key <> "model" ->
  ~ In key (Py.keys (Aux.extra_entries extra_body)) ->
  Py.lookup (Aux.tool_payload required model options extra_body) key
  = Py.lookup required key.
Proof.
  intros Hoptions Hkey Hextra. unfold Aux.tool_payload.
  rewrite lookup_update_other by exact Hextra.
  rewrite lookup_build_other by exact Hoptions.
  now apply lookup_set_model.
Qed.

Lemma tool_payload_extra required model options extra_body key v :
  List.NoDup (Py.keys (Aux.extra_entries extra_body)) ->
  In (key, v) (Aux.extra_entries extra_body) ->
  Py.lookup (Aux.tool_payload required model options extra_body) key = Some v.
Proof. intros Hnodup Hin. unfold Aux.tool_payload. now apply lookup_update_in. Qed.

Lemma tool_payload_model required model options extra_body :
  ~ In "model" (List.map fst options) ->
  Py.lookup required "model" = None ->
  ~ In "model" (Py.keys (Aux.extra_entries extra_body)) ->
  py_str py_repr
    (Py.or_else
       (Py.get (Aux.tool_payload required model options extra_body) "model")
       (JStr (default_model config)))
  = Aux.tool_model config model.
Proof.
  intros Hoptions Hrequired Hextra.
  rewrite get_of_lookup. unfold Aux.tool_payload.
  rewrite lookup_update_other by exact Hextra.
  rewrite lookup_build_other by exact Hoptions.
  unfold Aux.set_model, Aux.tool_model, Py.or_else.
  destruct model as [m|]; [|now rewrite Hrequired].
  destruct (String.eqb m "") eqn:Em; [now rewrite Hrequired|].
  rewrite lookup_set. cbn [String.eqb Ascii.eqb Bool.eqb Py.truthy].
  now rewrite Em.
Qed.

Lemma lookup_with_model (d : pydict) (m : json) (key : string) :
  key <> "model" -> Py.lookup (Py.set d "model" m) key = Py.lookup d key.
Proof.
  intros Hkey. rewrite lookup_set.
  destruct (String.eqb_spec "model" key) as [E|]; [|reflexivity].
  now destruct Hkey.
Qed.

(** The body of the first request of a [create_*] call on a fresh
    dict. *)
Lemma fresh_payload_body path d s :
  let s0 := {| heap := heap s ++ [d]; world := world s; sent := sent s |} in
  body (request_of path (length (heap s0)) None (prepared (length (heap s)) s0))
  = Some (Py.set d "model"
            (JStr (py_str py_repr
                     (Py.or_else (Py.get d "model")
                        (JStr (default_model config)))))).
Proof.
  intros s0. unfold attempt_request. cbn [body].
  rewrite prepared_lookup_new. unfold requested_model.
  subst s0. cbn [heap]. rewrite heap_alloc_lookup. reflexivity.
Qed.

Ltac each_key H :=
  repeat (destruct H as [H|H]; [inversion H; subst; clear H|]);
  try contradiction.

(** X24: what the tool [chat_completion] sends. The body of its first
    request holds every argument that was given under its key and no
    entry for an optional argument that was not given, unless
    [extra_body] has the key; whatever [extra_body] holds under a key
    other than [model] is sent as it is, also in place of a named
    argument; when [extra_body] names no model, the model is the [model]
    argument, or the configured default when that is absent or empty;
    and the body has no other key. *)
Theorem chat_completion_tool_payload messages model stream temperature top_p
    max_tokens max_completion_tokens stop response_format tools tool_choice
    thinking extra_body s :
  let extra := Aux.extra_entries extra_body in
  let arguments :=
    ("messages", Some messages) :: ("stream", Some (JBool stream))
    :: Aux.chat_options temperature top_p max_tokens max_completion_tokens
         stop response_format tools tool_choice thinking in
  exists first rest d,
    sent (snd (chat_completion World http clock json_loads py_repr config
                 messages model stream temperature top_p max_tokens
                 max_completion_tokens stop response_format tools tool_choice
                 thinking extra_body s))
    = (sent s ++ first :: rest)%list
    /\ url first = normalize_base_url (base_url config) ++ "/chat/completions"
    /\ body first = Some d
    /\ (forall key argument,
          In (key, argument) arguments ->
          ~ In key (Py.keys extra) ->
          Py.lookup d key = argument)
    /\ (forall key v,
          List.NoDup (Py.keys extra) ->
          In (key, v) extra ->
          key <> "model" ->
          Py.lookup d key = Some v)
    /\ (~ In "model" (Py.keys extra) ->
        Py.lookup d "model" = Some (JStr (Aux.tool_model config model)))
    /\ (forall key,
          Py.lookup d key <> None ->
          key = "model"
          \/ In key (List.map fst arguments)
          \/ In key (Py.keys extra)).
Proof.
  intros extra arguments. rewrite chat_completion_eq.
  set (required := [("messages", messages); ("stream", JBool stream)]).
  set (options := Aux.chat_options temperature top_p max_tokens
                    max_completion_tokens stop response_format tools
                    tool_choice thinking).
  set (d := Aux.tool_payload required model options extra_body).
  set (s0 := {| heap := heap s ++ [d]; world := world s; sent := sent s |}).
  destruct (chat_requests World http clock json_loads py_repr config
              (length (heap s)) s0) as (rest & Hsent & _).
  cbv zeta in Hsent.
  pose proof (fresh_payload_body "/chat/completions" d s) as Hbody.
  cbv zeta in Hbody. fold s0 in Hbody.
  assert (Hnodup : List.NoDup (List.map fst options)).
  { subst options. unfold Aux.chat_options. cbn [List.map fst].
    repeat (constructor; [cbn [In]; intuition discriminate|]). constructor. }
  do 3 eexists. split; [exact Hsent|]. split; [reflexivity|].
  split; [exact Hbody|].
  split; [|split; [|split]].
  - intros key argument Hin Hextra.
    destruct Hin as [E|[E|Hin]].
    + inversion E; subst key argument.
      rewrite lookup_with_model by discriminate.
      subst d. rewrite tool_payload_required; try assumption; try discriminate.
      * reflexivity.
      * subst options. cbn [Aux.chat_options List.map fst In].
        intuition discriminate.
    + inversion E; subst key argument.
      rewrite lookup_with_model by discriminate.
      subst d. rewrite tool_payload_required; try assumption; try discriminate.
      * reflexivity.
      * subst options. cbn [Aux.chat_options List.map fst In].
        intuition discriminate.
    + assert (Hkey : key <> "model" /\ Py.lookup required key = None).
      { subst options. unfold Aux.chat_options in Hin. cbn [In] in Hin.
        each_key Hin; (split; [discriminate | reflexivity]). }
      destruct Hkey as [Hkey Hrequired].
      rewrite lookup_with_model by exact Hkey.
      subst d. now apply tool_payload_option.
  - intros key v Hnodup' Hin Hkey.
    rewrite lookup_with_model by exact Hkey.
    subst d. now apply tool_payload_extra.
  - intros Hextra. rewrite lookup_set, String.eqb_refl.
    subst d. rewrite tool_payload_model; try assumption; try reflexivity.
    subst options. cbn [Aux.chat_options List.map fst In]. intuition discriminate.
  - intros key Hlookup.
    destruct (string_dec key "model") as [->|Hkey]; [now left|]. right.
    destruct (List.in_dec string_dec key (List.map fst arguments)) as [Hin|Hnot];
      [now left|]. right.
    destruct (List.in_dec string_dec key (Py.keys extra)) as [Hin|Hextra];
      [exact Hin|].
    exfalso. apply Hlookup.
    rewrite lookup_with_model by exact Hkey.
    subst d. rewrite tool_payload_required; try assumption.
    + subst required. cbn [Py.lookup].
      subst arguments. cbn [List.map fst In] in Hnot.
      destruct (String.eqb_spec "messages" key) as [E|_]; [tauto|].
      destruct (String.eqb_spec "stream" key) as [E|_]; [tauto|].
      reflexivity.
    + intros Hin. apply Hnot. subst arguments. cbn [List.map fst].
      right. right. exact Hin.
Qed.

(** X25: what the tool [completion] sends. The body of its first request
    holds every argument that was given under its key and no entry for
    an optional argument that was not given, unless [extra_body] has the
    key; whatever [extra_body] holds under a key other than [model] is
    sent as it is; when [extra_body] names no model, the model is the
    [model] argument, or the configured default when that is absent or
    empty; and the body has no other key. *)
Theorem completion_tool_payload prompt model stream suffix temperature top_p
    max_tokens stop extra_body s :
  let extra := Aux.extra_entries extra_body in
  let arguments :=
    ("prompt", Some (JStr prompt)) :: ("stream", Some (JBool stream))
    :: Aux.completion_options suffix temperature top_p max_tokens stop in
  exists first rest d,
    sent (snd (completion World http clock json_loads py_repr config
                 prompt model stream suffix temperature top_p max_tokens stop
                 extra_body s))
    = (sent s ++ first :: rest)%list
    /\ url first = normalize_base_url (base_url config) ++ "/completions"
    /\ body first = Some d
    /\ (forall key argument,
          In (key, argument) arguments ->
          ~ In key (Py.keys extra) ->
          Py.lookup d key = argument)
    /\ (forall key v,
          List.NoDup (Py.keys extra) ->
          In (key, v) extra ->
          key <> "model" ->
          Py.lookup d key = Some v)
    /\ (~ In "model" (Py.keys extra) ->
        Py.lookup d "model" = Some (JStr (Aux.tool_model config model)))
    /\ (forall key,
          Py.lookup d key <> None ->
          key = "model"
          \/ In key (List.map fst arguments)
          \/ In key (Py.keys extra)).
Proof.
  intros extra arguments. rewrite completion_eq.
  set (required := [("prompt", JStr prompt); ("stream", JBool stream)]).
  set (options := Aux.completion_options suffix temperature top_p max_tokens
                    stop).
  set (d := Aux.tool_payload required model options extra_body).
  set (s0 := {| heap := heap s ++ [d]; world := world s; sent := sent s |}).
  destruct (plain_requests World http clock json_loads py_repr config
              (length (heap s)) s0) as (rest & Hsent & _).
  cbv zeta in Hsent.
  pose proof (fresh_payload_body "/completions" d s) as Hbody.
  cbv zeta in Hbody. fold s0 in Hbody.
  assert (Hnodup : List.NoDup (List.map fst options)).
  { subst options. unfold Aux.completion_options. cbn [List.map fst].
    repeat (constructor; [cbn [In]; intuition discriminate|]). constructor. }
  do 3 eexists. split; [exact Hsent|]. split; [reflexivity|].
  split; [exact Hbody|].
  split; [|split; [|split]].
  - intros key argument Hin Hextra.
    destruct Hin as [E|[E|Hin]].
    + inversion E; subst key argument.
      rewrite lookup_with_model by discriminate.
      subst d. rewrite tool_payload_required; try assumption; try discriminate.
      * reflexivity.
      * subst options. cbn [Aux.completion_options List.map fst In].
        intuition discriminate.
    + inversion E; subst key argument.
      rewrite lookup_with_model by discriminate.
      subst d. rewrite tool_payload_required; try assumption; try discriminate.
      * reflexivity.
      * subst options. cbn [Aux.completion_options List.map fst In].
        intuition discriminate.
    + assert (Hkey : key <> "model" /\ Py.lookup required key = None).
      { subst options. unfold Aux.completion_options in Hin. cbn [In] in Hin.
        each_key Hin; (split; [discriminate | reflexivity]). }
      destruct Hkey as [Hkey Hrequired].
      rewrite lookup_with_model by exact Hkey.
      subst d. now apply tool_payload_option.
  - intros key v Hnodup' Hin Hkey.
    rewrite lookup_with_model by exact Hkey.
    subst d. now apply tool_payload_extra.
  - intros Hextra. rewrite lookup_set, String.eqb_refl.
    subst d. rewrite tool_payload_model; try assumption; try reflexivity.
    subst options. cbn [Aux.completion_options List.map fst In].
    intuition discriminate.
  - intros key Hlookup.
    destruct (string_dec key "model") as [->|Hkey]; [now left|]. right.
    destruct (List.in_dec string_dec key (List.map fst arguments)) as [Hin|Hnot];
      [now left|]. right.
    destruct (List.in_dec string_dec key (Py.keys extra)) as [Hin|Hextra];
      [exact Hin|].
    exfalso. apply Hlookup.
    rewrite lookup_with_model by exact Hkey.
    subst d. rewrite tool_payload_required; try assumption.
    + subst required. cbn [Py.lookup].
      subst arguments. cbn [List.map fst In] in Hnot.
      destruct (String.eqb_spec "prompt" key) as [E|_]; [tauto|].
      destruct (String.eqb_spec "stream" key) as [E|_]; [tauto|].
      reflexivity.
    + intros Hin. apply Hnot. subst arguments. cbn [List.map fst].
      right. right. exact Hin.
Qed.

End ToolFacts.

(** ** The calls that only read *)

Section ReadOnlyCalls.

Context (World : Type)
        (http : Request -> World -> Reply * World)
        (config : DeepSeekClientConfig).



End ReadOnlyCalls.

(** ** Configuration from the environment *)

Section WhitespaceFacts.

Local Abbreviation ws := PyStr.whitespace.

(** *** Bytes *)

Ltac each_byte c :=
  destruct c as [[] [] [] [] [] [] [] []]; vm_compute;
  repeat split; intros; first [reflexivity | discriminate].

Lemma space2_first c d : PyStr.space2 c d = true -> c = PyStr.byte 194.
Proof.
  unfold PyStr.space2. intros H. apply andb_prop in H as [H _].
  now apply Ascii.eqb_eq in H.
Qed.

Lemma space3_first c d e :
  PyStr.space3 c d e = true ->
  c = PyStr.byte 225 \/ c = PyStr.byte 226 \/ c = PyStr.byte 227.
Proof.
  unfold PyStr.space3. intros H.
  repeat (apply orb_prop in H as [H|H]);
    do 2 (apply andb_prop in H as [H _]); apply Ascii.eqb_eq in H; auto.
Qed.

Lemma space2_not_ws c d : PyStr.space2 c d = true -> PyStr.mem c ws = false.
Proof. intros H. apply space2_first in H as ->. reflexivity. Qed.

Lemma space3_not_ws c d e :
  PyStr.space3 c d e = true ->
  PyStr.mem c ws = false /\ forall d', PyStr.space2 c d' = false.
Proof.
  intros H. apply space3_first in H as [-> | [-> | ->]]; split; reflexivity.
Qed.

(** A byte that starts a whitespace character is not the second or
    third byte of one. *)
Lemma lead_not_second d :
  Aux.lead d = true ->
  (forall c, PyStr.space2 c d = false)
  /\ (forall c e, PyStr.space3 c d e = false).
Proof.
  intros H.
  assert (Hd : PyStr.mem d (PyStr.bytes [133; 160]%nat) = false
               /\ Ascii.eqb d (PyStr.byte 154) = false
               /\ Ascii.eqb d (PyStr.byte 128) = false
               /\ Ascii.eqb d (PyStr.byte 129) = false)
    by (revert H; each_byte d).
  destruct Hd as (H2 & H154 & H128 & H129). split.
  - intros c. unfold PyStr.space2. rewrite H2. apply andb_false_r.
  - intros c e. unfold PyStr.space3. rewrite H154, H128, H129.
    now rewrite !andb_false_r.
Qed.

Lemma lead_not_third e :
  Aux.lead e = true -> forall c d, PyStr.space3 c d e = false.
Proof.
  intros H.
  assert (He : Ascii.eqb e (PyStr.byte 128) = false
               /\ Ascii.eqb e (PyStr.byte 159) = false
               /\ PyStr.mem e
                    (PyStr.bytes [128; 129; 130; 131; 132; 133; 134; 135; 136;
                                  137; 138; 168; 169; 175]%nat) = false)
    by (revert H; each_byte e).
  destruct He as (H128 & H159 & Hset).
  intros c d. unfold PyStr.space3. rewrite H128, H159, Hset.
  now rewrite !andb_false_r.
Qed.

Lemma lower_ascii_byte c :
  PyStr.mem (PyStr.lower_ascii c) ws = PyStr.mem c ws
  /\ (forall d, PyStr.space2 (PyStr.lower_ascii c) d = PyStr.space2 c d)
  /\ (forall b, PyStr.space2 b (PyStr.lower_ascii c) = PyStr.space2 b c)
  /\ (forall d e,
        PyStr.space3 (PyStr.lower_ascii c) d e = PyStr.space3 c d e)
  /\ (forall b e,
        PyStr.space3 b (PyStr.lower_ascii c) e = PyStr.space3 b c e)
  /\ (forall b d,
        PyStr.space3 b d (PyStr.lower_ascii c) = PyStr.space3 b d c).
Proof.
  assert (H : PyStr.lower_ascii c = c
              \/ (Aux.lead c = false /\ Aux.lead (PyStr.lower_ascii c) = false
                  /\ forall k,
                       In k [133; 160; 154; 128; 129; 159; 130; 131; 132; 134;
                             135; 136; 137; 138; 168; 169; 175; 194; 225; 226;
                             227]%nat ->
                       Ascii.eqb c (PyStr.byte k) = false
                       /\ Ascii.eqb (PyStr.lower_ascii c) (PyStr.byte k) = false)).
  { destruct c as [[] [] [] [] [] [] [] []];
      first [left; reflexivity
            |right; split; [reflexivity|]; split; [reflexivity|];
             intros k Hk; cbn [In] in Hk;
             repeat (destruct Hk as [<-|Hk]; [split; reflexivity|]);
             contradiction]. }
  destruct H as [->|(Hc & Hl & Hk)]; [repeat split; reflexivity|].
  assert (Hmem : forall x,
             Aux.lead x = false -> PyStr.mem x ws = false).
  { intros x Hx. unfold Aux.lead in Hx. now apply orb_false_elim in Hx. }
  assert (Hset2 : forall x,
             (forall k, In k [133; 160]%nat -> Ascii.eqb x (PyStr.byte k) = false) ->
             PyStr.mem x (PyStr.bytes [133; 160]%nat) = false).
  { intros x Hx. cbn. rewrite !Hx by (cbn [In]; tauto). reflexivity. }
  assert (Hset3 : forall x,
             (forall k,
                In k [128; 129; 130; 131; 132; 133; 134; 135; 136; 137; 138;
                      168; 169; 175]%nat ->
                Ascii.eqb x (PyStr.byte k) = false) ->
             PyStr.mem x
               (PyStr.bytes [128; 129; 130; 131; 132; 133; 134; 135; 136; 137;
                             138; 168; 169; 175]%nat) = false).
  { intros x Hx. cbn. rewrite !Hx by (cbn [In]; tauto). reflexivity. }
  assert (Hc' : forall k,
             In k [133; 160; 154; 128; 129; 159; 130; 131; 132; 134; 135; 136;
                   137; 138; 168; 169; 175; 194; 225; 226; 227]%nat ->
             Ascii.eqb c (PyStr.byte k) = false)
    by (intros k Hin; apply (Hk k Hin)).
  assert (Hl' : forall k,
             In k [133; 160; 154; 128; 129; 159; 130; 131; 132; 134; 135; 136;
                   137; 138; 168; 169; 175; 194; 225; 226; 227]%nat ->
             Ascii.eqb (PyStr.lower_ascii c) (PyStr.byte k) = false)
    by (intros k Hin; apply (Hk k Hin)).
  split; [now rewrite (Hmem _ Hc), (Hmem _ Hl)|].
  unfold PyStr.space2, PyStr.space3.
  rewrite (Hset2 c) by (intros; apply Hc'; cbn [In] in *; tauto).
  rewrite (Hset2 (PyStr.lower_ascii c)) by (intros; apply Hl'; cbn [In] in *; tauto).
  rewrite (Hset3 c) by (intros; apply Hc'; cbn [In] in *; tauto).
  rewrite (Hset3 (PyStr.lower_ascii c))
    by (intros; apply Hl'; cbn [In] in *; tauto).
  rewrite !Hc', !Hl' by (cbn [In]; tauto).
  repeat split; intros; rewrite ?andb_false_r, ?andb_false_l; reflexivity.
Qed.

(** *** Leading whitespace *)

Lemma lstrip_space_ws c rest :
  PyStr.mem c ws = true ->
  PyStr.lstrip_space (String c rest) = PyStr.lstrip_space rest.
Proof. intros H. cbn [PyStr.lstrip_space]. now rewrite H. Qed.

Lemma lstrip_space_two c d rest :
  PyStr.space2 c d = true ->
  PyStr.lstrip_space (String c (String d rest)) = PyStr.lstrip_space rest.
Proof.
  intros H. cbn [PyStr.lstrip_space]. now rewrite (space2_not_ws c d H), H.
Qed.

Lemma lstrip_space_three c d e rest :
  PyStr.space3 c d e = true ->
  PyStr.lstrip_space (String c (String d (String e rest)))
  = PyStr.lstrip_space rest.
Proof.
  intros H. cbn [PyStr.lstrip_space].
  destruct (space3_not_ws c d e H) as [Hws H2]. now rewrite Hws, H2, H.
Qed.

Lemma lstrip_space_fixed s :
  Aux.starts_space s = false -> PyStr.lstrip_space s = s.
Proof.
  destruct s as [|c [|d [|e rest]]]; cbn [Aux.starts_space PyStr.lstrip_space];
    intros H; [reflexivity| | |].
  - rewrite orb_false_r in H. now rewrite H.
  - rewrite orb_false_r in H. apply orb_false_elim in H as [Hc H2].
    now rewrite Hc, H2.
  - apply orb_false_elim in H as [Hc H]. apply orb_false_elim in H as [H2 H3].
    now rewrite Hc, H2, H3.
Qed.

(** Induction along [lstrip_space]. *)
Lemma space_ind (P : string -> Prop) :
  (forall c rest, PyStr.mem c ws = true -> P rest -> P (String c rest)) ->
  (forall c d rest,
     PyStr.space2 c d = true -> P rest -> P (String c (String d rest))) ->
  (forall c d e rest,
     PyStr.space3 c d e = true -> P rest ->
     P (String c (String d (String e rest)))) ->
  (forall s, Aux.starts_space s = false -> P s) ->
  forall s, P s.
Proof.
  intros H1 H2 H3 H0 s.
  assert (H : forall n s, (String.length s < n)%nat -> P s);
    [|apply (H (S (String.length s))); lia].
  clear s. induction n as [|n IH]; intros s Hlen; [lia|].
  destruct (Aux.starts_space s) eqn:Hs; [|now apply H0].
  destruct s as [|c rest]; [discriminate|]. cbn [Aux.starts_space] in Hs.
  cbn [String.length] in Hlen.
  destruct (PyStr.mem c ws) eqn:Hc; [apply H1; [exact Hc | apply IH; lia]|].
  cbn [orb] in Hs. destruct rest as [|d rest2]; [discriminate|].
  cbn [String.length] in Hlen.
  destruct (PyStr.space2 c d) eqn:H2'; [apply H2; [exact H2' | apply IH; lia]|].
  cbn [orb] in Hs. destruct rest2 as [|e rest3]; [discriminate|].
  cbn [String.length] in Hlen. apply H3; [exact Hs | apply IH; lia].
Qed.

Lemma lstrip_space_head s :
  PyStr.lstrip_space s = ""
  \/ (PyStr.lstrip_space s <> ""
      /\ Aux.starts_space (PyStr.lstrip_space s) = false).
Proof.
  induction s as [c rest Hc IH|c d rest H2 IH|c d e rest H3 IH|s Hs]
    using space_ind.
  - now rewrite lstrip_space_ws.
  - now rewrite lstrip_space_two.
  - now rewrite lstrip_space_three.
  - rewrite (lstrip_space_fixed s Hs).
    destruct s; [now left | right; split; [discriminate | exact Hs]].
Qed.

Lemma lstrip_space_idempotent s :
  PyStr.lstrip_space (PyStr.lstrip_space s) = PyStr.lstrip_space s.
Proof.
  destruct (lstrip_space_head s) as [->|[_ H]]; [reflexivity|].
  now apply lstrip_space_fixed.
Qed.

Lemma blank_iff s : Aux.blank s = true <-> PyStr.lstrip_space s = "".
Proof. unfold Aux.blank. apply String.eqb_eq. Qed.

Lemma not_blank_iff s : Aux.blank s = false <-> PyStr.lstrip_space s <> "".
Proof. unfold Aux.blank. apply String.eqb_neq. Qed.

(** The first byte of a blank string starts a whitespace character. *)
Lemma blank_head c rest : Aux.blank (String c rest) = true -> Aux.lead c = true.
Proof.
  intros H. apply blank_iff in H. unfold Aux.lead.
  destruct (PyStr.mem c ws) eqn:Hc; [reflexivity|]. cbn [orb].
  destruct (Aux.starts_space (String c rest)) eqn:Hs;
    [|rewrite lstrip_space_fixed in H by exact Hs; discriminate].
  cbn [Aux.starts_space] in Hs. rewrite Hc in Hs. cbn [orb] in Hs.
  destruct rest as [|d rest2]; [discriminate|].
  apply orb_prop in Hs as [Hs|Hs].
  - apply space2_first in Hs as ->. reflexivity.
  - destruct rest2 as [|e rest3]; [discriminate|].
    apply space3_first in Hs as [-> | [-> | ->]]; reflexivity.
Qed.

Lemma lstrip_space_app_blank left s :
  Aux.blank left = true ->
  PyStr.lstrip_space (left ++ s) = PyStr.lstrip_space s.
Proof.
  rewrite blank_iff.
  induction left as [c rest Hc IH|c d rest H2 IH|c d e rest H3 IH|l Hl]
    using space_ind; intros H.
  - rewrite lstrip_space_ws in H by exact Hc.
    cbn [append]. rewrite lstrip_space_ws by exact Hc. now apply IH.
  - rewrite lstrip_space_two in H by exact H2.
    cbn [append]. rewrite lstrip_space_two by exact H2. now apply IH.
  - rewrite lstrip_space_three in H by exact H3.
    cbn [append]. rewrite lstrip_space_three by exact H3. now apply IH.
  - rewrite lstrip_space_fixed in H by exact Hl. now subst l.
Qed.

(** What does not start with whitespace does not do so in front of a
    blank string either. *)
Lemma starts_space_app s right :
  s <> "" ->
  Aux.starts_space s = false ->
  Aux.blank right = true ->
  Aux.starts_space (s ++ right) = false.
Proof.
  intros Hne Hs Hr.
  assert (Hhead : match right with
                  | EmptyString => True
                  | String b _ => Aux.lead b = true
                  end)
    by (destruct right as [|b right']; [exact I | now apply blank_head in Hr]).
  destruct s as [|c [|d [|e rest]]]; [contradiction| | |exact Hs];
    cbn [Aux.starts_space append] in *.
  - rewrite orb_false_r in Hs. rewrite Hs. cbn [orb].
    destruct right as [|b right']; [reflexivity|].
    destruct (lead_not_second b Hhead) as [H2 H3]. rewrite H2. cbn [orb].
    destruct right' as [|b' right'']; [reflexivity | apply H3].
  - rewrite orb_false_r in Hs. apply orb_false_elim in Hs as [Hc H2].
    rewrite Hc, H2. cbn [orb].
    destruct right as [|b right']; [reflexivity|].
    now apply lead_not_third.
Qed.

Lemma lstrip_space_app_not_blank s right :
  Aux.blank s = false ->
  Aux.blank right = true ->
  PyStr.lstrip_space (s ++ right) = PyStr.lstrip_space s ++ right.
Proof.
  rewrite not_blank_iff. intros Hs Hr. revert Hs.
  induction s as [c rest Hc IH|c d rest H2 IH|c d e rest H3 IH|s Hfixed]
    using space_ind; intros Hs.
  - rewrite lstrip_space_ws in Hs by exact Hc.
    cbn [append]. rewrite !lstrip_space_ws by exact Hc. now apply IH.
  - rewrite lstrip_space_two in Hs by exact H2.
    cbn [append]. rewrite !lstrip_space_two by exact H2. now apply IH.
  - rewrite lstrip_space_three in Hs by exact H3.
    cbn [append]. rewrite !lstrip_space_three by exact H3. now apply IH.
  - rewrite (lstrip_space_fixed s Hfixed) in *.
    apply lstrip_space_fixed. now apply starts_space_app.
Qed.

Lemma blank_app left s :
  Aux.blank left = true -> Aux.blank (left ++ s) = Aux.blank s.
Proof.
  intros H. unfold Aux.blank. now rewrite lstrip_space_app_blank.
Qed.

(** *** Trailing whitespace *)

Lemma rstrip_space_blank s :
  Aux.blank s = true -> PyStr.rstrip_space s = "".
Proof.
  rewrite blank_iff. intros H. destruct s as [|c rest]; [reflexivity|].
  cbn [PyStr.rstrip_space]. now rewrite H.
Qed.

Lemma rstrip_space_nil s :
  PyStr.rstrip_space s = "" -> Aux.blank s = true.
Proof.
  rewrite blank_iff. destruct s as [|c rest]; [reflexivity|].
  cbn [PyStr.rstrip_space].
  destruct (PyStr.lstrip_space (String c rest)); [reflexivity | discriminate].
Qed.

Lemma rstrip_space_cons c rest :
  Aux.blank (String c rest) = false ->
  PyStr.rstrip_space (String c rest) = String c (PyStr.rstrip_space rest).
Proof.
  rewrite not_blank_iff. intros H. cbn [PyStr.rstrip_space].
  destruct (PyStr.lstrip_space (String c rest)); [contradiction | reflexivity].
Qed.

Lemma rstrip_space_app_blank s right :
  Aux.blank right = true ->
  PyStr.rstrip_space (s ++ right) = PyStr.rstrip_space s.
Proof.
  intros Hr. induction s as [|c s IH]; [now apply rstrip_space_blank|].
  destruct (Aux.blank (String c s)) eqn:Hs.
  - rewrite (rstrip_space_blank _ Hs). apply rstrip_space_blank.
    now rewrite blank_app.
  - rewrite (rstrip_space_cons c s Hs). cbn [append].
    rewrite rstrip_space_cons, IH; [reflexivity|].
    apply not_blank_iff. change (String c (s ++ right)) with (String c s ++ right).
    rewrite (lstrip_space_app_not_blank _ _ Hs Hr).
    apply not_blank_iff in Hs. intros E. apply Hs.
    destruct (PyStr.lstrip_space (String c s)); [reflexivity | discriminate].
Qed.

(** A string is what [rstrip_space] keeps of it, followed by a blank
    string. *)
Lemma rstrip_space_split s :
  exists right, s = PyStr.rstrip_space s ++ right /\ Aux.blank right = true.
Proof.
  induction s as [|c s (right & Hs & Hr)]; [now exists ""|].
  destruct (Aux.blank (String c s)) eqn:Hb.
  - exists (String c s). now rewrite (rstrip_space_blank _ Hb).
  - exists right. rewrite (rstrip_space_cons c s Hb). cbn [append].
    now rewrite <- Hs.
Qed.

Lemma rstrip_space_idempotent s :
  PyStr.rstrip_space (PyStr.rstrip_space s) = PyStr.rstrip_space s.
Proof.
  destruct (rstrip_space_split s) as (right & Hs & Hr).
  rewrite Hs at 2. now rewrite rstrip_space_app_blank.
Qed.

Lemma starts_space_prefix s right :
  Aux.starts_space s = true -> Aux.starts_space (s ++ right) = true.
Proof.
  destruct s as [|c [|d [|e rest]]]; cbn [Aux.starts_space append];
    intros H; try discriminate.
  - rewrite orb_false_r in H. now rewrite H.
  - rewrite orb_false_r in H. apply orb_prop in H as [->| ->];
      [reflexivity | apply orb_true_iff; right; reflexivity].
  - exact H.
Qed.

(** *** [strip] *)

Lemma strip_padding (left value right : string) :
  Aux.blank left = true ->
  Aux.blank right = true ->
  PyStr.strip (left ++ value ++ right) = PyStr.strip value.
Proof.
  intros Hl Hr. unfold PyStr.strip.
  rewrite (lstrip_space_app_blank left _ Hl).
  destruct (Aux.blank value) eqn:Hv.
  - rewrite (lstrip_space_app_blank value _ Hv).
    apply blank_iff in Hr, Hv. now rewrite Hr, Hv.
  - rewrite (lstrip_space_app_not_blank value right Hv Hr).
    now apply rstrip_space_app_blank.
Qed.

Lemma strip_nil_iff (value : string) :
  PyStr.strip value = "" <-> Aux.blank value = true.
Proof.
  unfold PyStr.strip. split.
  - intros H. apply rstrip_space_nil, blank_iff in H.
    rewrite lstrip_space_idempotent in H. now apply blank_iff.
  - intros H. apply blank_iff in H. now rewrite H.
Qed.

Lemma strip_idempotent (value : string) :
  PyStr.strip (PyStr.strip value) = PyStr.strip value.
Proof.
  unfold PyStr.strip.
  assert (Hfixed : PyStr.lstrip_space (PyStr.rstrip_space (PyStr.lstrip_space value))
                   = PyStr.rstrip_space (PyStr.lstrip_space value)).
  { destruct (lstrip_space_head value) as [->|[_ Hhead]]; [reflexivity|].
    apply lstrip_space_fixed.
    destruct (Aux.starts_space (PyStr.rstrip_space (PyStr.lstrip_space value)))
      eqn:E; [|reflexivity].
    destruct (rstrip_space_split (PyStr.lstrip_space value)) as (right & Hs & _).
    apply (starts_space_prefix _ right) in E. rewrite <- Hs in E. congruence. }
  rewrite Hfixed. apply rstrip_space_idempotent.
Qed.

(** *** [lower] *)

Lemma starts_space_lower s :
  Aux.starts_space (PyStr.lower s) = Aux.starts_space s.
Proof.
  destruct s as [|c [|d [|e rest]]]; cbn [Aux.starts_space PyStr.lower];
    try reflexivity.
  - now rewrite (proj1 (lower_ascii_byte c)).
  - destruct (lower_ascii_byte c) as (Hc & Hc2 & _).
    destruct (lower_ascii_byte d) as (_ & _ & Hd2 & _).
    now rewrite Hc, Hc2, Hd2.
  - destruct (lower_ascii_byte c) as (Hc & Hc2 & _ & Hc3 & _).
    destruct (lower_ascii_byte d) as (_ & _ & Hd2 & _ & Hd3 & _).
    destruct (lower_ascii_byte e) as (_ & _ & _ & _ & _ & He3).
    now rewrite Hc, Hc2, Hd2, Hc3, Hd3, He3.
Qed.

Lemma lstrip_space_lower s :
  PyStr.lower (PyStr.lstrip_space s) = PyStr.lstrip_space (PyStr.lower s).
Proof.
  induction s as [c rest Hc IH|c d rest H2 IH|c d e rest H3 IH|s Hs]
    using space_ind.
  - cbn [PyStr.lower]. rewrite !lstrip_space_ws; [exact IH| |exact Hc].
    now rewrite (proj1 (lower_ascii_byte c)).
  - cbn [PyStr.lower]. rewrite !lstrip_space_two; [exact IH| |exact H2].
    destruct (lower_ascii_byte c) as (_ & Hc2 & _).
    destruct (lower_ascii_byte d) as (_ & _ & Hd2 & _).
    now rewrite Hc2, Hd2.
  - cbn [PyStr.lower]. rewrite !lstrip_space_three; [exact IH| |exact H3].
    destruct (lower_ascii_byte c) as (_ & _ & _ & Hc3 & _).
    destruct (lower_ascii_byte d) as (_ & _ & _ & _ & Hd3 & _).
    destruct (lower_ascii_byte e) as (_ & _ & _ & _ & _ & He3).
    now rewrite Hc3, Hd3, He3.
  - rewrite (lstrip_space_fixed s Hs). symmetry. apply lstrip_space_fixed.
    now rewrite starts_space_lower.
Qed.

Lemma rstrip_space_lower s :
  PyStr.lower (PyStr.rstrip_space s) = PyStr.rstrip_space (PyStr.lower s).
Proof.
  induction s as [|c s IH]; [reflexivity|].
  cbn [PyStr.rstrip_space PyStr.lower].
  change (PyStr.lstrip_space (String (PyStr.lower_ascii c) (PyStr.lower s)))
    with (PyStr.lstrip_space (PyStr.lower (String c s))).
  rewrite <- lstrip_space_lower.
  destruct (PyStr.lstrip_space (String c s)); cbn [PyStr.lower];
    [reflexivity | now rewrite IH].
Qed.

Lemma strip_lower s : PyStr.lower (PyStr.strip s) = PyStr.strip (PyStr.lower s).
Proof. unfold PyStr.strip. now rewrite rstrip_space_lower, lstrip_space_lower. Qed.

End WhitespaceFacts.

(** X27: [env_bool] reads a set variable up to padding and letter case:
    whitespace around the value and the case of its letters make no
    difference, and the default plays no part once the variable is set. *)
Theorem env_bool_ignores_padding_and_case
    getenv1 getenv2 name default1 default2 left value1 value2 right :
  getenv1 name = Some (left ++ value1 ++ right) ->
  getenv2 name = Some value2 ->
  Aux.blank left = true ->
  Aux.blank right = true ->
  PyStr.lower value1 = PyStr.lower value2 ->
  env_bool getenv1 name default1 = env_bool getenv2 name default2.
Proof.
  intros H1 H2 Hl Hr Hcase. unfold env_bool. rewrite H1, H2.
  now rewrite (strip_padding left value1 right Hl Hr), !strip_lower, Hcase.
Qed.

(** X28: [get_client] builds a client only with a key: it fails, with the
    message that the key is required, exactly when [DEEPSEEK_API_KEY] is
    unset or holds nothing but whitespace; the key of the client it builds
    is the value without the whitespace around it, and is not empty. *)
Theorem get_client_requires_a_key getenv py_int :
  match get_client getenv py_int with
  | inl message =>
      message = "DEEPSEEK_API_KEY is required"
      /\ (getenv "DEEPSEEK_API_KEY" = None
          \/ exists value,
               getenv "DEEPSEEK_API_KEY" = Some value
               /\ Aux.blank value = true)
  | inr config =>
      exists value,
        getenv "DEEPSEEK_API_KEY" = Some value
        /\ Aux.blank value = false
        /\ api_key config = PyStr.strip value
        /\ api_key config <> ""
        /\ PyStr.strip (api_key config) = api_key config
  end.
Proof.
  unfold get_client, getenv_default.
  destruct (getenv "DEEPSEEK_API_KEY") as [value|]; [|split; auto].
  destruct (String.eqb_spec (PyStr.strip value) "") as [E|E].
  - split; [reflexivity|]. right. exists value. split; [reflexivity|].
    now apply strip_nil_iff.
  - exists value. cbn [api_key]. split; [reflexivity|].
    split; [|split; [reflexivity|split; [exact E|apply strip_idempotent]]].
    destruct (Aux.blank value) eqn:Hb; [|reflexivity].
    apply strip_nil_iff in Hb. contradiction.
Qed.

(** ** The further theorems on concrete runs *)

(** The reasoner model is asked for, the fallback is enabled and goes to
    another model, and the server cannot be reached: the call raises what
    the HTTP library raised, after its one request. *)
Lemma reasoner_fallback_misses_network_failure_witness :
  let s := Scripted.unreachable_call in
  let s2 := snd (Scripted.first_chat 0%nat s) in
  enable_reasoner_fallback Scripted.config = true
  /\ requested_model Scripted.World Scripted.py_repr Scripted.config 0%nat s
     = "deepseek-reasoner"
  /\ fallback_model Scripted.config <> "deepseek-reasoner"
  /\ Scripted.first_chat 0%nat s
     = (Raise (TransportError "connection refused"), s2)
  /\ Scripted.chat 0%nat s = (Raise (TransportError "connection refused"), s2)
  /\ (exists first, sent s2 = (sent s ++ [first])%list).
Proof.
  intros s s2.
  assert (Hdistinct : fallback_model Scripted.config <> "deepseek-reasoner")
    by discriminate.
  assert (Hfirst : Scripted.first_chat 0%nat s
                   = (Raise (TransportError "connection refused"), s2))
    by (vm_compute; reflexivity).
  destruct (reasoner_fallback_misses_network_failure
              Scripted.World Scripted.http Scripted.clock Scripted.json_loads
              Scripted.py_repr Scripted.config 0%nat s "connection refused" s2
              eq_refl eq_refl Hdistinct Hfirst) as (_ & Hcall & Hsent & _).
  split; [reflexivity|]. split; [reflexivity|]. split; [exact Hdistinct|].
  split; [exact Hfirst|]. split; [exact Hcall | exact Hsent].
Defined.

Lemma classifiers_agree_witness :
  let response :=
    {| status_code := 500; text := "oops";
       response_json := Scripted.json_loads "oops"; lines := [] |} in
  response_json response = Scripted.json_loads (text response)
  /\ Aux.message_decided (Scripted.json_loads (text response)) = true
  /\ make_api_error response
     = make_api_error_from_text Scripted.json_loads 500 "oops".
Proof.
  intros response. split; [reflexivity|]. split; [reflexivity|].
  apply (classifiers_agree Scripted.json_loads response); reflexivity.
Defined.

Lemma create_methods_requests_are_standard_witness :
  heap Scripted.reasoner_call !! (0%nat : loc)
  = Some [("messages", JList []); ("model", JStr "deepseek-reasoner")]
  /\ (exists requests,
        sent (snd (Scripted.chat 0%nat Scripted.reasoner_call))
        = (sent Scripted.reasoner_call ++ requests)%list
        /\ Forall (Aux.standard_request Scripted.config) requests)
  /\ (exists requests,
        sent (snd (Scripted.plain 0%nat Scripted.reasoner_call))
        = (sent Scripted.reasoner_call ++ requests)%list
        /\ Forall (Aux.standard_request Scripted.config) requests).
Proof.
  split; [reflexivity|].
  apply (create_methods_requests_are_standard
           Scripted.World Scripted.http Scripted.clock Scripted.json_loads
           Scripted.py_repr Scripted.config 0%nat
           [("messages", JList []); ("model", JStr "deepseek-reasoner")]
           Scripted.reasoner_call).
  reflexivity.
Defined.

Lemma fallback_request_changes_only_model_witness :
  exists first retry,
    sent (snd (Scripted.chat 0%nat Scripted.reasoner_call))
    = (sent Scripted.reasoner_call ++ [first; retry])%list
    /\ exists d,
         body first = Some d
         /\ Py.get d "model" = JStr "deepseek-reasoner"
         /\ fallback_model Scripted.config <> "deepseek-reasoner"
         /\ retry = {| method := method first;
                       url := url first;
                       headers := headers first;
                       body := Some (Py.set d "model"
                                       (JStr (fallback_model Scripted.config)));
                       timeout := timeout first;
                       streamed := streamed first |}.
Proof.
  assert (H : { pair : Request * Request
              | sent (snd (Scripted.chat 0%nat Scripted.reasoner_call))
                = (sent Scripted.reasoner_call ++ [fst pair; snd pair])%list }).
  { vm_compute. eexists (_, _). reflexivity. }
  destruct H as [[first retry] H]. exists first, retry. split; [exact H|].
  exact (fallback_request_changes_only_model
           Scripted.World Scripted.http Scripted.clock Scripted.json_loads
           Scripted.py_repr Scripted.config 0%nat Scripted.reasoner_call
           first retry H).
Defined.

Lemma chat_result_records_fallback_witness :
  exists response s',
    Scripted.chat 0%nat Scripted.reasoner_call = (Ok response, s')
    /\ ((field response "fallback" = JNull
         /\ exists first, sent s' = (sent Scripted.reasoner_call ++ [first])%list)
        \/ (exists error first retry,
              fst (Scripted.first_chat 0%nat Scripted.reasoner_call)
              = Raise (DeepSeekApiError error)
              /\ field response "fallback"
                 = JDict [("from_model",
                           JStr (requested_model Scripted.World Scripted.py_repr
                                   Scripted.config 0%nat Scripted.reasoner_call));
                          ("to_model", JStr (fallback_model Scripted.config));
                          ("reason", JStr (message error))]
              /\ sent s' = (sent Scripted.reasoner_call ++ [first; retry])%list)).
Proof.
  assert (H : { result : json * state Scripted.World
              | Scripted.chat 0%nat Scripted.reasoner_call
                = (Ok (fst result), snd result) }).
  { vm_compute. eexists (_, _). reflexivity. }
  destruct H as [[response s'] H]. exists response, s'. split; [exact H|].
  exact (chat_result_records_fallback
           Scripted.World Scripted.http Scripted.clock Scripted.json_loads
           Scripted.py_repr Scripted.config 0%nat Scripted.reasoner_call
           response s' H).
Defined.

Lemma completion_result_records_beta_witness :
  exists response s',
    Scripted.plain 0%nat Calls.beta_success_call = (Ok response, s')
    /\ ((field response "used_beta_base" = JBool false
         /\ exists first,
              sent s' = (sent Calls.beta_success_call ++ [first])%list)
        \/ (field response "used_beta_base" = JBool true
            /\ exists first retry,
                 sent s' = (sent Calls.beta_success_call ++ [first; retry])%list
                 /\ url retry
                    = build_beta_base_url (base_url Scripted.config)
                      ++ "/completions")).
Proof.
  assert (H : { result : json * state Scripted.World
              | Scripted.plain 0%nat Calls.beta_success_call
                = (Ok (fst result), snd result) }).
  { vm_compute. eexists (_, _). reflexivity. }
  destruct H as [[response s'] H]. exists response, s'. split; [exact H|].
  exact (completion_result_records_beta
           Scripted.World Scripted.http Scripted.clock Scripted.json_loads
           Scripted.py_repr Scripted.config 0%nat Calls.beta_success_call
           response s' H).
Defined.

(** The server asks for the beta base: the completion is sent again, to
    the beta base. *)
Lemma beta_retry_attempted_iff_witness :
  let s := Scripted.beta_call in
  let error := {| message := "Use the BETA base";
                  status := Some 400; payload := JNull |} in
  fst (Scripted.first_plain 0%nat s) = Raise (DeepSeekApiError error)
  /\ should_retry_completion_on_beta error = true
  /\ exists retry,
       sent (snd (Scripted.plain 0%nat s))
       = (sent (snd (Scripted.first_plain 0%nat s)) ++ [retry])%list
       /\ url retry
          = build_beta_base_url (base_url Scripted.config) ++ "/completions".
Proof.
  intros s error.
  assert (H : fst (Scripted.first_plain 0%nat s) = Raise (DeepSeekApiError error))
    by (vm_compute; reflexivity).
  split; [exact H|]. split; [reflexivity|].
  apply (proj1 (beta_retry_attempted_iff
                  Scripted.World Scripted.http Scripted.clock Scripted.json_loads
                  Scripted.py_repr Scripted.config 0%nat s)).
  exists error. split; [exact H | reflexivity].
Defined.

(** The server cannot be reached: the call ends with what the transport
    raised, after one request. *)
Lemma other_exceptions_end_the_call_witness :
  let s := Scripted.unreachable_call in
  let e := TransportError "connection refused" in
  let s2 := snd (Scripted.first_chat 0%nat s) in
  (forall error, e <> DeepSeekApiError error)
  /\ Scripted.first_chat 0%nat s = (Raise e, s2)
  /\ Scripted.chat 0%nat s = (Raise e, s2).
Proof.
  intros s e s2.
  assert (Hother : forall error, e <> DeepSeekApiError error) by discriminate.
  assert (H : Scripted.first_chat 0%nat s = (Raise e, s2))
    by (vm_compute; reflexivity).
  split; [exact Hother|]. split; [exact H|].
  exact (proj1 (other_exceptions_end_the_call
                  Scripted.World Scripted.http Scripted.clock Scripted.json_loads
                  Scripted.py_repr Scripted.config 0%nat s e s2 Hother) H).
Defined.

(** The error of the beta retry reaches the caller with its status and
    the body text as its message. *)
Lemma client_errors_are_classified_witness :
  exists error s',
    Scripted.plain 0%nat Scripted.beta_call = (Raise (DeepSeekApiError error), s')
    /\ (exists code, status error = Some code) /\ message error <> "".
Proof.
  assert (H : { result : ApiError * state Scripted.World
              | Scripted.plain 0%nat Scripted.beta_call
                = (Raise (DeepSeekApiError (fst result)), snd result) }).
  { vm_compute. eexists (_, _). reflexivity. }
  destruct H as [[error s'] H]. exists error, s'. split; [exact H|].
  apply (client_errors_are_classified
           Scripted.World Scripted.http Scripted.clock Scripted.json_loads
           Scripted.py_repr Scripted.config 0%nat Scripted.beta_call error s').
  right. left. exact H.
Defined.

Lemma sse_done_ends_the_stream_witness :
  Aux.is_done Calls.padded_done_line = true
  /\ sse_chunks Scripted.json_loads
       ([": keep-alive"; "data: {}"] ++ Calls.padded_done_line :: ["data: [1]"])%list
     = sse_chunks Scripted.json_loads [": keep-alive"; "data: {}"].
Proof.
  split; [reflexivity|].
  apply (sse_done_ends_the_stream Scripted.json_loads). reflexivity.
Defined.

Lemma sse_ignored_line_is_dropped_witness :
  Aux.is_ignored Scripted.json_loads "data: {oops" = true
  /\ sse_chunks Scripted.json_loads
       (["data: {}"] ++ "data: {oops" :: ["data: [1]"])%list
     = sse_chunks Scripted.json_loads (["data: {}"] ++ ["data: [1]"])%list.
Proof.
  split; [reflexivity|].
  apply (sse_ignored_line_is_dropped Scripted.json_loads). reflexivity.
Defined.

Lemma sse_chunks_of_concatenation_witness :
  forallb (fun line => negb (Aux.is_done line)) ["data: {}"; ""] = true
  /\ sse_chunks Scripted.json_loads
       (["data: {}"; ""] ++ Calls.stream_lines)%list
     = Aux.chunks_in_a_row
         (sse_chunks Scripted.json_loads ["data: {}"; ""])
         (sse_chunks Scripted.json_loads Calls.stream_lines).
Proof.
  split; [reflexivity|].
  apply (sse_chunks_of_concatenation Scripted.json_loads). reflexivity.
Defined.

Lemma aggregation_of_concatenated_chunks_witness :
  Spec.chat_chunks_shaped Scripted.hello_chunks = true
  /\ Spec.chat_chunks_shaped Scripted.two_choice_chunks = true
  /\ (exists whole part1 part2 text1 text2,
        fst (Scripted.aggregate_chat
               (Scripted.hello_chunks ++ Scripted.two_choice_chunks)%list "m"
               (Scripted.start [] [])) = Ok whole
        /\ fst (Scripted.aggregate_chat Scripted.hello_chunks "m1"
                  (Scripted.start [] [])) = Ok part1
        /\ fst (Scripted.aggregate_chat Scripted.two_choice_chunks "m2"
                  (Scripted.start [] [])) = Ok part2
        /\ Aux.content_of part1 = JStr text1
        /\ Aux.content_of part2 = JStr text2
        /\ Aux.content_of whole = JStr (text1 ++ text2)
        /\ Aux.finish_of whole
           = Py.or_else (Aux.finish_of part2) (Aux.finish_of part1)).
Proof.
  split; [reflexivity|]. split; [reflexivity|].
  exact (proj1 (aggregation_of_concatenated_chunks
                  Scripted.World Scripted.clock Scripted.py_repr
                  Scripted.hello_chunks Scripted.two_choice_chunks "m" "m1" "m2"
                  (Scripted.start [] []) (Scripted.start [] [])
                  (Scripted.start [] []) eq_refl eq_refl)).
Defined.

Lemma reasoning_content_only_when_streamed_witness :
  Spec.chat_chunks_shaped Calls.reasoning_chunks = true
  /\ exists response s',
       Scripted.aggregate_chat Calls.reasoning_chunks "deepseek-reasoner"
         (Scripted.start [] []) = (Ok response, s')
       /\ Aux.reasoning_of response
          = match Spec.fragments (Spec.delta_str "reasoning_content")
                    (Spec.all_choices Calls.reasoning_chunks) with
            | [] => None
            | (_ :: _) as parts => Some (JStr (PyStr.join parts))
            end.
Proof.
  split; [reflexivity|].
  exact (reasoning_content_only_when_streamed
           Scripted.World Scripted.clock Scripted.py_repr
           Calls.reasoning_chunks "deepseek-reasoner" (Scripted.start [] [])
           eq_refl).
Defined.

Lemma aggregation_without_clock_witness :
  let first := hd JNull Scripted.hello_chunks in
  let rest := tl Scripted.hello_chunks in
  Spec.completion_chunks_shaped (first :: rest) = true
  /\ Py.truthy (field first "id") = true
  /\ Py.truthy (field (List.last (first :: rest) first) "created")
     || Py.truthy (field first "created") = true
  /\ Spec.chat_chunks_shaped (first :: rest) = true
  /\ (exists response,
        forall s : state Scripted.World,
          Scripted.aggregate_chat (first :: rest) "m" s = (Ok response, s))
  /\ (exists response,
        forall s : state Scripted.World,
          Scripted.aggregate_completion (first :: rest) "m" s = (Ok response, s)).
Proof.
  intros first rest.
  pose proof (aggregation_without_clock
                Scripted.World Scripted.clock Scripted.py_repr first rest "m"
                eq_refl eq_refl eq_refl) as [Hchat Hplain].
  split; [reflexivity|]. split; [reflexivity|]. split; [reflexivity|].
  split; [reflexivity|]. split; [exact (Hchat eq_refl) | exact Hplain].
Defined.

Lemma streamed_chat_completion_returns_the_stream_witness :
  let s := Calls.streamed_call in
  Py.truthy (Py.get (default [] (heap s !! (0%nat : loc))) "stream") = true
  /\ status_code Calls.streamed_response < 400
  /\ sse_chunks Scripted.json_loads (lines Calls.streamed_response)
     = Ok [JDict []; JDict []]
  /\ Spec.chat_chunks_shaped [JDict []; JDict []] = true
  /\ exists aggregated s',
       Scripted.chat 0%nat s
       = (Ok (JDict [("response", aggregated);
                     ("fallback", JNull);
                     ("stream_chunk_count", JInt 2)]), s')
       /\ Aux.content_of aggregated = JStr "".
Proof.
  intros s.
  split; [reflexivity|]. split; [reflexivity|]. split; [reflexivity|].
  split; [reflexivity|].
  destruct (streamed_chat_completion_returns_the_stream
              Scripted.World Scripted.http Scripted.clock Scripted.json_loads
              Scripted.py_repr Scripted.config 0%nat s Calls.streamed_response
              {| Scripted.replies := []; Scripted.time := 1700000000 |}
              [JDict []; JDict []]
              eq_refl eq_refl eq_refl eq_refl eq_refl)
    as (aggregated & s' & Hcall & _ & _ & Hcontent & _).
  exists aggregated, s'. split; [exact Hcall | exact Hcontent].
Defined.

Lemma streamed_completion_returns_the_stream_witness :
  let s := Calls.streamed_call in
  Py.truthy (Py.get (default [] (heap s !! (0%nat : loc))) "stream") = true
  /\ status_code Calls.streamed_response < 400
  /\ sse_chunks Scripted.json_loads (lines Calls.streamed_response)
     = Ok [JDict []; JDict []]
  /\ Spec.completion_chunks_shaped [JDict []; JDict []] = true
  /\ exists aggregated s',
       Scripted.plain 0%nat s
       = (Ok (JDict [("response", aggregated);
                     ("used_beta_base", JBool false);
                     ("stream_chunk_count", JInt 2)]), s')
       /\ Aux.text_of aggregated = JStr "".
Proof.
  intros s.
  split; [reflexivity|]. split; [reflexivity|]. split; [reflexivity|].
  split; [reflexivity|].
  destruct (streamed_completion_returns_the_stream
              Scripted.World Scripted.http Scripted.clock Scripted.json_loads
              Scripted.py_repr Scripted.config 0%nat s Calls.streamed_response
              {| Scripted.replies := []; Scripted.time := 1700000000 |}
              [JDict []; JDict []]
              eq_refl eq_refl eq_refl eq_refl eq_refl)
    as (aggregated & s' & Hcall & _ & _ & Htext & _).
  exists aggregated, s'. split; [exact Hcall | exact Htext].
Defined.

Lemma env_bool_ignores_padding_and_case_witness :
  let left := " " ++ Calls.wide_space in
  let right := Calls.nbsp in
  Aux.blank left = true
  /\ Aux.blank right = true
  /\ PyStr.lower "Yes" = PyStr.lower "yes"
  /\ env_bool (Calls.constant_env (left ++ "Yes" ++ right))
       "DEEPSEEK_ENABLE_REASONER_FALLBACK" false
     = env_bool (Calls.constant_env "yes") "DEEPSEEK_ENABLE_REASONER_FALLBACK" true.
Proof.
  intros left right.
  split; [reflexivity|]. split; [reflexivity|]. split; [reflexivity|].
  exact (env_bool_ignores_padding_and_case
           (Calls.constant_env (left ++ "Yes" ++ right)) (Calls.constant_env "yes")
           "DEEPSEEK_ENABLE_REASONER_FALLBACK" false true left "Yes" "yes" right
           eq_refl eq_refl eq_refl eq_refl eq_refl).
Defined.
